(** * Session and cache layer of the Ambica Bangles storefront

    A shallow embedding of [AuthService] (token store and session manager),
    of [UserService] (profile and address cache manager) and of the part
    of [AuthStateManager] that acts on the session, with the browser
    primitives they call, followed by the properties of the specification
    that concern them and by further properties of the code.

    Conventions of the embedding:
    - a JavaScript string is a [string], read as a sequence of code units
      in the range 0..255; the character classes of the regular
      expressions and of the decoders are given on that range, and the
      password pattern, whose [.] tells code units above 255 apart, on
      all code units as well;
    - a number is a binary64 value, kept as the rational it stands for:
      a literal read from JSON, the quotient [Date.now() / 1000] and a
      difference are rounded to the nearest double, ties to even; the
      clock [Date.now()] is an integer number of milliseconds;
    - [localStorage] and [sessionStorage] are records with one optional
      field per key the two services use; a value stored as JSON text is
      kept as the value it is the text of; the write of the address
      cache, the one write whose failure the source provides for, is
      taken or refused as the browser decides;
    - dispatching an event runs the listeners that the state manager
      registers on [window], before the call returns;
    - an [async] method runs to completion as a state-passing computation
      that may throw; it is given the backend it awaits, which answers a
      request with a resolved response or with a rejection;
    - every access to storage, every request, every dispatched event and
      every console error is recorded on the page, so that a property
      can say what an operation did not do.

    The file has two parts: the definitions, taken from the sources, with
    the predicates the specification is stated with; then the lemmas and
    the theorems. *)

From Stdlib Require Import ZArith NArith QArith String Ascii List Bool Lia.
From Stdlib Require Import DecimalString Lqa.
Import ListNotations.

Close Scope Q_scope.
Local Open Scope string_scope.
Local Open Scope list_scope.

Set Implicit Arguments.
Set Warnings "-register-all".

(** ** JavaScript strings *)

Module JsString.

Definition code (c : ascii) : N := N_of_ascii c.

Definition chars (s : string) : list ascii := list_ascii_of_string s.
Definition of_chars (l : list ascii) : string := string_of_list_ascii l.

(** [!s] for a string-or-undefined value: [undefined], [null] and the
    empty string are the falsy ones. *)
Definition falsy (v : option string) : bool :=
  match v with
  | None => true
  | Some s => String.eqb s ""
  end.

Definition in_range (lo hi : N) (c : ascii) : bool :=
  (lo <=? code c)%N && (code c <=? hi)%N.

Definition is_char (x : ascii) (c : ascii) : bool := Ascii.eqb x c.

(** [\d] *)
Definition is_digit : ascii -> bool := in_range 48 57.
(** [[a-z]] and [[A-Z]] *)
Definition is_lower : ascii -> bool := in_range 97 122.
Definition is_upper : ascii -> bool := in_range 65 90.

(** [\s], and the characters [String.prototype.trim] removes: TAB, LF,
    VT, FF, CR, SPACE and NBSP are the ones below 256. *)
Definition is_space (c : ascii) : bool :=
  in_range 9 13 c || (code c =? 32)%N || (code c =? 160)%N.

(** The characters below 256 that [.] does not match: LF and CR.  The
    other two, U+2028 and U+2029, are in [CodeUnit.is_line_terminator]. *)
Definition is_line_terminator (c : ascii) : bool :=
  (code c =? 10)%N || (code c =? 13)%N.

Definition is_dot (c : ascii) : bool := negb (is_line_terminator c).

Fixpoint drop_while (p : ascii -> bool) (l : list ascii) : list ascii :=
  match l with
  | [] => []
  | c :: r => if p c then drop_while p r else l
  end.

(** [s.trim()] *)
Definition trim (s : string) : string :=
  of_chars (rev (drop_while is_space (rev (drop_while is_space (chars s))))).

(** [s.toLowerCase()] on code units below 256: A-Z, and the Latin-1
    capitals U+00C0..U+00DE except the multiplication sign U+00D7. *)
Definition lower_char (c : ascii) : ascii :=
  if is_upper c || (in_range 192 222 c && negb (code c =? 215)%N)
  then ascii_of_N (code c + 32)
  else c.

Definition toLowerCase (s : string) : string :=
  of_chars (map lower_char (chars s)).

(** [s.startsWith(p)] *)
Definition startsWith (p s : string) : bool := String.prefix p s.

(** [s.split(sep)] for a one-character separator: never empty. *)
Fixpoint split_chars (sep : ascii) (cur : list ascii) (l : list ascii)
  : list (list ascii) :=
  match l with
  | [] => [rev cur]
  | c :: r =>
      if Ascii.eqb c sep then rev cur :: split_chars sep [] r
      else split_chars sep (c :: cur) r
  end.

Definition split (sep : ascii) (s : string) : list string :=
  map of_chars (split_chars sep [] (chars s)).

(** [s.replace(/x/g, y)] for single characters [x] and [y]. *)
Definition replace_all (x y : ascii) (s : string) : string :=
  of_chars (map (fun c => if Ascii.eqb c x then y else c) (chars s)).

(** [String(n)] for an integer [n] in the range where JavaScript prints
    every digit (below 1e21, which covers every [Date.now()]). *)
Definition of_int (n : Z) : string := NilZero.string_of_int (Z.to_int n).

(** A character other than the point that separates the segments of a
    token. *)
Definition no_dot (c : ascii) : Prop := Ascii.eqb c "." = false.

End JsString.

(** ** Regular expressions

    The patterns of the two services are anchored at both ends, so a
    [test] is a match of the whole string.  Character classes are
    predicates; [And] is the intersection, which is what a look-ahead at
    the start of an anchored pattern amounts to. *)

Module Regex.

Section Alphabet.

(** The characters: the code units of a string. *)
Variable A : Type.

Inductive t : Type :=
| Void
| Eps
| Cls (p : A -> bool)
| Seq (r1 r2 : t)
| Alt (r1 r2 : t)
| And (r1 r2 : t)
| Star (r : t).

Fixpoint nullable (r : t) : bool :=
  match r with
  | Void => false
  | Eps => true
  | Cls _ => false
  | Seq r1 r2 => nullable r1 && nullable r2
  | Alt r1 r2 => nullable r1 || nullable r2
  | And r1 r2 => nullable r1 && nullable r2
  | Star _ => true
  end.

Fixpoint deriv (c : A) (r : t) : t :=
  match r with
  | Void => Void
  | Eps => Void
  | Cls p => if p c then Eps else Void
  | Seq r1 r2 =>
      if nullable r1 then Alt (Seq (deriv c r1) r2) (deriv c r2)
      else Seq (deriv c r1) r2
  | Alt r1 r2 => Alt (deriv c r1) (deriv c r2)
  | And r1 r2 => And (deriv c r1) (deriv c r2)
  | Star r1 => Seq (deriv c r1) (Star r1)
  end.

Fixpoint matches (r : t) (l : list A) : bool :=
  match l with
  | [] => nullable r
  | c :: l' => matches (deriv c r) l'
  end.

(** The words of a pattern. *)
Inductive lang : t -> list A -> Prop :=
| L_eps : lang Eps []
| L_cls p c : p c = true -> lang (Cls p) [c]
| L_seq r1 r2 u v : lang r1 u -> lang r2 v -> lang (Seq r1 r2) (u ++ v)
| L_alt_l r1 r2 u : lang r1 u -> lang (Alt r1 r2) u
| L_alt_r r1 r2 u : lang r2 u -> lang (Alt r1 r2) u
| L_and r1 r2 u : lang r1 u -> lang r2 u -> lang (And r1 r2) u
| L_star_nil r : lang (Star r) []
| L_star_app r u v : lang r u -> lang (Star r) v -> lang (Star r) (u ++ v).

(** Derived forms. *)
Definition plus (r : t) : t := Seq r (Star r).
Definition opt (r : t) : t := Alt Eps r.

(** [r{n}] *)
Fixpoint times (n : nat) (r : t) : t :=
  match n with
  | O => Eps
  | S n' => Seq r (times n' r)
  end.

(** [r{0,m}] *)
Fixpoint upto (m : nat) (r : t) : t :=
  match m with
  | O => Eps
  | S m' => opt (Seq r (upto m' r))
  end.

(** [r{n,m}] with [n <= m], and [r{n,}] *)
Definition between (n m : nat) (r : t) : t := Seq (times n r) (upto (m - n) r).
Definition at_least (n : nat) (r : t) : t := Seq (times n r) (Star r).

(** [[\s\S]*] *)
Definition anything : t := Star (Cls (fun _ => true)).

(** A look-ahead [(?=r)] at the start of an anchored pattern: some
    prefix of the input matches [r]. *)
Definition lookahead (r : t) : t := Seq r anything.

End Alphabet.

Arguments Void {A}.
Arguments Eps {A}.
Arguments anything {A}.

(** [/^r$/.test(s)] *)
Definition test (r : t ascii) (s : string) : bool :=
  matches r (JsString.chars s).

Definition chr (c : ascii) : t ascii := Cls (JsString.is_char c).

End Regex.

(** ** Code units above 255

    [.] leaves out four line terminators, and two of them, U+2028 and
    U+2029, are not code units of a [string].  The password pattern, the
    one pattern of the two services with a [.], is therefore given on
    all code units as well; the letters and the digits of its classes
    are ranges below 128 on either alphabet. *)

Module CodeUnit.

Definition in_range (lo hi c : N) : bool := ((lo <=? c) && (c <=? hi))%N.

(** [\d], [[a-z]] and [[A-Z]] *)
Definition is_digit : N -> bool := in_range 48 57.
Definition is_lower : N -> bool := in_range 97 122.
Definition is_upper : N -> bool := in_range 65 90.

(** The characters [.] does not match: LF, CR, LINE SEPARATOR and
    PARAGRAPH SEPARATOR. *)
Definition is_line_terminator (c : N) : bool :=
  ((c =? 10) || (c =? 13) || (c =? 8232) || (c =? 8233))%N.

Definition is_dot (c : N) : bool := negb (is_line_terminator c).

(** The code units of a [string]. *)
Definition of_string (s : string) : list N :=
  map JsString.code (JsString.chars s).

(** [/^(?=.*[a-z])(?=.*[A-Z])(?=.*\d).{8,}$/] *)
Definition passwordRegex : Regex.t N :=
  let dots := Regex.Star (Regex.Cls is_dot) in
  Regex.And (Regex.lookahead (Regex.Seq dots (Regex.Cls is_lower)))
    (Regex.And (Regex.lookahead (Regex.Seq dots (Regex.Cls is_upper)))
       (Regex.And (Regex.lookahead (Regex.Seq dots (Regex.Cls is_digit)))
          (Regex.at_least 8 (Regex.Cls is_dot)))).

(** [validatePassword] of a password given by its code units. *)
Definition validatePassword (password : list N) : bool :=
  Regex.matches passwordRegex password.

End CodeUnit.

(** ** Exceptions and completions *)

Inductive exn : Type :=
| Error (message : string)
| TypeError
| SyntaxError
| URIError
| InvalidCharacterError.

Inductive result (A : Type) : Type :=
| Ok (a : A)
| Throw (e : exn).

Arguments Ok {A} a.
Arguments Throw {A} e.

Definition result_bind {A B} (r : result A) (k : A -> result B) : result B :=
  match r with
  | Ok a => k a
  | Throw e => Throw e
  end.

(** ** Browser decoders used by [parseJwt] *)

Module Browser.

Import JsString.

(** *** [atob]: the forgiving base64 decoder *)

Definition b64_value (c : ascii) : option N :=
  let n := code c in
  if is_upper c then Some (n - 65)%N
  else if is_lower c then Some (n - 97 + 26)%N
  else if is_digit c then Some (n - 48 + 52)%N
  else if (n =? 43)%N then Some 62%N
  else if (n =? 47)%N then Some 63%N
  else None.

(** TAB, LF, FF, CR and SPACE are dropped first. *)
Definition is_ascii_whitespace (c : ascii) : bool :=
  let n := code c in
  (n =? 9)%N || (n =? 10)%N || (n =? 12)%N || (n =? 13)%N || (n =? 32)%N.

Definition is_eq_sign (c : ascii) : bool := (code c =? 61)%N.

(** With a length that is a multiple of four, one or two trailing [=]
    are removed. *)
Definition strip_padding (l : list ascii) : list ascii :=
  if (length l mod 4 =? 0)%nat then
    match rev l with
    | a :: b :: r =>
        if is_eq_sign a then
          if is_eq_sign b then rev r else rev (b :: r)
        else l
    | _ => l
    end
  else l.

Fixpoint sextets (l : list ascii) : option (list N) :=
  match l with
  | [] => Some []
  | c :: r =>
      match b64_value c, sextets r with
      | Some v, Some vs => Some (v :: vs)
      | _, _ => None
      end
  end.

(** Four sextets give three bytes; a tail of three gives two bytes and
    a tail of two gives one, the spare bits being discarded. *)
Fixpoint bytes_of_sextets (l : list N) : list N :=
  match l with
  | a :: b :: c :: d :: r =>
      let w := (a * 262144 + b * 4096 + c * 64 + d)%N in
      (w / 65536)%N :: ((w / 256) mod 256)%N :: (w mod 256)%N
        :: bytes_of_sextets r
  | [a; b; c] =>
      let w := (a * 4096 + b * 64 + c)%N in
      [(w / 1024)%N; ((w / 4) mod 256)%N]
  | [a; b] => [((a * 64 + b) / 16)%N]
  | _ => []
  end.

Definition atob (s : string) : result (list N) :=
  let data := strip_padding
                (filter (fun c => negb (is_ascii_whitespace c)) (chars s)) in
  if (length data mod 4 =? 1)%nat then Throw InvalidCharacterError
  else
    match sextets data with
    | Some vs => Ok (bytes_of_sextets vs)
    | None => Throw InvalidCharacterError
    end.

(** *** Percent-escaping every byte and [decodeURIComponent]

    [atob(b).split('').map(c => '%' + hex2(c)).join('')] escapes every
    byte, so [decodeURIComponent] of it is the strict UTF-8 decoder:
    overlong forms, surrogates and values above U+10FFFF raise
    [URIError].  The result is the list of code points. *)

Definition is_continuation (b : N) : bool := (128 <=? b)%N && (b <? 192)%N.

Fixpoint utf8_decode (l : list N) : result (list N) :=
  match l with
  | [] => Ok []
  | b0 :: r =>
      if (b0 <? 128)%N then
        result_bind (utf8_decode r) (fun cs => Ok (b0 :: cs))
      else if (b0 <? 192)%N then Throw URIError
      else if (b0 <? 224)%N then
        match r with
        | b1 :: r1 =>
            let cp := ((b0 - 192) * 64 + (b1 - 128))%N in
            if is_continuation b1 && (128 <=? cp)%N then
              result_bind (utf8_decode r1) (fun cs => Ok (cp :: cs))
            else Throw URIError
        | _ => Throw URIError
        end
      else if (b0 <? 240)%N then
        match r with
        | b1 :: b2 :: r2 =>
            let cp := ((b0 - 224) * 4096 + (b1 - 128) * 64 + (b2 - 128))%N in
            if is_continuation b1 && is_continuation b2
               && (2048 <=? cp)%N
               && negb ((55296 <=? cp)%N && (cp <=? 57343)%N) then
              result_bind (utf8_decode r2) (fun cs => Ok (cp :: cs))
            else Throw URIError
        | _ => Throw URIError
        end
      else if (b0 <? 248)%N then
        match r with
        | b1 :: b2 :: b3 :: r3 =>
            let cp := ((b0 - 240) * 262144 + (b1 - 128) * 4096
                       + (b2 - 128) * 64 + (b3 - 128))%N in
            if is_continuation b1 && is_continuation b2 && is_continuation b3
               && (65536 <=? cp)%N && (cp <=? 1114111)%N then
              result_bind (utf8_decode r3) (fun cs => Ok (cp :: cs))
            else Throw URIError
        | _ => Throw URIError
        end
      else Throw URIError
  end.

End Browser.

(** ** JSON values and [JSON.parse] *)

Inductive json : Type :=
| JNull
| JBool (b : bool)
| JNum (q : Q)
| JStr (s : list N)
| JArr (items : list json)
| JObj (members : list (list N * json)).

Module Json.

(** Code points of an ASCII literal. *)
Definition lit (s : string) : list N := map JsString.code (JsString.chars s).

Definition is_ws (c : N) : bool :=
  (c =? 32)%N || (c =? 9)%N || (c =? 10)%N || (c =? 13)%N.

Fixpoint skip_ws (l : list N) : list N :=
  match l with
  | c :: r => if is_ws c then skip_ws r else l
  | [] => []
  end.

Definition is_digit (c : N) : bool := (48 <=? c)%N && (c <=? 57)%N.

Definition hex_value (c : N) : option N :=
  if is_digit c then Some (c - 48)%N
  else if (97 <=? c)%N && (c <=? 102)%N then Some (c - 87)%N
  else if (65 <=? c)%N && (c <=? 70)%N then Some (c - 55)%N
  else None.

(** The longest prefix of decimal digits, and what follows it. *)
Fixpoint span_digits (l : list N) : list N * list N :=
  match l with
  | c :: r =>
      if is_digit c then let (ds, rest) := span_digits r in (c :: ds, rest)
      else ([], l)
  | [] => ([], [])
  end.

Definition digits_value (ds : list N) : Z :=
  fold_left (fun acc d => (acc * 10 + Z.of_N (d - 48))%Z) ds 0%Z.

(** [m * 10^e] as a rational. *)
Definition scale10 (m e : Z) : Q :=
  if (0 <=? e)%Z then inject_Z (m * 10 ^ e)
  else Qmake m (Z.to_pos (10 ^ (- e))).

(** After [\u]: four hexadecimal digits. *)
Definition parse_hex4 (l : list N) : option (N * list N) :=
  match l with
  | a :: b :: c :: d :: r =>
      match hex_value a, hex_value b, hex_value c, hex_value d with
      | Some x, Some y, Some z, Some w =>
          Some ((x * 4096 + y * 256 + z * 16 + w)%N, r)
      | _, _, _, _ => None
      end
  | _ => None
  end.

(** The characters of a string after its opening quote, up to and
    including the closing one.  [fuel] bounds the characters read. *)
Fixpoint parse_chars (fuel : nat) (acc : list N) (l : list N)
  : option (list N * list N) :=
  match fuel with
  | O => None
  | S fuel' =>
      match l with
      | [] => None
      | c :: r =>
          if (c =? 34)%N then Some (rev acc, r)
          else if (c <? 32)%N then None
          else if (c =? 92)%N then
            match r with
            | e :: r' =>
                if (e =? 34)%N then parse_chars fuel' (34%N :: acc) r'
                else if (e =? 92)%N then parse_chars fuel' (92%N :: acc) r'
                else if (e =? 47)%N then parse_chars fuel' (47%N :: acc) r'
                else if (e =? 98)%N then parse_chars fuel' (8%N :: acc) r'
                else if (e =? 102)%N then parse_chars fuel' (12%N :: acc) r'
                else if (e =? 110)%N then parse_chars fuel' (10%N :: acc) r'
                else if (e =? 114)%N then parse_chars fuel' (13%N :: acc) r'
                else if (e =? 116)%N then parse_chars fuel' (9%N :: acc) r'
                else if (e =? 117)%N then
                  match parse_hex4 r' with
                  | Some (u, r'') => parse_chars fuel' (u :: acc) r''
                  | None => None
                  end
                else None
            | [] => None
            end
          else parse_chars fuel' (c :: acc) r
      end
  end.

Definition parse_string (l : list N) : option (list N * list N) :=
  parse_chars (S (length l)) [] l.

(** A number: an optional minus sign; a zero, or a non-zero digit and
    further digits; an optional fraction of a point and digits; an
    optional exponent of [e] or [E], a sign and digits. *)
Definition parse_number (l : list N) : option (Q * list N) :=
  let (neg, l1) :=
    match l with
    | c :: r => if (c =? 45)%N then (true, r) else (false, l)
    | [] => (false, l)
    end in
  let (ip, l2) :=
    match l1 with
    | c :: r => if (c =? 48)%N then ([c], r) else span_digits l1
    | [] => ([], [])
    end in
  match ip with
  | [] => None
  | _ =>
      let frac :=
        match l2 with
        | c :: r =>
            if (c =? 46)%N then
              let (fp, rest) := span_digits r in
              match fp with
              | [] => None
              | _ => Some (fp, rest)
              end
            else Some ([], l2)
        | [] => Some ([], l2)
        end in
      match frac with
      | None => None
      | Some (fp, l3) =>
          let expo :=
            match l3 with
            | c :: r =>
                if (c =? 101)%N || (c =? 69)%N then
                  let (eneg, r1) :=
                    match r with
                    | s :: r' =>
                        if (s =? 45)%N then (true, r')
                        else if (s =? 43)%N then (false, r')
                        else (false, r)
                    | [] => (false, r)
                    end in
                  let (ep, rest) := span_digits r1 in
                  match ep with
                  | [] => None
                  | _ =>
                      Some ((if eneg then - digits_value ep
                             else digits_value ep)%Z, rest)
                  end
                else Some (0%Z, l3)
            | [] => Some (0%Z, l3)
            end in
          match expo with
          | None => None
          | Some (e, l4) =>
              let m := digits_value (ip ++ fp) in
              let q := scale10 m (e - Z.of_nat (length fp)) in
              Some (if neg then Qopp q else q, l4)
          end
      end
  end.

Definition expect (c : N) (l : list N) : option (list N) :=
  match l with
  | x :: r => if (x =? c)%N then Some r else None
  | [] => None
  end.

Fixpoint expect_all (w : list N) (l : list N) : option (list N) :=
  match w with
  | [] => Some l
  | c :: w' =>
      match expect c l with
      | Some r => expect_all w' r
      | None => None
      end
  end.

(** A value, with the input that follows it.  [parse_elements] reads
    the rest of an array after its first bracket or a comma, and
    [parse_members] the rest of an object. *)
Fixpoint parse_value (fuel : nat) (l : list N) : option (json * list N) :=
  match fuel with
  | O => None
  | S fuel' =>
      match skip_ws l with
      | [] => None
      | c :: r =>
          if (c =? 110)%N then
            option_map (fun r' => (JNull, r')) (expect_all (lit "ull") r)
          else if (c =? 116)%N then
            option_map (fun r' => (JBool true, r')) (expect_all (lit "rue") r)
          else if (c =? 102)%N then
            option_map (fun r' => (JBool false, r')) (expect_all (lit "alse") r)
          else if (c =? 34)%N then
            option_map (fun '(s, r') => (JStr s, r')) (parse_string r)
          else if (c =? 91)%N then
            match skip_ws r with
            | x :: r' =>
                if (x =? 93)%N then Some (JArr [], r')
                else option_map (fun '(vs, r'') => (JArr vs, r''))
                       (parse_elements fuel' r)
            | [] => None
            end
          else if (c =? 123)%N then
            match skip_ws r with
            | x :: r' =>
                if (x =? 125)%N then Some (JObj [], r')
                else option_map (fun '(ms, r'') => (JObj ms, r''))
                       (parse_members fuel' r)
            | [] => None
            end
          else
            option_map (fun '(q, r') => (JNum q, r')) (parse_number (c :: r))
      end
  end
with parse_elements (fuel : nat) (l : list N) : option (list json * list N) :=
  match fuel with
  | O => None
  | S fuel' =>
      match parse_value fuel' l with
      | Some (v, r) =>
          match skip_ws r with
          | x :: r' =>
              if (x =? 44)%N then
                option_map (fun '(vs, r'') => (v :: vs, r''))
                  (parse_elements fuel' r')
              else if (x =? 93)%N then Some ([v], r')
              else None
          | [] => None
          end
      | None => None
      end
  end
with parse_members (fuel : nat) (l : list N)
  : option (list (list N * json) * list N) :=
  match fuel with
  | O => None
  | S fuel' =>
      match expect 34 (skip_ws l) with
      | Some r =>
          match parse_string r with
          | Some (k, r1) =>
              match expect 58 (skip_ws r1) with
              | Some r2 =>
                  match parse_value fuel' r2 with
                  | Some (v, r3) =>
                      match skip_ws r3 with
                      | x :: r4 =>
                          if (x =? 44)%N then
                            option_map (fun '(ms, r5) => ((k, v) :: ms, r5))
                              (parse_members fuel' r4)
                          else if (x =? 125)%N then Some ([(k, v)], r4)
                          else None
                      | [] => None
                      end
                  | None => None
                  end
              | None => None
              end
          | None => None
          end
      | None => None
      end
  end.

(** [JSON.parse(text)]: one value, then nothing but white space.  A
    call of the three functions above is given one unit of fuel less
    than its caller and follows at most one call that read no character,
    so twice the length of the text is fuel enough. *)
Definition parse (text : list N) : result json :=
  match parse_value (2 * length text + 2) text with
  | Some (v, r) =>
      match skip_ws r with
      | [] => Ok v
      | _ => Throw SyntaxError
      end
  | None => Throw SyntaxError
  end.

End Json.

(** ** Numbers, coercion and comparison

    A JavaScript number is a binary64 value.  A finite one is kept as the
    rational it stands for; a literal, a quotient and a difference are
    rounded to the nearest such value, ties going to the even mantissa.
    The sign of zero is not kept: no comparison here tells the two zeros
    apart. *)

Inductive jsnum : Type :=
| NaN
| Fin (q : Q)
| PosInf
| NegInf.

Module Double.

(** The floor of the binary logarithm of [a/d], for positive [a], [d]. *)
Definition ilog2 (a d : Z) : Z :=
  let k := (Z.log2 a - Z.log2 d)%Z in
  if (0 <=? k)%Z
  then if (d * 2 ^ k <=? a)%Z then k else (k - 1)%Z
  else if (d <=? a * 2 ^ (- k))%Z then k else (k - 1)%Z.

(** The exponent of the last place: 52 places below the leading bit,
    and never below that of the subnormal numbers. *)
Definition last_place (a d : Z) : Z := Z.max (ilog2 a d - 52) (-1074).

(** The integer nearest to [n/d], the even one of two that are equally
    near. *)
Definition nearest_even (n d : Z) : Z :=
  let q := (n / d)%Z in
  let r := (n mod d)%Z in
  if (2 * r <? d)%Z then q
  else if (d <? 2 * r)%Z then (q + 1)%Z
  else if Z.even q then q
  else (q + 1)%Z.

(** [m * 2^e] *)
Definition scaled (m e : Z) : Q :=
  if (0 <=? e)%Z then inject_Z (m * 2 ^ e)
  else Qmake m (Z.to_pos (2 ^ (- e))).

(** The double nearest to [a/d], for positive [a], [d]; a mantissa that
    reaches [2^1024] is infinite. *)
Definition round_pos (a d : Z) : jsnum :=
  let e := last_place a d in
  let m :=
    if (0 <=? e)%Z then nearest_even a (d * 2 ^ e)
    else nearest_even (a * 2 ^ (- e)) d in
  if ((0 <=? e)%Z && (2 ^ 1024 <=? m * 2 ^ e)%Z)%bool then PosInf
  else Fin (scaled m e).

Definition opp (x : jsnum) : jsnum :=
  match x with
  | NaN => NaN
  | Fin q => Fin (- q)
  | PosInf => NegInf
  | NegInf => PosInf
  end.

(** The double nearest to a rational. *)
Definition round (x : Q) : jsnum :=
  match Qnum x with
  | Z0 => Fin 0
  | Zpos a => round_pos (Zpos a) (Zpos (Qden x))
  | Zneg a => opp (round_pos (Zpos a) (Zpos (Qden x)))
  end.

(** The number that a mathematical value denotes. *)
Definition of_value (x : jsnum) : jsnum :=
  match x with
  | Fin q => round q
  | other => other
  end.

(** [x / d] for a positive integer [d] that is a double. *)
Definition div (x : jsnum) (d : positive) : jsnum :=
  match x with
  | Fin q => round (q / inject_Z (Zpos d))
  | other => other
  end.

(** [x - y] *)
Definition sub (x y : jsnum) : jsnum :=
  match x, y with
  | NaN, _ | _, NaN => NaN
  | Fin a, Fin b => round (a - b)
  | Fin _, PosInf => NegInf
  | Fin _, NegInf => PosInf
  | PosInf, PosInf => NaN
  | PosInf, _ => PosInf
  | NegInf, NegInf => NaN
  | NegInf, _ => NegInf
  end.

(** The numerator and the denominator of [a/d] counted in units of the
    last place [2^e]. *)
Definition numerator (a e : Z) : Z :=
  if (0 <=? e)%Z then a else (a * 2 ^ (- e))%Z.

Definition denominator (d e : Z) : Z :=
  if (0 <=? e)%Z then (d * 2 ^ e)%Z else d.

(** [j / 2^p]: with [j] of at most 53 bits and [p] up to 1074 it is a
    double. *)
Definition dyadic (j p : Z) : Q := Qmake j (Z.to_pos (2 ^ p)).

Definition Qlt_bool (x y : Q) : bool := negb (Qle_bool y x).

(** [x < y]; a comparison with [NaN] is false. *)
Definition lt (x y : jsnum) : bool :=
  match x, y with
  | NaN, _ | _, NaN => false
  | Fin a, Fin b => Qlt_bool a b
  | Fin _, PosInf => true
  | Fin _, NegInf => false
  | PosInf, _ => false
  | NegInf, NegInf => false
  | NegInf, _ => true
  end.

End Double.

Module JsNumber.

(** White space and line terminators stripped by the string-to-number
    conversion. *)
Definition is_str_ws (c : N) : bool :=
  ((9 <=? c) && (c <=? 13))%N || (c =? 32)%N || (c =? 160)%N
  || (c =? 5760)%N || ((8192 <=? c) && (c <=? 8202))%N
  || (c =? 8232)%N || (c =? 8233)%N || (c =? 8239)%N || (c =? 8287)%N
  || (c =? 12288)%N || (c =? 65279)%N.

Fixpoint drop_ws (l : list N) : list N :=
  match l with
  | c :: r => if is_str_ws c then drop_ws r else l
  | [] => []
  end.

Definition trim_ws (l : list N) : list N :=
  rev (drop_ws (rev (drop_ws l))).

Definition list_eqb (a b : list N) : bool :=
  if list_eq_dec N.eq_dec a b then true else false.

(** Digits of a radix: value of each character, or nothing when one is
    not a digit of that radix. *)
Fixpoint radix_value (radix : N) (acc : Z) (l : list N) : option Z :=
  match l with
  | [] => Some acc
  | c :: r =>
      match Json.hex_value c with
      | Some d =>
          if (d <? radix)%N
          then radix_value radix (acc * Z.of_N radix + Z.of_N d)%Z r
          else None
      | None => None
      end
  end.

(** Digits, an optional point and digits, an optional exponent; at
    least one digit in the mantissa. *)
Definition decimal_literal (l : list N) : option Q :=
  let (ip, l1) := Json.span_digits l in
  let (fp, l2) :=
    match l1 with
    | c :: r => if (c =? 46)%N then Json.span_digits r else ([], l1)
    | [] => ([], l1)
    end in
  match ip ++ fp with
  | [] => None
  | ds =>
      let m := Json.digits_value ds in
      let k := Z.of_nat (length fp) in
      match l2 with
      | [] => Some (Json.scale10 m (- k))
      | c :: r =>
          if (c =? 101)%N || (c =? 69)%N then
            let (eneg, r1) :=
              match r with
              | s :: r' =>
                  if (s =? 45)%N then (true, r')
                  else if (s =? 43)%N then (false, r')
                  else (false, r)
              | [] => (false, r)
              end in
            match Json.span_digits r1 with
            | (d :: ds', []) =>
                let e := Json.digits_value (d :: ds') in
                Some (Json.scale10 m ((if eneg then - e else e) - k))
            | _ => None
            end
          else None
      end
  end.

Definition signed_literal (l : list N) : jsnum :=
  let (neg, body) :=
    match l with
    | c :: r =>
        if (c =? 45)%N then (true, r)
        else if (c =? 43)%N then (false, r)
        else (false, l)
    | [] => (false, l)
    end in
  if list_eqb body (Json.lit "Infinity") then
    if neg then NegInf else PosInf
  else
    match decimal_literal body with
    | Some q => Fin (if neg then Qopp q else q)
    | None => NaN
    end.

(** The conversion of a string to a number. *)
Definition of_string (s : list N) : jsnum :=
  match trim_ws s with
  | [] => Fin 0
  | [c] => signed_literal [c]
  | a :: b :: r =>
      let prefixed (radix : N) :=
        match r with
        | [] => NaN
        | _ => match radix_value radix 0 r with
               | Some z => Fin (inject_Z z)
               | None => NaN
               end
        end in
      if (a =? 48)%N && ((b =? 120)%N || (b =? 88)%N) then prefixed 16%N
      else if (a =? 48)%N && ((b =? 111)%N || (b =? 79)%N) then prefixed 8%N
      else if (a =? 48)%N && ((b =? 98)%N || (b =? 66)%N) then prefixed 2%N
      else signed_literal (a :: b :: r)
  end.

Fixpoint lookup_last (k : list N) (ms : list (list N * json)) : option json :=
  match ms with
  | [] => None
  | (k', v) :: r =>
      match lookup_last k r with
      | Some v' => Some v'
      | None => if list_eqb k k' then Some v else None
      end
  end.

(** [v.exp]: a [TypeError] on [null]; the own property of an object
    (the last of duplicate keys); [undefined] on every other value. *)
Definition member_exp (v : json) : result (option json) :=
  match v with
  | JNull => Throw TypeError
  | JObj ms => Ok (lookup_last (Json.lit "exp") ms)
  | _ => Ok None
  end.

(** Conversion of an array element through the string that
    [Array.prototype.join] builds: [null] prints as the empty string, a
    number prints as a literal that reads back as itself, an array
    prints as its own join, and two or more elements give a comma. *)
Fixpoint of_joined (v : json) : jsnum :=
  match v with
  | JNull => Fin 0
  | JBool _ => NaN
  | JNum q => Fin q
  | JStr s => of_string s
  | JObj _ => NaN
  | JArr [] => Fin 0
  | JArr [x] => of_joined x
  | JArr _ => NaN
  end.

(** An object read from JSON whose own [toString] member shadows the
    inherited method cannot be converted to a primitive. *)
Fixpoint unprintable (v : json) : bool :=
  match v with
  | JObj ms =>
      match lookup_last (Json.lit "toString") ms with
      | Some _ => true
      | None => false
      end
  | JArr items => existsb unprintable items
  | _ => false
  end.

(** The mathematical value that a value which may be [undefined] reads
    as: that of its literal, before any rounding. *)
Definition value_of (v : option json) : result jsnum :=
  match v with
  | None => Ok NaN
  | Some JNull => Ok (Fin 0)
  | Some (JBool b) => Ok (Fin (if b then 1 else 0))
  | Some (JNum q) => Ok (Fin q)
  | Some (JStr s) => Ok (of_string s)
  | Some x => if unprintable x then Throw TypeError else Ok (of_joined x)
  end.

(** [ToNumber]: the double nearest to that value. *)
Definition to_number (v : option json) : result jsnum :=
  result_bind (value_of v) (fun x => Ok (Double.of_value x)).

(** [x > y] for numbers; a comparison with [NaN] is false. *)
Definition gt (x y : jsnum) : bool := Double.lt y x.

End JsNumber.

(** ** Data model *)

Module User.
Record t : Type := mk {
  id : string;
  email : string;
  firstName : string;
  lastName : string;
  phone : option string;
  dateOfBirth : option string;
  gender : option string;
  avatar : option string;
  verified : bool;
  createdAt : option string
}.

(** [user.avatar = url], as it survives [JSON.stringify]: an undefined
    value leaves the member out. *)
Definition set_avatar (url : option string) (u : t) : t :=
  mk (id u) (email u) (firstName u) (lastName u) (phone u) (dateOfBirth u)
     (gender u) url (verified u) (createdAt u).
End User.

Module Address.
Record t : Type := mk {
  id : string;
  fullName : string;
  addressLine1 : string;
  addressLine2 : string;
  city : string;
  state : string;
  zipCode : string;
  country : string;
  phone : string;
  addressType : string;
  isDefault : bool
}.

(** [addr.isDefault = b] *)
Definition set_isDefault (b : bool) (a : t) : t :=
  mk (id a) (fullName a) (addressLine1 a) (addressLine2 a) (city a)
     (state a) (zipCode a) (country a) (phone a) (addressType a) b.
End Address.

(** An array of addresses read back from JSON; [None] is a [null] item,
    which is what an undefined item is stored as. *)
Definition address_array : Type := list (option Address.t).

(** The marker kept between registration and verification; an undefined
    [userId] is left out by [JSON.stringify]. *)
Record PendingRegistration : Type := {
  pending_email : string;
  pending_userId : option string
}.

(** The text under a key that holds JSON: the text of a value, or a text
    that [JSON.parse] rejects, such as the [undefined] that
    [JSON.stringify(undefined)] makes [setItem] store. *)
Inductive entry (A : Type) : Type :=
| Json (a : A)
| Garbage.

Arguments Json {A} a.
Arguments Garbage {A}.

Record LocalStorage : Type := {
  auth_token : option string;
  refresh_token : option string;
  user_data : option (entry User.t);
  user_addresses : option (entry address_array)
}.

Record SessionStorage : Type := {
  pending_registration : option PendingRegistration
}.

(** Events dispatched on [window]; [userLoggedIn] and [userLoggedOut] are
    what the specification calls SessionEstablished and SessionEnded. *)
Inductive event : Type :=
| userLoggedIn (user : option User.t)
| userLoggedOut
| profileUpdated (user : option User.t)
| addressAdded (address : option Address.t)
| addressUpdated (address : option Address.t)
| addressDeleted (addressId : string).

(** ** The backend gateway *)

Record ProfileData : Type := {
  pd_firstName : option string;
  pd_lastName : option string;
  pd_email : option string;
  pd_phone : option string;
  pd_dateOfBirth : option string;
  pd_gender : option string
}.

Record AddressData : Type := {
  ad_fullName : option string;
  ad_addressLine1 : option string;
  ad_addressLine2 : option string;
  ad_city : option string;
  ad_state : option string;
  ad_zipCode : option string;
  ad_country : option string;
  ad_phone : option string;
  ad_addressType : option string;
  ad_isDefault : option bool
}.

(** The validated address that is sent: every member is present. *)
Record ValidAddress : Type := {
  va_fullName : string;
  va_addressLine1 : string;
  va_addressLine2 : string;
  va_city : string;
  va_state : string;
  va_zipCode : string;
  va_country : string;
  va_phone : string;
  va_addressType : string;
  va_isDefault : bool
}.

Record ImageFile : Type := {
  file_type : string;
  file_size : Z
}.

Inductive body : Type :=
| NoBody
| RegisterBody (email password firstName lastName : string) (phone : option string)
| OtpBody (userId otp : string)
| LoginBody (email password : string)
| RefreshBody (refreshToken : string)
| ProfileBody (data : ProfileData)
| AvatarBody (file : ImageFile)
| PasswordBody (password : string)
| AddressBody (data : ValidAddress).

Record request : Type := {
  endpoint : string;
  method : string;
  bearer : option string;
  payload : body
}.

(** A response object; a member that is absent is [undefined]. *)
Record Response : Type := {
  success : bool;
  message : option string;
  userId : option string;
  token : option string;
  refreshToken : option string;
  user : option User.t;
  avatarUrl : option string;
  address : option Address.t;
  addresses : option address_array
}.

Inductive outcome : Type :=
| Resolved (r : Response)
| Rejected (e : exn).

(** A backend answers a request sent at some time, at some later time. *)
Definition Backend : Type := request -> Z -> outcome * Z.

(** ** The page: storage, location, clock and what has been observed *)

Inductive action : Type :=
| LocalGet (key : string)
| LocalSet (key : string)
| LocalRemove (key : string)
| SessionSet (key : string)
| SessionRemove (key : string)
| Fetch (r : request)
| Dispatch (e : event)
| ConsoleError (label : string).

Record World : Type := {
  localStorage : LocalStorage;
  sessionStorage : SessionStorage;
  href : string;
  now : Z;
  log : list action
}.

(** The observations are kept newest first. *)
Definition with_local (f : LocalStorage -> LocalStorage) (a : action) (w : World)
  : World :=
  {| localStorage := f (localStorage w); sessionStorage := sessionStorage w;
     href := href w; now := now w; log := a :: log w |}.

Definition with_session (f : SessionStorage -> SessionStorage) (a : action)
  (w : World) : World :=
  {| localStorage := localStorage w; sessionStorage := f (sessionStorage w);
     href := href w; now := now w; log := a :: log w |}.

Definition observe (a : action) (w : World) : World :=
  with_local (fun l => l) a w.

Definition set_href (url : string) (w : World) : World :=
  {| localStorage := localStorage w; sessionStorage := sessionStorage w;
     href := url; now := now w; log := log w |}.

Definition set_now (t : Z) (w : World) : World :=
  {| localStorage := localStorage w; sessionStorage := sessionStorage w;
     href := href w; now := t; log := log w |}.

(** ** Computations: state passing with exceptions *)

Definition M (A : Type) : Type := World -> result A * World.

Definition ret {A} (a : A) : M A := fun w => (Ok a, w).

Definition throw {A} (e : exn) : M A := fun w => (Throw e, w).

Definition bind {A B} (m : M A) (k : A -> M B) : M B :=
  fun w =>
    match m w with
    | (Ok a, w') => k a w'
    | (Throw e, w') => (Throw e, w')
    end.

(** [try { m } catch (error) { h error }] *)
Definition try_catch {A} (m : M A) (h : exn -> M A) : M A :=
  fun w =>
    match m w with
    | (Ok a, w') => (Ok a, w')
    | (Throw e, w') => h e w'
    end.

Definition lift {A} (r : result A) : M A := fun w => (r, w).

Definition update (f : World -> World) : M unit := fun w => (Ok tt, f w).

Definition read {A} (f : World -> A) : M A := fun w => (Ok (f w), w).

Declare Scope js_scope.
Delimit Scope js_scope with js.
Notation "x <- m ;; k" := (bind m (fun x => k))
  (at level 61, m at next level, right associativity) : js_scope.
Notation "m ;; k" := (bind m (fun _ => k))
  (at level 61, right associativity) : js_scope.
Local Open Scope js_scope.

(** [console.error(label, error)] *)
Definition console_error (label : string) : M unit :=
  update (observe (ConsoleError label)).

(** ** UserService: cache management

    These three methods come before the session manager because the
    listener that the state manager registers for [userLoggedOut]
    reaches [clearCachedAddresses]. *)

Module AddressCache.

Definition ADDRESSES_KEY : string := "user_addresses".

Definition set_user_addresses (v : option (entry address_array)) (l : LocalStorage)
  : LocalStorage :=
  {| auth_token := auth_token l; refresh_token := refresh_token l;
     user_data := user_data l; user_addresses := v |}.

(** Whether the browser takes a value under the address key, given what
    is stored: [setItem] throws when the quota of the origin is
    exceeded.  It is the one write whose failure the source provides
    for, and an input of the operations that cache. *)
Definition Quota : Type := LocalStorage -> entry address_array -> bool.

(** [JSON.stringify] of an array is its text; of [undefined] it is
    [undefined], which is stored as a text that does not parse. *)
Definition stringify (addrs : option address_array) : entry address_array :=
  match addrs with
  | Some l => Json l
  | None => Garbage
  end.

(** A refused write is reported on the console and nothing is thrown. *)
Definition cacheAddresses (quota : Quota) (addrs : option address_array)
  : M unit :=
  fun w =>
    let text := stringify addrs in
    if quota (localStorage w) text
    then (Ok tt,
          with_local (set_user_addresses (Some text))
            (LocalSet ADDRESSES_KEY) w)
    else (Ok tt,
          observe (ConsoleError "Failed to cache addresses:")
            (observe (LocalSet ADDRESSES_KEY) w)).

(** A text that does not parse is reported on the console and read as
    no cache. *)
Definition getCachedAddresses : M (option address_array) :=
  fun w =>
    let w' := observe (LocalGet ADDRESSES_KEY) w in
    match user_addresses (localStorage w) with
    | None => (Ok None, w')
    | Some (Json l) => (Ok (Some l), w')
    | Some Garbage =>
        (Ok None, observe (ConsoleError "Failed to get cached addresses:") w')
    end.

Definition clearCachedAddresses : M unit :=
  update (with_local (set_user_addresses None) (LocalRemove ADDRESSES_KEY)).

End AddressCache.

(** ** AuthStateManager: the listeners on [window]

    The documentation has every page load the session manager, the
    cache manager and the state manager, in that order; the state
    manager registers its listeners when it is loaded.  The other
    listeners of the repository, those of the page scripts, write to the
    console and read the cart, which are not part of the page here. *)

Module AuthStateEvents.

(** [if (typeof userService !== 'undefined')
        userService.clearCachedAddresses()] *)
Definition clearUserData (userService_defined : bool) : M unit :=
  if userService_defined then AddressCache.clearCachedAddresses else ret tt.

(** After a line on the console and the navigation of a guest, which
    are not part of the page here, the user data is cleared; the cache
    manager is loaded before the state manager. *)
Definition handleLogout : M unit := clearUserData true.

(** A line on the console, the navigation of the user and a look at the
    cart: nothing of the page here. *)
Definition handleLogin (user : option User.t) : M unit := ret tt.

Definition handleProfileUpdate (user : option User.t) : M unit := ret tt.

(** What [setupEventListeners] registers, by event. *)
Definition listeners (e : event) : M unit :=
  match e with
  | userLoggedIn user => handleLogin user
  | userLoggedOut => handleLogout
  | profileUpdated user => handleProfileUpdate user
  | addressAdded _ | addressUpdated _ | addressDeleted _ => ret tt
  end.

End AuthStateEvents.

(** [window.dispatchEvent(e)]: the event is recorded and its listeners
    run before the call returns; what a listener throws does not reach
    the caller. *)
Definition dispatchEvent (e : event) : M unit :=
  update (observe (Dispatch e)) ;;
  try_catch (AuthStateEvents.listeners e) (fun _ => ret tt).

(** [await backend(request)]: the request is observed, the clock moves to
    the time of the answer, and a rejection is thrown. *)
Definition await (backend : Backend) (r : request) : M Response :=
  fun w =>
    let (o, t) := backend r (now w) in
    let w' := set_now t (observe (Fetch r) w) in
    match o with
    | Resolved resp => (Ok resp, w')
    | Rejected e => (Throw e, w')
    end.

(** [a || b] for an optional string: the first unless it is falsy. *)
Definition or_else (a : option string) (b : string) : string :=
  match a with
  | Some s => if String.eqb s "" then b else s
  | None => b
  end.

(** What an operation resolves with; a member that an operation does not
    set keeps the value it has in [reply]. *)
Record Reply : Type := {
  reply_success : bool;
  reply_message : option string;
  reply_userId : option string;
  reply_requiresOtp : bool;
  reply_user : option User.t;
  reply_token : option string;
  reply_cached : bool;
  reply_avatarUrl : option string;
  reply_address : option Address.t;
  reply_addresses : option address_array
}.

Definition reply (ok : bool) (msg : option string) : Reply :=
  {| reply_success := ok; reply_message := msg; reply_userId := None;
     reply_requiresOtp := false; reply_user := None; reply_token := None;
     reply_cached := false; reply_avatarUrl := None; reply_address := None;
     reply_addresses := None |}.

Definition reply_with_user (msg : option string) (u : option User.t)
  (cached : bool) : Reply :=
  {| reply_success := true; reply_message := msg; reply_userId := None;
     reply_requiresOtp := false; reply_user := u; reply_token := None;
     reply_cached := cached; reply_avatarUrl := None; reply_address := None;
     reply_addresses := None |}.

(** A response with no member but [success] and [message]. *)
Definition response (ok : bool) (msg : option string) : Response :=
  {| success := ok; message := msg; userId := None; token := None;
     refreshToken := None; user := None; avatarUrl := None; address := None;
     addresses := None |}.

(** ** AuthService *)

Record RegistrationData : Type := {
  reg_email : option string;
  reg_password : option string;
  reg_firstName : option string;
  reg_lastName : option string;
  reg_phone : option string
}.

Module AuthService.

Import JsString.

Definition TOKEN_KEY : string := "auth_token".
Definition REFRESH_TOKEN_KEY : string := "refresh_token".
Definition USER_KEY : string := "user_data".
Definition PENDING_KEY : string := "pending_registration".

(** *** Helper methods *)

Definition not_space_or_at (c : ascii) : bool :=
  negb (is_space c) && negb (is_char "@" c).

(** [/^[^\s@]+@[^\s@]+\.[^\s@]+$/] *)
Definition emailRegex : Regex.t ascii :=
  Regex.Seq (Regex.plus (Regex.Cls not_space_or_at))
    (Regex.Seq (Regex.chr "@")
       (Regex.Seq (Regex.plus (Regex.Cls not_space_or_at))
          (Regex.Seq (Regex.chr ".")
             (Regex.plus (Regex.Cls not_space_or_at))))).

Definition validateEmail (email : string) : bool :=
  Regex.test emailRegex email.

(** [/^(?=.*[a-z])(?=.*[A-Z])(?=.*\d).{8,}$/] *)
Definition passwordRegex : Regex.t ascii :=
  let dots := Regex.Star (Regex.Cls is_dot) in
  Regex.And (Regex.lookahead (Regex.Seq dots (Regex.Cls is_lower)))
    (Regex.And (Regex.lookahead (Regex.Seq dots (Regex.Cls is_upper)))
       (Regex.And (Regex.lookahead (Regex.Seq dots (Regex.Cls is_digit)))
          (Regex.at_least 8 (Regex.Cls is_dot)))).

Definition validatePassword (password : string) : bool :=
  Regex.test passwordRegex password.

Definition getToken : M (option string) :=
  fun w => (Ok (auth_token (localStorage w)), observe (LocalGet TOKEN_KEY) w).

Definition getRefreshToken : M (option string) :=
  fun w => (Ok (refresh_token (localStorage w)),
            observe (LocalGet REFRESH_TOKEN_KEY) w).

(** [userData ? JSON.parse(userData) : null] *)
Definition getCurrentUser : M (option User.t) :=
  fun w =>
    let w' := observe (LocalGet USER_KEY) w in
    match user_data (localStorage w) with
    | None => (Ok None, w')
    | Some (Json u) => (Ok (Some u), w')
    | Some Garbage => (Throw SyntaxError, w')
    end.

(** [localStorage.setItem(key, value)] stores the string of the value,
    which for [undefined] is the word itself. *)
Definition stored_string (v : option string) : string :=
  match v with
  | Some s => s
  | None => "undefined"
  end.

Definition set_auth_token (v : string) (l : LocalStorage) : LocalStorage :=
  {| auth_token := Some v; refresh_token := refresh_token l;
     user_data := user_data l; user_addresses := user_addresses l |}.

Definition set_refresh_token (v : string) (l : LocalStorage) : LocalStorage :=
  {| auth_token := auth_token l; refresh_token := Some v;
     user_data := user_data l; user_addresses := user_addresses l |}.

Definition set_user_data (v : entry User.t) (l : LocalStorage) : LocalStorage :=
  {| auth_token := auth_token l; refresh_token := refresh_token l;
     user_data := Some v; user_addresses := user_addresses l |}.

Definition remove_auth_token (l : LocalStorage) : LocalStorage :=
  {| auth_token := None; refresh_token := refresh_token l;
     user_data := user_data l; user_addresses := user_addresses l |}.

Definition remove_refresh_token (l : LocalStorage) : LocalStorage :=
  {| auth_token := auth_token l; refresh_token := None;
     user_data := user_data l; user_addresses := user_addresses l |}.

Definition remove_user_data (l : LocalStorage) : LocalStorage :=
  {| auth_token := auth_token l; refresh_token := refresh_token l;
     user_data := None; user_addresses := user_addresses l |}.

Definition setTokens (token refreshToken : option string) : M unit :=
  update (with_local (set_auth_token (stored_string token)) (LocalSet TOKEN_KEY)) ;;
  if falsy refreshToken then ret tt
  else update (with_local (set_refresh_token (stored_string refreshToken))
                 (LocalSet REFRESH_TOKEN_KEY)).

(** [localStorage.setItem(USER_KEY, JSON.stringify(user))] *)
Definition setUserData (user : option User.t) : M unit :=
  update (with_local
            (set_user_data (match user with
                            | Some u => Json u
                            | None => Garbage
                            end))
            (LocalSet USER_KEY)).

Definition clearAuthData : M unit :=
  update (with_local remove_auth_token (LocalRemove TOKEN_KEY)) ;;
  update (with_local remove_refresh_token (LocalRemove REFRESH_TOKEN_KEY)) ;;
  update (with_local remove_user_data (LocalRemove USER_KEY)) ;;
  update (with_session (fun _ => {| pending_registration := None |})
            (SessionRemove PENDING_KEY)).

(** [token.split('.')[1]], the two replacements, [atob], the escaping
    and [decodeURIComponent], then [JSON.parse]. *)
Definition parseJwt (token : string) : result json :=
  match nth_error (split "." token) 1 with
  | None => Throw TypeError
  | Some base64Url =>
      let base64 := replace_all "_" "/" (replace_all "-" "+" base64Url) in
      result_bind (Browser.atob base64) (fun bytes =>
      result_bind (Browser.utf8_decode bytes) (fun jsonPayload =>
      Json.parse jsonPayload))
  end.

(** [Date.now() / 1000]: the clock as a double, divided by a thousand. *)
Definition seconds (ms : Z) : jsnum :=
  Double.div (Double.round (inject_Z ms)) 1000.

(** [payload.exp > currentTime] *)
Definition not_expired (payload : json) (currentTime : jsnum) : result bool :=
  result_bind (JsNumber.member_exp payload) (fun exp =>
  result_bind (JsNumber.to_number exp) (fun n =>
  Ok (JsNumber.gt n currentTime))).

Definition isAuthenticated : M bool :=
  token <- getToken ;;
  match token with
  | None => ret false
  | Some token =>
      if String.eqb token "" then ret false
      else
        try_catch
          (payload <- lift (parseJwt token) ;;
           currentTime <- read (fun w => seconds (now w)) ;;
           lift (not_expired payload currentTime))
          (fun _ => ret false)
  end.


Definition post (ep : string) (auth : option string) (b : body) : request :=
  {| endpoint := ep; method := "POST"; bearer := auth; payload := b |}.

Definition set_pending (p : PendingRegistration) (_ : SessionStorage)
  : SessionStorage :=
  {| pending_registration := Some p |}.

(** *** The backend the repository ships: [mockApiCall]

    A second passes, then the answer is looked up by endpoint; the
    values of [Date.now()] in it are those of the time of the answer. *)

Definition mock_user (uid : string) : User.t :=
  User.mk uid "user@example.com" "John" "Doe" (Some "+1234567890")
    None None None true None.

Definition mockResponses (ep : string) (t : Z) : Response :=
  let stamp := of_int t in
  if String.eqb ep "/auth/register" then
    {| success := true; message := Some "Registration successful";
       userId := Some ("user_" ++ stamp)%string; token := None; refreshToken := None;
       user := None; avatarUrl := None; address := None; addresses := None |}
  else if String.eqb ep "/auth/verify-otp" then
    {| success := true; message := None; userId := None;
       token := Some ("mock_jwt_token_" ++ stamp)%string;
       refreshToken := Some ("mock_refresh_token_" ++ stamp)%string;
       user := Some (mock_user ("user_" ++ stamp)%string);
       avatarUrl := None; address := None; addresses := None |}
  else if String.eqb ep "/auth/login" then
    {| success := true; message := None; userId := None;
       token := Some ("mock_jwt_token_" ++ stamp)%string;
       refreshToken := Some ("mock_refresh_token_" ++ stamp)%string;
       user := Some (mock_user "user_123");
       avatarUrl := None; address := None; addresses := None |}
  else if String.eqb ep "/auth/logout" then
    response true (Some "Logged out successfully")
  else if String.eqb ep "/auth/refresh-token" then
    {| success := true; message := None; userId := None;
       token := Some ("new_mock_jwt_token_" ++ stamp)%string;
       refreshToken := Some ("new_mock_refresh_token_" ++ stamp)%string;
       user := None; avatarUrl := None; address := None; addresses := None |}
  else if String.eqb ep "/auth/forgot-password" then
    response true (Some "Password reset link sent")
  else if String.eqb ep "/auth/reset-password" then
    response true (Some "Password reset successful")
  else if String.eqb ep "/auth/change-password" then
    response true (Some "Password changed successfully")
  else if String.eqb ep "/auth/resend-otp" then
    response true (Some "OTP sent successfully")
  else response false (Some "Endpoint not found").

Definition mockApiCall : Backend :=
  fun r t => (Resolved (mockResponses (endpoint r) (t + 1000)), (t + 1000)%Z).

(** *** The operations of the session manager, against any backend *)

Section Operations.

Variable backend : Backend.

Definition registerUser (userData : RegistrationData) : M Reply :=
  try_catch
    (let email := reg_email userData in
     let password := reg_password userData in
     let firstName := reg_firstName userData in
     let lastName := reg_lastName userData in
     if falsy email || falsy password || falsy firstName || falsy lastName
     then throw (Error "All required fields must be filled")
     else if negb (validateEmail (stored_string email))
     then throw (Error "Invalid email format")
     else if negb (validatePassword (stored_string password))
     then throw (Error "Password must be at least 8 characters with uppercase, lowercase, and number")
     else
       response <- await backend
                     (post "/auth/register" None
                        (RegisterBody (stored_string email)
                           (stored_string password)
                           (stored_string firstName)
                           (stored_string lastName)
                           (reg_phone userData))) ;;
       if success response then
         update (with_session
                   (set_pending {| pending_email := stored_string email;
                                   pending_userId := userId response |})
                   (SessionSet PENDING_KEY)) ;;
         ret {| reply_success := true;
                reply_message :=
                  Some "Registration successful. Please verify your email.";
                reply_userId := userId response;
                reply_requiresOtp := true;
                reply_user := None; reply_token := None;
                reply_cached := false; reply_avatarUrl := None;
                reply_address := None; reply_addresses := None |}
       else throw (Error (or_else (message response) "Registration failed")))
    (fun error => console_error "Registration error:" ;; throw error).

Definition verifyOtp (userId otp : string) : M Reply :=
  try_catch
    (if String.eqb userId "" || String.eqb otp ""
     then throw (Error "User ID and OTP are required")
     else if negb (String.length otp =? 6)%nat
     then throw (Error "OTP must be 6 digits")
     else
       response <- await backend
                     (post "/auth/verify-otp" None (OtpBody userId otp)) ;;
       if success response then
         update (with_session (fun _ => {| pending_registration := None |})
                   (SessionRemove PENDING_KEY)) ;;
         setTokens (token response) (refreshToken response) ;;
         setUserData (user response) ;;
         ret (reply_with_user (Some "Email verified successfully")
                (user response) false)
       else throw (Error (or_else (message response) "OTP verification failed")))
    (fun error => console_error "OTP verification error:" ;; throw error).

Definition loginUser (email password : string) : M Reply :=
  try_catch
    (if String.eqb email "" || String.eqb password ""
     then throw (Error "Email and password are required")
     else if negb (validateEmail email)
     then throw (Error "Invalid email format")
     else
       response <- await backend
                     (post "/auth/login" None (LoginBody email password)) ;;
       if success response then
         setTokens (token response) (refreshToken response) ;;
         setUserData (user response) ;;
         dispatchEvent (userLoggedIn (user response)) ;;
         ret (reply_with_user (Some "Login successful") (user response) false)
       else throw (Error (or_else (message response) "Login failed")))
    (fun error => console_error "Login error:" ;; throw error).

Definition logoutUser : M Reply :=
  try_catch
    (token <- getToken ;;
     (if falsy token then ret tt
      else _ <- await backend (post "/auth/logout" token NoBody) ;; ret tt) ;;
     clearAuthData ;;
     dispatchEvent userLoggedOut ;;
     ret (reply true (Some "Logged out successfully")))
    (fun error =>
       console_error "Logout error:" ;;
       clearAuthData ;;
       throw error).

Definition refreshToken : M Reply :=
  try_catch
    (stored <- getRefreshToken ;;
     if falsy stored
     then throw (Error "No refresh token available")
     else
       response <- await backend
                     (post "/auth/refresh-token" None
                        (RefreshBody (stored_string stored))) ;;
       if success response then
         setTokens (token response) (refreshToken response) ;;
         ret {| reply_success := true; reply_message := None;
                reply_userId := None; reply_requiresOtp := false;
                reply_user := None; reply_token := token response;
                reply_cached := false; reply_avatarUrl := None;
                reply_address := None; reply_addresses := None |}
       else throw (Error "Token refresh failed"))
    (fun error =>
       console_error "Token refresh error:" ;;
       clearAuthData ;;
       update (set_href "/login.html") ;;
       throw error).

End Operations.

End AuthService.

(** ** UserService *)

Module UserService.

Import JsString.

(** *** Validation methods *)

Definition validateEmail (email : string) : bool :=
  Regex.test AuthService.emailRegex email.

Definition is_separator (c : ascii) : bool :=
  is_char "-" c || is_space c || is_char "." c.

(** [/^[\+]?[(]?[0-9]{1,4}[)]?[-\s\.]?[(]?[0-9]{1,4}[)]?[-\s\.]?[0-9]{1,9}$/] *)
Definition phoneRegex : Regex.t ascii :=
  let digits (n m : nat) := Regex.between n m (Regex.Cls is_digit) in
  Regex.Seq (Regex.opt (Regex.chr "+"))
    (Regex.Seq (Regex.opt (Regex.chr "("))
       (Regex.Seq (digits 1 4)%nat
          (Regex.Seq (Regex.opt (Regex.chr ")"))
             (Regex.Seq (Regex.opt (Regex.Cls is_separator))
                (Regex.Seq (Regex.opt (Regex.chr "("))
                   (Regex.Seq (digits 1 4)%nat
                      (Regex.Seq (Regex.opt (Regex.chr ")"))
                         (Regex.Seq (Regex.opt (Regex.Cls is_separator))
                            (digits 1 9)%nat)))))))).

Definition validatePhone (phone : string) : bool :=
  Regex.test phoneRegex phone.

(** [/^\d{5,6}(-\d{4})?$/] *)
Definition zipRegex : Regex.t ascii :=
  Regex.Seq (Regex.between 5 6 (Regex.Cls is_digit))
    (Regex.opt (Regex.Seq (Regex.chr "-") (Regex.times 4 (Regex.Cls is_digit)))).

(** One optional member of the profile: absent and empty values are
    skipped, a present value is checked and then transformed. *)
Definition validated_member (v : option string) (ok : string -> bool)
  (msg : string) (f : string -> string) : result (option string) :=
  if falsy v then Ok None
  else
    let s := AuthService.stored_string v in
    if ok s then Ok (Some (f s)) else Throw (Error msg).

Definition kept (v : option string) : option string :=
  if falsy v then None else v.

Definition validateProfileData (data : ProfileData) : result ProfileData :=
  result_bind
    (validated_member (pd_firstName data) (fun s => (2 <=? String.length s)%nat)
       "First name must be at least 2 characters" trim) (fun firstName =>
  result_bind
    (validated_member (pd_lastName data) (fun s => (2 <=? String.length s)%nat)
       "Last name must be at least 2 characters" trim) (fun lastName =>
  result_bind
    (validated_member (pd_email data) validateEmail
       "Invalid email format" (fun s => toLowerCase (trim s))) (fun email =>
  result_bind
    (validated_member (pd_phone data) validatePhone
       "Invalid phone number format" trim) (fun phone =>
  Ok {| pd_firstName := firstName; pd_lastName := lastName;
        pd_email := email; pd_phone := phone;
        pd_dateOfBirth := kept (pd_dateOfBirth data);
        pd_gender := kept (pd_gender data) |})))).

(** [!data[field] || data[field].trim() === ''] *)
Definition blank (v : option string) : bool :=
  falsy v || String.eqb (trim (AuthService.stored_string v)) "".

Fixpoint first_blank (fields : list (string * option string)) : option string :=
  match fields with
  | [] => None
  | (name, v) :: r => if blank v then Some name else first_blank r
  end.

Definition validateAddressData (data : AddressData) : result ValidAddress :=
  let required :=
    [("fullName", ad_fullName data); ("addressLine1", ad_addressLine1 data);
     ("city", ad_city data); ("state", ad_state data);
     ("zipCode", ad_zipCode data); ("country", ad_country data);
     ("phone", ad_phone data)] in
  let text := AuthService.stored_string in
  match first_blank required with
  | Some field => Throw (Error (field ++ " is required")%string)
  | None =>
      if negb (Regex.test zipRegex (text (ad_zipCode data)))
      then Throw (Error "Invalid zip code format")
      else if negb (validatePhone (text (ad_phone data)))
      then Throw (Error "Invalid phone number format")
      else
        Ok {| va_fullName := trim (text (ad_fullName data));
              va_addressLine1 := trim (text (ad_addressLine1 data));
              va_addressLine2 :=
                if falsy (ad_addressLine2 data) then ""
                else trim (text (ad_addressLine2 data));
              va_city := trim (text (ad_city data));
              va_state := trim (text (ad_state data));
              va_zipCode := trim (text (ad_zipCode data));
              va_country := trim (text (ad_country data));
              va_phone := trim (text (ad_phone data));
              va_addressType := or_else (ad_addressType data) "home";
              va_isDefault :=
                match ad_isDefault data with
                | Some b => b
                | None => false
                end |}
  end.

(** *** Array methods over items that may be [null]

    The callbacks read [addr.id] or [addr.isDefault], or write
    [addr.isDefault]; on a [null] item that is a [TypeError]. *)

Fixpoint findIndex (p : Address.t -> bool) (l : address_array) : result (option nat) :=
  match l with
  | [] => Ok None
  | None :: _ => Throw TypeError
  | Some a :: r =>
      if p a then Ok (Some O)
      else result_bind (findIndex p r) (fun i => Ok (option_map S i))
  end.

Fixpoint find (p : Address.t -> bool) (l : address_array) : result (option Address.t) :=
  match l with
  | [] => Ok None
  | None :: _ => Throw TypeError
  | Some a :: r => if p a then Ok (Some a) else find p r
  end.

Fixpoint filter (p : Address.t -> bool) (l : address_array) : result address_array :=
  match l with
  | [] => Ok []
  | None :: _ => Throw TypeError
  | Some a :: r =>
      result_bind (filter p r) (fun r' =>
      Ok (if p a then Some a :: r' else r'))
  end.

Fixpoint forEach (f : Address.t -> Address.t) (l : address_array) : result address_array :=
  match l with
  | [] => Ok []
  | None :: _ => Throw TypeError
  | Some a :: r =>
      result_bind (forEach f r) (fun r' => Ok (Some (f a) :: r'))
  end.

(** [l[i] = x] for an index within the array. *)
Fixpoint assign (i : nat) (x : option Address.t) (l : address_array) : address_array :=
  match l, i with
  | [], _ => []
  | _ :: r, O => x :: r
  | a :: r, S i' => a :: assign i' x r
  end.

Definition or_empty (cached : option address_array) : address_array :=
  match cached with
  | Some l => l
  | None => []
  end.

(** *** The answers the repository ships inside [authenticatedRequest]

    After 800 ms: a table for [GET], a created address or a bare
    success for [POST], a merged profile or a bare success for [PUT], a
    bare success for [DELETE]. *)

Definition mock_profile : User.t :=
  User.mk "user_123" "user@example.com" "John" "Doe" (Some "+1234567890")
    (Some "1990-01-01") (Some "male") (Some "https://via.placeholder.com/150")
    true (Some "2024-01-01T00:00:00Z").

Definition mock_addresses : address_array :=
  [Some (Address.mk "addr_1" "John Doe" "123 Main St" "Apt 4B" "New York"
           "NY" "10001" "USA" "+1234567890" "home" true);
   Some (Address.mk "addr_2" "John Doe" "456 Office Blvd" "Suite 200"
           "New York" "NY" "10002" "USA" "+1234567890" "work" false)].

(** [{...mockResponses['/user/profile'].user, ...body}] *)
Definition merge_profile (u : User.t) (b : ProfileData) : User.t :=
  let pick (x : option string) (d : string) :=
    match x with Some s => s | None => d end in
  let pick_opt (x d : option string) :=
    match x with Some s => Some s | None => d end in
  User.mk (User.id u)
    (pick (pd_email b) (User.email u))
    (pick (pd_firstName b) (User.firstName u))
    (pick (pd_lastName b) (User.lastName u))
    (pick_opt (pd_phone b) (User.phone u))
    (pick_opt (pd_dateOfBirth b) (User.dateOfBirth u))
    (pick_opt (pd_gender b) (User.gender u))
    (User.avatar u) (User.verified u) (User.createdAt u).

(** [{id: 'addr_' + Date.now(), ...body}] *)
Definition created_address (t : Z) (b : ValidAddress) : Address.t :=
  Address.mk ("addr_" ++ of_int t)%string (va_fullName b) (va_addressLine1 b)
    (va_addressLine2 b) (va_city b) (va_state b) (va_zipCode b)
    (va_country b) (va_phone b) (va_addressType b) (va_isDefault b).

Definition with_user (u : User.t) : Response :=
  {| success := true; message := None; userId := None; token := None;
     refreshToken := None; user := Some u; avatarUrl := None;
     address := None; addresses := None |}.

Definition mockResponses (r : request) (t : Z) : Response :=
  let ep := endpoint r in
  if String.eqb (method r) "GET" then
    if String.eqb ep "/user/profile" then with_user mock_profile
    else if String.eqb ep "/user/addresses" then
      {| success := true; message := None; userId := None; token := None;
         refreshToken := None; user := None; avatarUrl := None;
         address := None; addresses := Some mock_addresses |}
    else response false (Some "Endpoint not found")
  else if String.eqb (method r) "POST" then
    match String.eqb ep "/user/addresses", payload r with
    | true, AddressBody b =>
        {| success := true; message := None; userId := None; token := None;
           refreshToken := None; user := None; avatarUrl := None;
           address := Some (created_address t b); addresses := None |}
    | _, _ => response true (Some "Created successfully")
    end
  else if String.eqb (method r) "PUT" then
    match String.eqb ep "/user/profile", payload r with
    | true, ProfileBody b => with_user (merge_profile mock_profile b)
    | _, _ => response true (Some "Updated successfully")
    end
  else if String.eqb (method r) "DELETE" then
    response true (Some "Deleted successfully")
  else response false (Some "Method not supported").

Definition mockBackend : Backend :=
  fun r t => (Resolved (mockResponses r (t + 800)), (t + 800)%Z).

(** *** The operations of the cache manager

    [backend] stands for the answers inside [authenticatedRequest],
    [quota] for the browser's answer to a write of the cache, and
    [auth_backend] for the answers of the session manager that
    [deleteAccount] logs out through. *)

Section Operations.

Variable backend : Backend.
Variable quota : AddressCache.Quota.
Variable auth_backend : Backend.

Definition authenticatedRequest (ep meth : string) (b : body) : M Response :=
  token <- AuthService.getToken ;;
  if falsy token then throw (Error "User not authenticated")
  else await backend
         {| endpoint := ep; method := meth; bearer := token; payload := b |}.

Definition getUserProfile : M Reply :=
  try_catch
    (token <- AuthService.getToken ;;
     if falsy token then throw (Error "User not authenticated")
     else
       cachedUser <- AuthService.getCurrentUser ;;
       response <- authenticatedRequest "/user/profile" "GET" NoBody ;;
       if success response then
         AuthService.setUserData (user response) ;;
         ret (reply_with_user None (user response) false)
       else
         match cachedUser with
         | Some u => ret (reply_with_user None (Some u) true)
         | None =>
             throw (Error (or_else (message response) "Failed to fetch profile"))
         end)
    (fun error => console_error "Get profile error:" ;; throw error).

Definition updateUserProfile (profileData : ProfileData) : M Reply :=
  try_catch
    (token <- AuthService.getToken ;;
     if falsy token then throw (Error "User not authenticated")
     else
       validatedData <- lift (validateProfileData profileData) ;;
       response <- authenticatedRequest "/user/profile" "PUT"
                     (ProfileBody validatedData) ;;
       if success response then
         AuthService.setUserData (user response) ;;
         dispatchEvent (profileUpdated (user response)) ;;
         ret (reply_with_user (Some "Profile updated successfully")
                (user response) false)
       else
         throw (Error (or_else (message response) "Failed to update profile")))
    (fun error => console_error "Update profile error:" ;; throw error).

Definition updateProfilePicture (imageFile : option ImageFile) : M Reply :=
  try_catch
    (token <- AuthService.getToken ;;
     if falsy token then throw (Error "User not authenticated")
     else
       match imageFile with
       | None => throw (Error "Please select a valid image file")
       | Some file =>
           if negb (startsWith "image/" (file_type file))
           then throw (Error "Please select a valid image file")
           else if (5 * 1024 * 1024 <? file_size file)%Z
           then throw (Error "Image size must be less than 5MB")
           else
             response <- authenticatedRequest "/user/profile/avatar" "POST"
                           (AvatarBody file) ;;
             if success response then
               currentUser <- AuthService.getCurrentUser ;;
               match currentUser with
               | None => throw TypeError
               | Some u =>
                   AuthService.setUserData
                     (Some (User.set_avatar (avatarUrl response) u)) ;;
                   ret {| reply_success := true;
                          reply_message :=
                            Some "Profile picture updated successfully";
                          reply_userId := None; reply_requiresOtp := false;
                          reply_user := None; reply_token := None;
                          reply_cached := false;
                          reply_avatarUrl := avatarUrl response;
                          reply_address := None; reply_addresses := None |}
               end
             else
               throw (Error (or_else (message response)
                               "Failed to upload profile picture"))
       end)
    (fun error => console_error "Update profile picture error:" ;; throw error).

Definition deleteAccount (password : string) : M Reply :=
  try_catch
    (token <- AuthService.getToken ;;
     if falsy token then throw (Error "User not authenticated")
     else if String.eqb password ""
     then throw (Error "Password is required to delete account")
     else
       response <- authenticatedRequest "/user/account" "DELETE"
                     (PasswordBody password) ;;
       if success response then
         _ <- AuthService.logoutUser auth_backend ;;
         ret (reply true (Some "Account deleted successfully"))
       else
         throw (Error (or_else (message response) "Failed to delete account")))
    (fun error => console_error "Delete account error:" ;; throw error).

Definition reply_with_addresses (l : option address_array) (cached : bool) : Reply :=
  {| reply_success := true; reply_message := None; reply_userId := None;
     reply_requiresOtp := false; reply_user := None; reply_token := None;
     reply_cached := cached; reply_avatarUrl := None; reply_address := None;
     reply_addresses := l |}.

Definition reply_with_address (msg : option string) (a : option Address.t)
  : Reply :=
  {| reply_success := true; reply_message := msg; reply_userId := None;
     reply_requiresOtp := false; reply_user := None; reply_token := None;
     reply_cached := false; reply_avatarUrl := None; reply_address := a;
     reply_addresses := None |}.

Definition listAddresses : M Reply :=
  try_catch
    (token <- AuthService.getToken ;;
     if falsy token then throw (Error "User not authenticated")
     else
       cachedAddresses <- AddressCache.getCachedAddresses ;;
       response <- authenticatedRequest "/user/addresses" "GET" NoBody ;;
       if success response then
         AddressCache.cacheAddresses quota (addresses response) ;;
         ret (reply_with_addresses (addresses response) false)
       else
         match cachedAddresses with
         | Some l => ret (reply_with_addresses (Some l) true)
         | None =>
             throw (Error (or_else (message response)
                             "Failed to fetch addresses"))
         end)
    (fun error => console_error "List addresses error:" ;; throw error).

Definition getAddress (addressId : string) : M Reply :=
  try_catch
    (token <- AuthService.getToken ;;
     if falsy token then throw (Error "User not authenticated")
     else
       response <- authenticatedRequest ("/user/addresses/" ++ addressId)%string
                     "GET" NoBody ;;
       if success response then
         ret (reply_with_address None (address response))
       else
         throw (Error (or_else (message response) "Failed to fetch address")))
    (fun error => console_error "Get address error:" ;; throw error).

Definition addAddress (addressData : AddressData) : M Reply :=
  try_catch
    (token <- AuthService.getToken ;;
     if falsy token then throw (Error "User not authenticated")
     else
       validatedAddress <- lift (validateAddressData addressData) ;;
       response <- authenticatedRequest "/user/addresses" "POST"
                     (AddressBody validatedAddress) ;;
       if success response then
         cached <- AddressCache.getCachedAddresses ;;
         AddressCache.cacheAddresses quota
           (Some (or_empty cached ++ [address response])) ;;
         dispatchEvent (addressAdded (address response)) ;;
         ret (reply_with_address (Some "Address added successfully")
                (address response))
       else
         throw (Error (or_else (message response) "Failed to add address")))
    (fun error => console_error "Add address error:" ;; throw error).

Definition updateAddress (addressId : string) (addressData : AddressData)
  : M Reply :=
  try_catch
    (token <- AuthService.getToken ;;
     if falsy token then throw (Error "User not authenticated")
     else if String.eqb addressId ""
     then throw (Error "Address ID is required")
     else
       validatedAddress <- lift (validateAddressData addressData) ;;
       response <- authenticatedRequest ("/user/addresses/" ++ addressId)%string
                     "PUT" (AddressBody validatedAddress) ;;
       if success response then
         cached <- AddressCache.getCachedAddresses ;;
         index <- lift (findIndex
                          (fun addr => String.eqb (Address.id addr) addressId)
                          (or_empty cached)) ;;
         match index with
         | Some i =>
             AddressCache.cacheAddresses quota
               (Some (assign i (address response) (or_empty cached)))
         | None => ret tt
         end ;;
         dispatchEvent (addressUpdated (address response)) ;;
         ret (reply_with_address (Some "Address updated successfully")
                (address response))
       else
         throw (Error (or_else (message response) "Failed to update address")))
    (fun error => console_error "Update address error:" ;; throw error).

Definition deleteAddress (addressId : string) : M Reply :=
  try_catch
    (token <- AuthService.getToken ;;
     if falsy token then throw (Error "User not authenticated")
     else if String.eqb addressId ""
     then throw (Error "Address ID is required")
     else
       response <- authenticatedRequest ("/user/addresses/" ++ addressId)%string
                     "DELETE" NoBody ;;
       if success response then
         cached <- AddressCache.getCachedAddresses ;;
         filteredAddresses <-
           lift (filter (fun addr => negb (String.eqb (Address.id addr) addressId))
                   (or_empty cached)) ;;
         AddressCache.cacheAddresses quota (Some filteredAddresses) ;;
         dispatchEvent (addressDeleted addressId) ;;
         ret (reply true (Some "Address deleted successfully"))
       else
         throw (Error (or_else (message response) "Failed to delete address")))
    (fun error => console_error "Delete address error:" ;; throw error).

Definition setDefaultAddress (addressId : string) : M Reply :=
  try_catch
    (token <- AuthService.getToken ;;
     if falsy token then throw (Error "User not authenticated")
     else if String.eqb addressId ""
     then throw (Error "Address ID is required")
     else
       response <- authenticatedRequest
                     ("/user/addresses/" ++ addressId ++ "/default")%string
                     "PUT" NoBody ;;
       if success response then
         cached <- AddressCache.getCachedAddresses ;;
         updated <-
           lift (forEach
                   (fun addr =>
                      Address.set_isDefault
                        (String.eqb (Address.id addr) addressId) addr)
                   (or_empty cached)) ;;
         AddressCache.cacheAddresses quota (Some updated) ;;
         ret (reply true (Some "Default address updated successfully"))
       else
         throw (Error (or_else (message response)
                         "Failed to set default address")))
    (fun error => console_error "Set default address error:" ;; throw error).

Definition getDefaultAddress : M Reply :=
  try_catch
    (result <- listAddresses ;;
     match reply_addresses result with
     | None => throw TypeError
     | Some l =>
         defaultAddress <- lift (find Address.isDefault l) ;;
         match defaultAddress with
         | Some a => ret (reply_with_address None (Some a))
         | None => ret (reply false (Some "No default address found"))
         end
     end)
    (fun error => console_error "Get default address error:" ;; throw error).

End Operations.

End UserService.

(** ** AuthStateManager

    The part of the page-wide manager that acts on the session: the
    periodic refresh and the listeners of state changes.  The parts that
    draw the navigation are outside this development. *)

Module AuthStateManager.

Import JsString.

(** [console.log(label)]: the page records console errors only. *)
Definition console_log (label : string) : M unit := ret tt.

(** [payload.exp - currentTime] *)
Definition timeUntilExpiry (payload : json) (currentTime : jsnum)
  : result jsnum :=
  result_bind (JsNumber.member_exp payload) (fun exp =>
  result_bind (JsNumber.to_number exp) (fun n =>
  Ok (Double.sub n currentTime))).

(** What the listeners are told. *)
Record AuthState : Type := {
  state_isAuthenticated : bool;
  state_user : option User.t
}.

(** A registered callback; [typeof callback === 'function'] holds of
    each, and two callbacks are the same function when they bear the
    same mark. *)
Record Listener : Type := {
  mark : nat;
  call : AuthState -> M unit
}.

(** [this.listeners.push(callback)] *)
Definition addListener (callback : Listener) (listeners : list Listener)
  : list Listener :=
  listeners ++ [callback].

(** [this.listeners.filter(cb => cb !== callback)] *)
Definition removeListener (callback : Listener) (listeners : list Listener)
  : list Listener :=
  List.filter (fun cb => negb (Nat.eqb (mark cb) (mark callback))) listeners.

(** Each callback in turn, inside its own [try]. *)
Fixpoint notifyListeners (listeners : list Listener) (state : AuthState)
  : M unit :=
  match listeners with
  | [] => ret tt
  | callback :: rest =>
      try_catch (call callback state)
        (fun _ => console_error "Listener error:") ;;
      notifyListeners rest state
  end.

Section Operations.

Variable backend : Backend.

Definition refreshTokenIfNeeded : M unit :=
  authenticated <- AuthService.isAuthenticated ;;
  if negb authenticated then ret tt
  else
    try_catch
      (token <- AuthService.getToken ;;
       if falsy token then ret tt
       else
         payload <- lift (AuthService.parseJwt (AuthService.stored_string token)) ;;
         currentTime <- read (fun w => AuthService.seconds (now w)) ;;
         remaining <- lift (timeUntilExpiry payload currentTime) ;;
         if Double.lt remaining (Fin 600) then
           console_log "Refreshing token..." ;;
           _ <- AuthService.refreshToken backend ;;
           console_log "Token refreshed successfully"
         else ret tt)
      (fun error =>
         console_error "Token refresh error:" ;;
         _ <- AuthService.logoutUser backend ;;
         ret tt).

End Operations.

End AuthStateManager.

(** ** AuthService: one-time codes and passwords

    The four operations that neither read nor write the session.  They
    are given the gateway method they await, [mockApiCall], as a
    computation of the endpoint and the options. *)

Module Credentials.

Import JsString.

(** The options of a call: the [Authorization] header, when one is set,
    and the members of the object that becomes the body. *)
Record Options : Type := {
  authorization : option string;
  members : list (string * string)
}.

Definition Gateway : Type := string -> Options -> M Response.

(** [{success: response.success, message: response.message || fallback}] *)
Definition answer (response : Response) (fallback : string) : Reply :=
  reply (success response) (Some (or_else (message response) fallback)).

(** The method as the repository ships it: a second passes, the options
    are not looked at, and the answer is looked up by endpoint. *)
Definition shipped : Gateway :=
  fun ep _ w =>
    (Ok (AuthService.mockResponses ep (now w + 1000)),
     set_now (now w + 1000) w).

Section Operations.

Variable mockApiCall : Gateway.

Definition resendOtp (userId : string) : M Reply :=
  try_catch
    (response <- mockApiCall "/auth/resend-otp"
                   {| authorization := None;
                      members := [("userId", userId)] |} ;;
     ret (answer response "OTP sent successfully"))
    (fun error => console_error "Resend OTP error:" ;; throw error).

Definition forgotPassword (email : string) : M Reply :=
  try_catch
    (if String.eqb email "" then throw (Error "Email is required")
     else if negb (AuthService.validateEmail email)
     then throw (Error "Invalid email format")
     else
       response <- mockApiCall "/auth/forgot-password"
                     {| authorization := None;
                        members := [("email", email)] |} ;;
       ret (answer response "Password reset link sent to your email"))
    (fun error => console_error "Forgot password error:" ;; throw error).

Definition resetPassword (token newPassword : string) : M Reply :=
  try_catch
    (if String.eqb token "" || String.eqb newPassword ""
     then throw (Error "Token and new password are required")
     else if negb (AuthService.validatePassword newPassword)
     then throw (Error "Password must be at least 8 characters with uppercase, lowercase, and number")
     else
       response <- mockApiCall "/auth/reset-password"
                     {| authorization := None;
                        members := [("token", token);
                                    ("newPassword", newPassword)] |} ;;
       ret (answer response "Password reset successful"))
    (fun error => console_error "Reset password error:" ;; throw error).

Definition changePassword (currentPassword newPassword : string) : M Reply :=
  try_catch
    (token <- AuthService.getToken ;;
     if falsy token then throw (Error "User not authenticated")
     else if String.eqb currentPassword "" || String.eqb newPassword ""
     then throw (Error "Current and new password are required")
     else if negb (AuthService.validatePassword newPassword)
     then throw (Error "Password must be at least 8 characters with uppercase, lowercase, and number")
     else
       response <- mockApiCall "/auth/change-password"
                     {| authorization :=
                          Some ("Bearer " ++ AuthService.stored_string token)%string;
                        members := [("currentPassword", currentPassword);
                                    ("newPassword", newPassword)] |} ;;
       ret (answer response "Password changed successfully"))
    (fun error => console_error "Change password error:" ;; throw error).

End Operations.

End Credentials.

(** * What the specification asks for *)

Module Spec.

Import JsString.

(** A standard address: a local part, [@], a domain, a point and a last
    label, none of them empty, none holding white space or a further [@]. *)
Definition well_formed_email (email : string) : Prop :=
  exists a b c,
    chars email = a ++ "@"%char :: b ++ "."%char :: c
    /\ a <> [] /\ b <> [] /\ c <> []
    /\ Forall (fun x => AuthService.not_space_or_at x = true) (a ++ b ++ c).

(** At least 8 characters, with an upper-case letter, a lower-case letter
    and a digit. *)
Definition strong_password (password : string) : Prop :=
  8 <= String.length password
  /\ (exists c, In c (chars password) /\ is_upper c = true)
  /\ (exists c, In c (chars password) /\ is_lower c = true)
  /\ (exists c, In c (chars password) /\ is_digit c = true).

(** A registration that must be refused before the backend is asked. *)
Definition invalid_registration (d : RegistrationData) : Prop :=
  falsy (reg_email d) = true
  \/ falsy (reg_password d) = true
  \/ falsy (reg_firstName d) = true
  \/ falsy (reg_lastName d) = true
  \/ ~ well_formed_email (AuthService.stored_string (reg_email d))
  \/ ~ strong_password (AuthService.stored_string (reg_password d)).

(** The three messages of a refused registration. *)
Definition validation_message (msg : string) : Prop :=
  msg = "All required fields must be filled"
  \/ msg = "Invalid email format"
  \/ msg = "Password must be at least 8 characters with uppercase, lowercase, and number".

End Spec.

(** ** States and observations the properties speak of *)

Module Page.

Definition empty_local : LocalStorage :=
  {| auth_token := None; refresh_token := None; user_data := None;
     user_addresses := None |}.

(** The anonymous state at a given time: nothing stored, nothing observed. *)
Definition anonymous (t : Z) : World :=
  {| localStorage := empty_local;
     sessionStorage := {| pending_registration := None |};
     href := "/index.html"; now := t; log := [] |}.

(** The requests sent to a backend and the events dispatched so far,
    newest first. *)
Definition fetches (w : World) : list request :=
  flat_map (fun a => match a with Fetch r => [r] | _ => [] end) (log w).

Definition dispatched (w : World) : list event :=
  flat_map (fun a => match a with Dispatch e => [e] | _ => [] end) (log w).

(** The labels of the errors written to the console, newest first. *)
Definition reported (w : World) : list string :=
  flat_map (fun a => match a with ConsoleError s => [s] | _ => [] end) (log w).

(** No access token, no refresh token and no user record are stored. *)
Definition signed_out (w : World) : Prop :=
  auth_token (localStorage w) = None
  /\ refresh_token (localStorage w) = None
  /\ user_data (localStorage w) = None.

(** Scenario B of the specification. *)
Definition scenario_B : RegistrationData :=
  {| reg_email := Some "bad-email"; reg_password := Some "weak";
     reg_firstName := Some "A"; reg_lastName := Some "B"; reg_phone := None |}.

End Page.

(** ** The token store's view of a token *)

Module TokenStore.

(** [decodeExpiry(token)]: the number that the [exp] member of the decoded
    payload stands for in a comparison. *)
Definition decodeExpiry (token : string) : result jsnum :=
  result_bind (AuthService.parseJwt token) (fun payload =>
  result_bind (JsNumber.member_exp payload) (fun exp =>
  JsNumber.to_number exp)).

(** [x] is strictly greater than the time [t]; nothing exceeds, and
    nothing is exceeded by, what is not a number. *)
Definition exceeds (x t : jsnum) : Prop :=
  match x, t with
  | Fin q, Fin s => (s < q)%Q
  | Fin _, NegInf => True
  | PosInf, Fin _ => True
  | PosInf, NegInf => True
  | _, _ => False
  end.

(** The answer the specification gives for a stored token at a time:
    true when the token decodes and its expiry is greater than the time. *)
Definition verdict (token : option string) (t : Z) : bool :=
  match token with
  | None => false
  | Some tok =>
      match decodeExpiry tok with
      | Ok e => JsNumber.gt e (AuthService.seconds t)
      | Throw _ => false
      end
  end.

(** The dot-separated segments of a token. *)
Definition segments (token : string) : list string := JsString.split "." token.

(** A page that stores [token] as its access token and nothing else. *)
Definition holding (token : string) (t : Z) : World :=
  {| localStorage :=
       {| auth_token := Some token; refresh_token := None; user_data := None;
          user_addresses := None |};
     sessionStorage := {| pending_registration := None |};
     href := "/index.html"; now := t; log := [] |}.

(** A header, the payload [{"exp":99999999999}] and a signature. *)
Definition sample_jwt : string := "h.eyJleHAiOjk5OTk5OTk5OTk5fQ.s".

(** The same payload after a single other segment. *)
Definition two_segments : string := "x.eyJleHAiOjk5OTk5OTk5OTk5fQ".


(** The payload is an object whose [exp] member, the last of that name,
    is the whole number [expiry] of seconds. *)
Definition whole_seconds (payload : json) (expiry : Z) : Prop :=
  exists before q after,
    payload = JObj (before ++ (Json.lit "exp", JNum q) :: after)
    /\ (q == inject_Z expiry)%Q
    /\ Forall (fun member => fst member <> Json.lit "exp") after.

End TokenStore.

(** ** Backends and pages of the scenarios *)

Module Scenario.

(** A backend that cannot be reached: every request is rejected. *)
Definition unreachable : Backend :=
  fun _ t => (Rejected (Error "Failed to fetch"), t).

(** A backend that answers every request with a refusal. *)
Definition refusing : Backend :=
  fun _ t => (Resolved (response false (Some "Rejected")), t).

(** The answer is not a success: a rejection, or a response whose
    [success] is false. *)
Definition rejects (o : outcome) : Prop :=
  match o with
  | Rejected _ => True
  | Resolved r => success r = false
  end.

Definition refresh_request (stored : string) : request :=
  AuthService.post "/auth/refresh-token" None (RefreshBody stored).

(** A refresh token is stored and the backend rejects it. *)
Definition refresh_rejected (backend : Backend) (w : World) : Prop :=
  exists stored,
    refresh_token (localStorage w) = Some stored
    /\ stored <> ""
    /\ rejects (fst (backend (refresh_request stored) (now w))).

Definition john : User.t := AuthService.mock_user "user_123".

(** A signed-in page: an access token, a refresh token and a user. *)
Definition signed_in (t : Z) : World :=
  {| localStorage :=
       {| auth_token := Some TokenStore.sample_jwt;
          refresh_token := Some "refresh_1";
          user_data := Some (Json john);
          user_addresses := None |};
     sessionStorage := {| pending_registration := None |};
     href := "/profile.html"; now := t; log := [] |}.

(** An anonymous page between registration and verification. *)
Definition awaiting_verification (t : Z) : World :=
  {| localStorage := Page.empty_local;
     sessionStorage :=
       {| pending_registration :=
            Some {| pending_email := "user@example.com";
                    pending_userId := Some "user_1" |} |};
     href := "/register.html"; now := t; log := [] |}.

(** A backend that answers within a second and issues a token that is a
    JWT, here the sample one. *)
Definition session_response : Response :=
  {| success := true; message := None; userId := None;
     token := Some TokenStore.sample_jwt; refreshToken := Some "refresh_1";
     user := Some john; avatarUrl := None; address := None;
     addresses := None |}.

Definition issuing : Backend :=
  fun _ t => (Resolved session_response, (t + 1000)%Z).

(** What [setTokens] leaves under the refresh-token key. *)
Definition kept_refresh_token (answered stored : option string) : option string :=
  if JsString.falsy answered then stored else answered.

(** A page whose session has lapsed, as a rejected refresh leaves it,
    with the addresses of the user still cached. *)
Definition lapsed (t : Z) : World :=
  {| localStorage :=
       {| auth_token := None; refresh_token := None; user_data := None;
          user_addresses := Some (Json UserService.mock_addresses) |};
     sessionStorage := {| pending_registration := None |};
     href := "/login.html"; now := t; log := [] |}.

(** The registration of the documentation's example. *)
Definition newcomer : RegistrationData :=
  {| reg_email := Some "user@example.com"; reg_password := Some "SecurePass123";
     reg_firstName := Some "John"; reg_lastName := Some "Doe";
     reg_phone := Some "+1234567890" |}.

(** The page after that registration on the backend the repository
    ships, starting from the anonymous state. *)
Definition registered (t : Z) : World :=
  snd (AuthService.registerUser AuthService.mockApiCall newcomer
         (Page.anonymous t)).

End Scenario.

(** ** Requests and stored values of the address operations *)

Module Book.

(** What [cacheAddresses] stores for the array of a response. *)
Definition stored_addresses (l : option address_array) : entry address_array :=
  match l with
  | Some x => Json x
  | None => Garbage
  end.

Definition list_request (token : string) : request :=
  {| endpoint := "/user/addresses"; method := "GET"; bearer := Some token;
     payload := NoBody |}.

Definition add_request (token : string) (v : ValidAddress) : request :=
  {| endpoint := "/user/addresses"; method := "POST"; bearer := Some token;
     payload := AddressBody v |}.

Definition update_request (token addressId : string) (v : ValidAddress)
  : request :=
  {| endpoint := ("/user/addresses/" ++ addressId)%string; method := "PUT";
     bearer := Some token; payload := AddressBody v |}.

Definition delete_request (token addressId : string) : request :=
  {| endpoint := ("/user/addresses/" ++ addressId)%string; method := "DELETE";
     bearer := Some token; payload := NoBody |}.

(** The record has another identifier than [addressId]. *)
Definition other_than (addressId : string) (a : Address.t) : bool :=
  negb (String.eqb (Address.id a) addressId).

(** The item is a record with another identifier than [addressId]. *)
Definition survives (addressId : string) (o : option Address.t) : bool :=
  match o with
  | Some a => other_than addressId a
  | None => false
  end.

(** The items before the first record that bears [addressId]: records
    with another identifier, none of them [null]. *)
Definition before_match (addressId : string) (l : address_array) : Prop :=
  Forall (fun o => exists a, o = Some a /\ other_than addressId a = true) l.

(** The items before the first default record: records that are not the
    default, none of them [null]. *)
Definition before_default (l : address_array) : Prop :=
  Forall (fun o => exists a, o = Some a /\ Address.isDefault a = false) l.

End Book.

(** Inversion of a derivation, with the equations substituted. *)
Ltac inv H := inversion H; subst; clear H.

(** ** What a guarded operation does without an access token *)

Module Guard.

(** The page after an operation that read the access token, found none,
    and reported the error under [label]: nothing else is observed, and
    no store, location or clock has changed. *)
Definition refused (label : string) (w : World) : result Reply * World :=
  (Throw (Error "User not authenticated"),
   observe (ConsoleError label) (observe (LocalGet AuthService.TOKEN_KEY) w)).

End Guard.

(** ** The cached address collection *)

Module Cache.

(** The collection an operation starts from: the cached array, or the
    empty array when nothing, or nothing that parses, is cached. *)
Definition cached_addresses (w : World) : address_array :=
  match user_addresses (localStorage w) with
  | Some (Json l) => l
  | _ => []
  end.

Definition is_default (a : option Address.t) : bool :=
  match a with
  | Some x => Address.isDefault x
  | None => false
  end.

(** How many cached records are marked as the default. *)
Definition default_count (l : address_array) : nat :=
  length (List.filter is_default l).

(** The identifiers of the cached records, in order. *)
Definition ids (l : address_array) : list string :=
  flat_map (fun a => match a with Some x => [Address.id x] | None => [] end) l.

(** A record of the updated collection against the record it comes
    from: the same record, its flag telling whether it is the requested
    one. *)
Definition remarked (addressId : string) (old new : option Address.t) : Prop :=
  exists a,
    old = Some a
    /\ new = Some (Address.set_isDefault (String.eqb (Address.id a) addressId) a).

(** A page that holds an access token and a cached collection. *)
Definition caching (l : address_array) (t : Z) : World :=
  {| localStorage :=
       {| auth_token := Some TokenStore.sample_jwt; refresh_token := None;
          user_data := None; user_addresses := Some (Json l) |};
     sessionStorage := {| pending_registration := None |};
     href := "/profile.html"; now := t; log := [] |}.

(** The record of one address, as a backend returns it. *)
Definition home : Address.t :=
  Address.mk "addr_1" "John Doe" "123 Main St" "Apt 4B" "New York" "NY" "10001"
    "USA" "+1234567890" "home" false.

(** What the user enters for that address. *)
Definition home_data : AddressData :=
  {| ad_fullName := Some "John Doe"; ad_addressLine1 := Some "123 Main St";
     ad_addressLine2 := Some "Apt 4B"; ad_city := Some "New York";
     ad_state := Some "NY"; ad_zipCode := Some "10001";
     ad_country := Some "USA"; ad_phone := Some "+1234567890";
     ad_addressType := Some "home"; ad_isDefault := Some false |}.

(** A backend that answers every request with that record, as one does
    that recognises a repeated submission. *)
Definition echoing : Backend :=
  fun _ t =>
    (Resolved {| success := true; message := None; userId := None;
                 token := None; refreshToken := None; user := None;
                 avatarUrl := None; address := Some home;
                 addresses := None |}, t).

(** One address that was added twice: two records with one identifier. *)
Definition doubled : address_array := [Some home; Some home].

(** The request [setDefaultAddress] sends for a stored token. *)
Definition default_request (token addressId : string) : request :=
  {| endpoint := ("/user/addresses/" ++ addressId ++ "/default")%string;
     method := "PUT"; bearer := Some token; payload := NoBody |}.

(** A browser with room for every write of the cache, and one whose
    quota is used up. *)
Definition roomy : AddressCache.Quota := fun _ _ => true.
Definition full : AddressCache.Quota := fun _ _ => false.

(** The page of scenario D after [setDefaultAddress("addr_2")] on the
    backend the repository ships. *)
Definition set_default_run (quota : AddressCache.Quota) : World :=
  snd (UserService.setDefaultAddress UserService.mockBackend quota "addr_2"
         (caching UserService.mock_addresses 1700000000000)).

(** What a call that writes [text] to the cache of the page [w] leaves
    in [w']: the text under the address key when the browser takes it;
    the store as it was, and the failure as the last report on the
    console, when it does not. *)
Definition written (quota : AddressCache.Quota) (text : entry address_array)
  (w w' : World) : Prop :=
  (quota (localStorage w) text = true ->
   localStorage w'
   = AddressCache.set_user_addresses (Some text) (localStorage w))
  /\ (quota (localStorage w) text = false ->
      localStorage w' = localStorage w
      /\ hd_error (Page.reported w') = Some "Failed to cache addresses:").

(** No item of the collection is [null]. *)
Definition no_null (l : address_array) : Prop := Forall (fun a => a <> None) l.

End Cache.

(** ** Pages and requests of the profile scenarios *)

Module Profile.

(** A page that holds an access token and a cached user record. *)
Definition remembering (u : User.t) (t : Z) : World :=
  {| localStorage :=
       {| auth_token := Some TokenStore.sample_jwt; refresh_token := None;
          user_data := Some (Json u); user_addresses := None |};
     sessionStorage := {| pending_registration := None |};
     href := "/profile.html"; now := t; log := [] |}.

(** The request [getUserProfile] sends for a stored token. *)
Definition profile_request (token : string) : request :=
  {| endpoint := "/user/profile"; method := "GET"; bearer := Some token;
     payload := NoBody |}.

(** What [setUserData] stores for the user of a response. *)
Definition stored_user (u : option User.t) : entry User.t :=
  match u with
  | Some x => Json x
  | None => Garbage
  end.

End Profile.

(** ** Requests of the account operations *)

Module Account.

Definition update_request (token : string) (v : ProfileData) : request :=
  {| endpoint := "/user/profile"; method := "PUT"; bearer := Some token;
     payload := ProfileBody v |}.

Definition avatar_request (token : string) (file : ImageFile) : request :=
  {| endpoint := "/user/profile/avatar"; method := "POST";
     bearer := Some token; payload := AvatarBody file |}.

Definition delete_request (token password : string) : request :=
  {| endpoint := "/user/account"; method := "DELETE"; bearer := Some token;
     payload := PasswordBody password |}.

Definition logout_request (token : string) : request :=
  AuthService.post "/auth/logout" (Some token) NoBody.

(** Five megabytes, the largest picture that is uploaded. *)
Definition max_size : Z := 5 * 1024 * 1024.

(** The page after a guarded operation that refused its input before
    any request. *)
Definition refused_input (label : string) (w : World) : World :=
  observe (ConsoleError label) (observe (LocalGet AuthService.TOKEN_KEY) w).

(** A change of the first name, as entered and as sent. *)
Definition renaming : ProfileData :=
  {| pd_firstName := Some " Jane "; pd_lastName := None; pd_email := None;
     pd_phone := None; pd_dateOfBirth := None; pd_gender := None |}.

Definition renamed : ProfileData :=
  {| pd_firstName := Some "Jane"; pd_lastName := None; pd_email := None;
     pd_phone := None; pd_dateOfBirth := None; pd_gender := None |}.

(** What [updateProfilePicture] resolves with. *)
Definition reply_with_avatar (url : option string) : Reply :=
  {| reply_success := true;
     reply_message := Some "Profile picture updated successfully";
     reply_userId := None; reply_requiresOtp := false; reply_user := None;
     reply_token := None; reply_cached := false; reply_avatarUrl := url;
     reply_address := None; reply_addresses := None |}.

(** A picture of a kilobyte. *)
Definition portrait : ImageFile := {| file_type := "image/png"; file_size := 1024 |}.

(** A backend that stores the picture and answers with its address. *)
Definition hosting : Backend :=
  fun _ t =>
    (Resolved {| success := true; message := None; userId := None;
                 token := None; refreshToken := None; user := None;
                 avatarUrl := Some "https://cdn.example.com/a.png";
                 address := None; addresses := None |}, t).

End Account.

(** ** Replies and pages of the session operations *)

Module Session.

(** What [refreshToken] resolves with. *)
Definition reply_with_token (t : option string) : Reply :=
  {| reply_success := true; reply_message := None; reply_userId := None;
     reply_requiresOtp := false; reply_user := None; reply_token := t;
     reply_cached := false; reply_avatarUrl := None; reply_address := None;
     reply_addresses := None |}.

(** A page that holds an access token and a user record, but no refresh
    token. *)
Definition without_refresh_token (t : Z) : World :=
  {| localStorage :=
       {| auth_token := Some TokenStore.sample_jwt; refresh_token := None;
          user_data := Some (Json Scenario.john); user_addresses := None |};
     sessionStorage := {| pending_registration := None |};
     href := "/profile.html"; now := t; log := [] |}.

(** A backend that issues a token with every answer, and no user. *)
Definition token_only : Response :=
  {| success := true; message := None; userId := None;
     token := Some TokenStore.sample_jwt; refreshToken := None; user := None;
     avatarUrl := None; address := None; addresses := None |}.

Definition terse : Backend := fun _ t => (Resolved token_only, t).

End Session.

(** ** Shapes of validated text *)

Module Shape.

Import JsString.

(** No character of the text ends a line. *)
Definition single_line (l : list ascii) : Prop :=
  Forall (fun c => is_dot c = true) l.

(** A password by its code units: at least 8 of them, with a letter of
    A-Z, a letter of a-z and a digit of 0-9, and none of LF, CR, U+2028
    and U+2029. *)
Definition strong_single_line (units : list N) : Prop :=
  8 <= length units
  /\ (exists c, In c units /\ (65 <= c <= 90)%N)
  /\ (exists c, In c units /\ (97 <= c <= 122)%N)
  /\ (exists c, In c units /\ (48 <= c <= 57)%N)
  /\ Forall (fun c => c <> 10%N /\ c <> 13%N /\ c <> 8232%N /\ c <> 8233%N)
       units.

(** The code units of [Abcdefg1] followed by a line separator. *)
Definition with_line_separator : list N :=
  [65; 98; 99; 100; 101; 102; 103; 49; 8232]%N.

Definition digits (l : list ascii) : Prop :=
  Forall (fun c => is_digit c = true) l.

(** Five or six digits, then nothing or a hyphen and four digits. *)
Definition zip_code (l : list ascii) : Prop :=
  exists ds ext,
    l = ds ++ ext
    /\ digits ds
    /\ (length ds = 5 \/ length ds = 6)
    /\ (ext = [] \/ exists e, ext = "-"%char :: e /\ length e = 4 /\ digits e).

(** The address of the example, as it is sent. *)
Definition home_sent : ValidAddress :=
  {| va_fullName := "John Doe"; va_addressLine1 := "123 Main St";
     va_addressLine2 := "Apt 4B"; va_city := "New York"; va_state := "NY";
     va_zipCode := "10001"; va_country := "USA"; va_phone := "+1234567890";
     va_addressType := "home"; va_isDefault := false |}.

End Shape.

(** ** Requests and replies of registration *)

Module Registration.

Definition register_request (email password firstName lastName : string)
  (phone : option string) : request :=
  AuthService.post "/auth/register" None
    (RegisterBody email password firstName lastName phone).

(** What [registerUser] resolves with. *)
Definition reply_awaiting_otp (uid : option string) : Reply :=
  {| reply_success := true;
     reply_message := Some "Registration successful. Please verify your email.";
     reply_userId := uid; reply_requiresOtp := true; reply_user := None;
     reply_token := None; reply_cached := false; reply_avatarUrl := None;
     reply_address := None; reply_addresses := None |}.

End Registration.

(** * Properties *)

(** ** The matcher decides the words of a pattern *)

Module RegexFacts.

Import Regex.

Lemma nullable_lang (A : Type) (r : t A) : nullable r = true <-> lang r [].
Proof.
  induction r; simpl; split; intro H;
    try discriminate; try (now constructor).
  - inv H.
  - inv H.
  - apply andb_true_iff in H as [H1 H2].
    change (@nil A) with (@nil A ++ []).
    constructor; [now apply IHr1 | now apply IHr2].
  - inv H.
    match goal with E : _ ++ _ = [] |- _ => apply app_eq_nil in E as [-> ->] end.
    apply andb_true_iff; split; [now apply IHr1 | now apply IHr2].
  - apply orb_true_iff in H as [H | H];
      [apply L_alt_l; now apply IHr1 | apply L_alt_r; now apply IHr2].
  - apply orb_true_iff.
    inv H; [left; now apply IHr1 | right; now apply IHr2].
  - apply andb_true_iff in H as [H1 H2].
    constructor; [now apply IHr1 | now apply IHr2].
  - inv H.
    apply andb_true_iff; split; [now apply IHr1 | now apply IHr2].
Qed.

Lemma star_cons_inv (A : Type) (r : t A) (c : A) (l : list A) :
  lang (Star r) (c :: l) ->
  exists u v, l = u ++ v /\ lang r (c :: u) /\ lang (Star r) v.
Proof.
  intro H. remember (Star r) as s eqn:Hs. remember (c :: l) as w eqn:Hw.
  revert Hs Hw.
  induction H as [ | | | | | | | r0 u v Hu _ Hv IHv]; intros Hs Hw;
    try discriminate.
  injection Hs as ->.
  destruct u as [ | a u'].
  - simpl in Hw. now apply IHv.
  - simpl in Hw. injection Hw as -> <-.
    exists u', v. now repeat split.
Qed.

Lemma seq_cons_inv (A : Type) (r1 r2 : t A) (c : A) (l : list A) :
  lang (Seq r1 r2) (c :: l) ->
  (lang r1 [] /\ lang r2 (c :: l))
  \/ exists u v, l = u ++ v /\ lang r1 (c :: u) /\ lang r2 v.
Proof.
  intro H. inversion H as [ | | ? ? u v Hu Hv [E1 E2] E | | | | | ]; subst.
  destruct u as [ | a u'].
  - simpl in E. subst v. now left.
  - simpl in E. injection E as -> <-. right. exists u', v. now repeat split.
Qed.

Lemma seq_inv (A : Type) (r1 r2 : t A) (l : list A) :
  lang (Seq r1 r2) l -> exists u v, l = u ++ v /\ lang r1 u /\ lang r2 v.
Proof.
  intro H. inversion H as [ | | ? ? u v Hu Hv [E1 E2] E | | | | | ]; subst.
  exists u, v. now repeat split.
Qed.

Lemma lang_deriv (A : Type) (r : t A) :
  forall c l, lang (deriv c r) l <-> lang r (c :: l).
Proof.
  induction r; intros c l; simpl.
  - split; intro H; inv H.
  - split; intro H; inv H.
  - destruct (p c) eqn:Hp; split; intro H.
    + inv H. now constructor.
    + inv H. constructor.
    + inv H.
    + inv H. congruence.
  - destruct (nullable r1) eqn:Hn.
    + split; intro H.
      * inv H.
        -- match goal with S : lang (Seq _ _) _ |- _ =>
             apply seq_inv in S as (u & v & -> & Hu & Hv) end.
           change (c :: u ++ v) with ((c :: u) ++ v).
           constructor; [now apply IHr1 | assumption].
        -- change (c :: l) with ([] ++ c :: l).
           constructor; [now apply nullable_lang | now apply IHr2].
      * apply seq_cons_inv in H as [[_ H2] | (u & v & -> & Hu & Hv)].
        -- apply L_alt_r. now apply IHr2.
        -- apply L_alt_l. constructor; [now apply IHr1 | assumption].
    + split; intro H.
      * apply seq_inv in H as (u & v & -> & Hu & Hv).
        change (c :: u ++ v) with ((c :: u) ++ v).
        constructor; [now apply IHr1 | assumption].
      * apply seq_cons_inv in H as [[H1 _] | (u & v & -> & Hu & Hv)].
        -- apply nullable_lang in H1. congruence.
        -- constructor; [now apply IHr1 | assumption].
  - split; intro H; inv H;
      solve [apply L_alt_l; now apply IHr1 | apply L_alt_r; now apply IHr2].
  - split; intro H; inv H;
      (constructor; [now apply IHr1 | now apply IHr2]).
  - split; intro H.
    + apply seq_inv in H as (u & v & -> & Hu & Hv).
      change (c :: u ++ v) with ((c :: u) ++ v).
      constructor; [now apply IHr | assumption].
    + apply star_cons_inv in H as (u & v & -> & Hu & Hv).
      constructor; [now apply IHr | assumption].
Qed.

Lemma matches_lang (A : Type) (r : t A) (l : list A) :
  matches r l = true <-> lang r l.
Proof.
  revert r. induction l as [ | c l IH]; intro r; simpl.
  - apply nullable_lang.
  - rewrite IH. apply lang_deriv.
Qed.

End RegexFacts.

(** ** The two patterns of the session manager *)

Module PatternFacts.

Import JsString Regex RegexFacts.

Lemma lang_star_cls (A : Type) (p : A -> bool) (l : list A) :
  lang (Star (Cls p)) l <-> Forall (fun c => p c = true) l.
Proof.
  split.
  - intro H. remember (Star (Cls p)) as s eqn:Hs. revert Hs.
    induction H as [ | | | | | | | r u v Hu _ Hv IHv]; intro Hs;
      try discriminate; [constructor | ].
    injection Hs as ->. inv Hu. simpl. constructor; [assumption | now apply IHv].
  - induction 1 as [ | c l Hc _ IH]; [constructor | ].
    change (c :: l) with ([c] ++ l). constructor; [now constructor | assumption].
Qed.

Lemma lang_plus_cls (A : Type) (p : A -> bool) (l : list A) :
  lang (plus (Cls p)) l <-> l <> [] /\ Forall (fun c => p c = true) l.
Proof.
  unfold plus. split.
  - intro H. apply seq_inv in H as (u & v & -> & Hu & Hv). inv Hu.
    apply lang_star_cls in Hv. split; [discriminate | now constructor].
  - intros [Hne Hall]. destruct Hall as [ | c l Hc Hall]; [congruence | ].
    change (c :: l) with ([c] ++ l).
    constructor; [now constructor | now apply lang_star_cls].
Qed.

Lemma lang_chr (x : ascii) (l : list ascii) : lang (chr x) l <-> l = [x].
Proof.
  unfold chr, is_char. split.
  - intro H. inv H.
    match goal with E : Ascii.eqb _ _ = true |- _ => apply Ascii.eqb_eq in E end.
    now subst.
  - intros ->. constructor. apply Ascii.eqb_refl.
Qed.

Lemma emailRegex_lang (l : list ascii) :
  lang AuthService.emailRegex l <->
  exists a b c,
    l = a ++ "@"%char :: b ++ "."%char :: c
    /\ a <> [] /\ b <> [] /\ c <> []
    /\ Forall (fun x => AuthService.not_space_or_at x = true) (a ++ b ++ c).
Proof.
  unfold AuthService.emailRegex. split.
  - intro H.
    apply seq_inv in H as (a & r1 & -> & Ha & H).
    apply seq_inv in H as (at1 & r2 & -> & Hat & H).
    apply seq_inv in H as (b & r3 & -> & Hb & H).
    apply seq_inv in H as (dot & c & -> & Hdot & Hc).
    apply lang_chr in Hat, Hdot. subst at1 dot.
    apply lang_plus_cls in Ha as [Ha1 Ha2], Hb as [Hb1 Hb2], Hc as [Hc1 Hc2].
    exists a, b, c. repeat split; try assumption.
    rewrite !Forall_app. now repeat split.
  - intros (a & b & c & -> & Ha & Hb & Hc & Hall).
    rewrite !Forall_app in Hall. destruct Hall as (Fa & Fb & Fc).
    constructor; [now apply lang_plus_cls | ].
    change ("@"%char :: b ++ "."%char :: c)
      with (["@"%char] ++ b ++ ["."%char] ++ c).
    constructor; [now apply lang_chr | ].
    constructor; [now apply lang_plus_cls | ].
    constructor; [now apply lang_chr | now apply lang_plus_cls].
Qed.

(** [validateEmail] accepts exactly the standard addresses. *)
Lemma validateEmail_spec (email : string) :
  AuthService.validateEmail email = true <-> Spec.well_formed_email email.
Proof.
  unfold AuthService.validateEmail, test, Spec.well_formed_email.
  rewrite matches_lang. apply emailRegex_lang.
Qed.

Lemma lang_lookahead_class (A : Type) (p q : A -> bool) (l : list A) :
  lang (lookahead (Seq (Star (Cls p)) (Cls q))) l ->
  exists c, In c l /\ q c = true.
Proof.
  unfold lookahead. intro H.
  apply seq_inv in H as (u & v & -> & Hu & _).
  apply seq_inv in Hu as (u1 & u2 & -> & _ & Hq). inv Hq.
  match goal with c : A |- _ => exists c end.
  split; [ | assumption].
  apply in_or_app. left. apply in_or_app. right. now left.
Qed.

Lemma lang_times_length (A : Type) (n : nat) (r : t A) (l : list A) :
  (forall w, lang r w -> 1 <= length w) ->
  lang (times n r) l -> n <= length l.
Proof.
  intro Hr. revert l. induction n as [ | n IH]; intros l H; simpl in *.
  - lia.
  - apply seq_inv in H as (u & v & -> & Hu & Hv).
    apply Hr in Hu. apply IH in Hv. rewrite length_app. lia.
Qed.

Lemma lang_at_least_length (A : Type) (n : nat) (p : A -> bool) (l : list A) :
  lang (at_least n (Cls p)) l -> n <= length l.
Proof.
  unfold at_least. intro H.
  apply seq_inv in H as (u & v & -> & Hu & _).
  apply lang_times_length in Hu.
  - rewrite length_app. lia.
  - intros w Hw. inv Hw. simpl. lia.
Qed.

Lemma length_chars (s : string) : length (chars s) = String.length s.
Proof.
  unfold chars. induction s as [ | c s IH]; simpl; [reflexivity | now rewrite IH].
Qed.

(** A password that [validatePassword] accepts is a strong one. *)
Lemma validatePassword_strong (password : string) :
  AuthService.validatePassword password = true -> Spec.strong_password password.
Proof.
  unfold AuthService.validatePassword, test. rewrite matches_lang.
  unfold AuthService.passwordRegex. intro H.
  inv H. match goal with A : lang (And _ _) _ |- _ => inv A end.
  match goal with A : lang (And _ _) _ |- _ => inv A end.
  repeat match goal with
         | A : lang (lookahead _) _ |- _ => apply lang_lookahead_class in A
         | A : lang (at_least _ _) _ |- _ => apply lang_at_least_length in A
         end.
  unfold Spec.strong_password. rewrite <- length_chars. now repeat split.
Qed.

End PatternFacts.

(** ** Registration is validated before the backend is asked *)

(** C6. A registration with an empty required field, an address that is
    not a standard one, or a password that lacks 8 characters, an
    upper-case letter, a lower-case letter or a digit is refused with one
    of the validation messages; the page is left as it was but for the
    console message: no request is sent and no pending-registration marker
    is stored. *)
Theorem registerUser_refuses_invalid_input
  (backend : Backend) (userData : RegistrationData) (w : World) :
  Spec.invalid_registration userData ->
  exists msg,
    Spec.validation_message msg
    /\ AuthService.registerUser backend userData w
       = (Throw (Error msg), observe (ConsoleError "Registration error:") w).
Proof.
  intro Hinv.
  unfold AuthService.registerUser, try_catch.
  destruct (JsString.falsy (reg_email userData)
            || JsString.falsy (reg_password userData)
            || JsString.falsy (reg_firstName userData)
            || JsString.falsy (reg_lastName userData)) eqn:Hreq.
  { eexists. split; [left; reflexivity | reflexivity]. }
  destruct (AuthService.validateEmail
              (AuthService.stored_string (reg_email userData))) eqn:Hem; simpl.
  2: { eexists. split; [right; left; reflexivity | reflexivity]. }
  destruct (AuthService.validatePassword
              (AuthService.stored_string (reg_password userData))) eqn:Hpw; simpl.
  2: { eexists. split; [right; right; reflexivity | reflexivity]. }
  exfalso.
  repeat (apply orb_false_iff in Hreq; destruct Hreq as [Hreq ?]).
  destruct Hinv as [Hx | [Hx | [Hx | [Hx | [Hx | Hx]]]]]; try congruence.
  - apply Hx. now apply PatternFacts.validateEmail_spec.
  - apply Hx. now apply PatternFacts.validatePassword_strong.
Qed.

Lemma registerUser_refuses_scenario_B :
  exists msg,
    Spec.validation_message msg
    /\ AuthService.registerUser AuthService.mockApiCall Page.scenario_B
         (Page.anonymous 1700000000000)
       = (Throw (Error msg),
          observe (ConsoleError "Registration error:")
            (Page.anonymous 1700000000000)).
Proof.
  apply (@registerUser_refuses_invalid_input AuthService.mockApiCall
           Page.scenario_B (Page.anonymous 1700000000000)).
  right. right. right. right. left. intro H.
  apply PatternFacts.validateEmail_spec in H. vm_compute in H. discriminate H.
Defined.

(** ** Rounding to a double

    What the comparisons of the session need of the rounding: a number
    of at most 53 bits that bounds a rational bounds its double on the
    same side. *)

Module DoubleFacts.

Import Double.

Local Open Scope Z_scope.

Lemma pow2_pos (k : Z) : 0 < 2 ^ k \/ (k < 0 /\ 2 ^ k = 0).
Proof.
  destruct (Z.lt_ge_cases k 0) as [H | H].
  - right. split; [exact H | now apply Z.pow_neg_r].
  - left. now apply Z.pow_pos_nonneg.
Qed.

Lemma pow2_gt0 (k : Z) : 0 <= k -> 0 < 2 ^ k.
Proof. intro H. now apply Z.pow_pos_nonneg. Qed.

(** The logarithm is a lower bound of the quotient. *)
Lemma ilog2_le (a d : Z) :
  0 < a -> 0 < d ->
  (0 <= ilog2 a d -> d * 2 ^ ilog2 a d <= a)
  /\ (ilog2 a d < 0 -> d <= a * 2 ^ (- ilog2 a d)).
Proof.
  intros Ha Hd. unfold ilog2.
  pose proof (Z.log2_spec a Ha) as [La Ua].
  pose proof (Z.log2_spec d Hd) as [Ld Ud].
  pose proof (Z.log2_nonneg a) as Na. pose proof (Z.log2_nonneg d) as Nd.
  set (la := Z.log2 a) in *. set (ld := Z.log2 d) in *.
  rewrite <- Z.add_1_r in Ua, Ud.
  rewrite Z.pow_add_r in Ua, Ud by lia. change (2 ^ 1) with 2 in Ua, Ud.
  destruct (0 <=? la - ld) eqn:Ek.
  - apply Z.leb_le in Ek.
    destruct (d * 2 ^ (la - ld) <=? a) eqn:Et.
    + apply Z.leb_le in Et. split; intro; [exact Et | lia].
    + split; intro Hk.
      * (* d * 2^(k0-1) <= a *)
        assert (E : 2 ^ la = 2 ^ ld * 2 ^ (la - ld - 1) * 2).
        { rewrite <- Z.pow_add_r by lia.
          replace (2 ^ (ld + (la - ld - 1)) * 2)
            with (2 ^ (ld + (la - ld - 1)) * 2 ^ 1) by reflexivity.
          rewrite <- Z.pow_add_r by lia. f_equal. lia. }
        pose proof (@pow2_gt0 (la - ld - 1) Hk) as P. nia.
      * (* k0 = 0 *)
        assert (la - ld = 0) by lia.
        replace (- (la - ld - 1)) with 1 by lia. change (2 ^ 1) with 2.
        replace la with ld in * by lia. lia.
  - apply Z.leb_gt in Ek.
    destruct (d <=? a * 2 ^ (- (la - ld))) eqn:Et.
    + apply Z.leb_le in Et. split; intro; [lia | exact Et].
    + split; intro Hk; [lia | ].
      replace (- (la - ld - 1)) with (ld - la + 1) by lia.
      rewrite Z.pow_add_r by lia. change (2 ^ 1) with 2.
      assert (E : 2 ^ ld = 2 ^ la * 2 ^ (ld - la)).
      { rewrite <- Z.pow_add_r by lia. f_equal. lia. }
      pose proof (@pow2_gt0 (ld - la)) as P. nia.
Qed.

Lemma denominator_pos (d e : Z) : 0 < d -> 0 < denominator d e.
Proof.
  intro Hd. unfold denominator. destruct (0 <=? e) eqn:E; [ | exact Hd].
  apply Z.leb_le in E. pose proof (@pow2_gt0 e E). nia.
Qed.

(** Above the subnormal numbers the mantissa has its leading bit. *)
Lemma last_place_normal (a d : Z) :
  0 < a -> 0 < d ->
  -1074 <= last_place a d
  /\ (last_place a d = -1074
      \/ 2 ^ 52 * denominator d (last_place a d)
         <= numerator a (last_place a d)).
Proof.
  intros Ha Hd. unfold last_place.
  destruct (@ilog2_le a d Ha Hd) as [Hp Hn].
  set (k := ilog2 a d) in *.
  split; [lia | ].
  destruct (Z.max_spec (k - 52) (-1074)) as [[Hlt ->] | [Hge ->]];
    [now left | right].
  unfold numerator, denominator.
  destruct (0 <=? k - 52) eqn:E.
  - apply Z.leb_le in E. specialize (Hp ltac:(lia)).
    replace k with (52 + (k - 52)) in Hp by lia.
    rewrite Z.pow_add_r in Hp by lia. nia.
  - apply Z.leb_gt in E.
    destruct (Z.lt_ge_cases k 0) as [K | K].
    + specialize (Hn K).
      replace (- (k - 52)) with (- k + 52) by lia.
      rewrite Z.pow_add_r by lia.
      pose proof (@pow2_gt0 52 ltac:(lia)). nia.
    + specialize (Hp K).
      assert (E2 : 2 ^ 52 = 2 ^ k * 2 ^ (- (k - 52))).
      { rewrite <- Z.pow_add_r by lia. f_equal. lia. }
      pose proof (@pow2_gt0 (- (k - 52)) ltac:(lia)). nia.
Qed.

Lemma nearest_even_le (n d j : Z) :
  0 < d -> n <= j * d -> nearest_even n d <= j.
Proof.
  intros Hd H. unfold nearest_even.
  pose proof (Z.div_mod n d ltac:(lia)) as E.
  pose proof (Z.mod_pos_bound n d Hd) as B.
  set (q := n / d) in *. set (r := n mod d) in *.
  assert (r = 0 \/ 0 < r) as [R | R] by lia.
  - rewrite R. simpl. destruct (0 <? d) eqn:T; [nia | ].
    apply Z.ltb_ge in T. lia.
  - assert (q + 1 <= j) by nia.
    destruct (2 * r <? d); [lia | ].
    destruct (d <? 2 * r); [lia | ]. destruct (Z.even q); lia.
Qed.

Lemma nearest_even_ge (n d j : Z) :
  0 < d -> j * d <= n -> j <= nearest_even n d.
Proof.
  intros Hd H. unfold nearest_even.
  pose proof (Z.div_mod n d ltac:(lia)) as E.
  pose proof (Z.mod_pos_bound n d Hd) as B.
  set (q := n / d) in *. set (r := n mod d) in *.
  assert (j <= q) by nia.
  destruct (2 * r <? d); [lia | ].
  destruct (d <? 2 * r); [lia | ]. destruct (Z.even q); lia.
Qed.


Lemma round_pos_eq (a d : Z) :
  round_pos a d
  = let e := last_place a d in
    let m := nearest_even (numerator a e) (denominator d e) in
    if (0 <=? e) && (2 ^ 1024 <=? m * 2 ^ e) then PosInf else Fin (scaled m e).
Proof.
  unfold round_pos, numerator, denominator.
  destruct (0 <=? last_place a d); reflexivity.
Qed.

Lemma dyadic_den (p : Z) : 0 <= p -> Zpos (Z.to_pos (2 ^ p)) = 2 ^ p.
Proof. intro H. apply Z2Pos.id. now apply pow2_gt0. Qed.

Lemma scaled_le_dyadic (m e j p : Z) :
  0 <= p ->
  (0 <= e -> m * 2 ^ e * 2 ^ p <= j) ->
  (e < 0 -> m * 2 ^ p <= j * 2 ^ (- e)) ->
  (scaled m e <= dyadic j p)%Q.
Proof.
  intros Hp H1 H2. unfold scaled, dyadic, Qle.
  destruct (0 <=? e) eqn:E; simpl Qnum; simpl Qden.
  - apply Z.leb_le in E. rewrite dyadic_den by exact Hp.
    specialize (H1 E). lia.
  - apply Z.leb_gt in E. rewrite !dyadic_den by lia. now apply H2.
Qed.

Lemma dyadic_le_scaled (m e j p : Z) :
  0 <= p ->
  (0 <= e -> j <= m * 2 ^ e * 2 ^ p) ->
  (e < 0 -> j * 2 ^ (- e) <= m * 2 ^ p) ->
  (dyadic j p <= scaled m e)%Q.
Proof.
  intros Hp H1 H2. unfold scaled, dyadic, Qle.
  destruct (0 <=? e) eqn:E; simpl Qnum; simpl Qden.
  - apply Z.leb_le in E. rewrite dyadic_den by exact Hp.
    specialize (H1 E). lia.
  - apply Z.leb_gt in E. rewrite !dyadic_den by lia. now apply H2.
Qed.

Lemma pow2_split (p f : Z) : 0 <= f -> f <= p -> 2 ^ p = 2 ^ f * 2 ^ (p - f).
Proof. intros. rewrite <- Z.pow_add_r by lia. f_equal. lia. Qed.

Lemma pow2_ge2 (k : Z) : 1 <= k -> 2 <= 2 ^ k.
Proof.
  intro H. replace k with (1 + (k - 1)) by lia.
  rewrite Z.pow_add_r by lia. change (2 ^ 1) with 2.
  pose proof (@pow2_gt0 (k - 1) ltac:(lia)). lia.
Qed.

(** An integer [J] between the scaled quotient and a dyadic bound shows
    that rounding does not pass the bound. *)
Lemma witness_below (a d j p : Z) :
  0 < a -> 0 < d -> 0 <= j <= 2 ^ 53 -> 0 <= p <= 1074 ->
  a * 2 ^ p <= j * d ->
  let e := last_place a d in
  exists J,
    numerator a e <= J * denominator d e
    /\ (0 <= e -> J * 2 ^ e * 2 ^ p <= j)
    /\ (e < 0 -> J * 2 ^ p <= j * 2 ^ (- e)).
Proof.
  intros Ha Hd Hj Hp H e.
  destruct (last_place_normal Ha Hd) as [Hmin Hnorm]. fold e in Hmin, Hnorm.
  pose proof (@pow2_gt0 p ltac:(lia)) as Pp.
  unfold numerator, denominator in *.
  destruct (0 <=? e) eqn:E.
  - apply Z.leb_le in E. pose proof (@pow2_gt0 e E) as Pe.
    destruct Hnorm as [Hs | Hn]; [lia | ].
    assert (p + e = 0 \/ 1 <= p + e) as [Z0 | Z1] by lia.
    + assert (p = 0) by lia. assert (e = 0) by lia.
      exists j. replace e with 0 in * by lia. subst p.
      change (2 ^ 0) with 1 in *. repeat split; intros; lia.
    + exists (2 ^ 52).
      assert (T : 2 <= 2 ^ e * 2 ^ p).
      { rewrite <- Z.pow_add_r by lia. apply pow2_ge2. lia. }
      change (2 ^ 53) with (2 * 2 ^ 52) in Hj.
      pose proof (@pow2_gt0 52 ltac:(lia)) as P52.
      repeat split; intros; try lia.
      * (* a <= 2^52 * (d * 2^e) *)
        assert (a * (2 ^ e * 2 ^ p) <= 2 ^ 52 * (d * 2 ^ e) * (2 ^ e * 2 ^ p)).
        { assert (a * 2 ^ p <= 2 * 2 ^ 52 * d) by nia.
          assert (a * 2 ^ p * 2 ^ e <= 2 * 2 ^ 52 * d * 2 ^ e) by nia.
          nia. }
        nia.
      * assert (2 ^ 52 * (d * 2 ^ e) * 2 ^ p <= j * d) by nia. nia.
  - apply Z.leb_gt in E. set (f := - e) in *.
    assert (Hf : 0 < f <= 1074) by lia.
    pose proof (@pow2_gt0 f ltac:(lia)) as Pf.
    destruct (Z.le_gt_cases p f) as [Hpf | Hpf].
    + exists (j * 2 ^ (f - p)).
      pose proof (@pow2_gt0 (f - p) ltac:(lia)) as Pq.
      rewrite (@pow2_split f p) by lia.
      repeat split; intros; try lia; nia.
    + destruct Hnorm as [Hs | Hn]; [lia | ].
      exists (2 ^ 52).
      pose proof (@pow2_ge2 (p - f) ltac:(lia)) as Pq.
      rewrite (@pow2_split p f) in * by lia.
      change (2 ^ 53) with (2 * 2 ^ 52) in Hj.
      pose proof (@pow2_gt0 52 ltac:(lia)) as P52.
      repeat split; intros; try lia.
      * assert (a * 2 ^ f * 2 <= 2 * 2 ^ 52 * d) by nia. lia.
      * assert (2 ^ 52 * d * 2 ^ (p - f) <= j * d) by nia.
        assert (2 ^ 52 * 2 ^ (p - f) <= j) by nia. nia.
Qed.

Lemma witness_above (a d j p : Z) :
  0 < a -> 0 < d -> 0 <= j <= 2 ^ 53 -> 0 <= p <= 1074 ->
  j * d <= a * 2 ^ p ->
  let e := last_place a d in
  exists J,
    J * denominator d e <= numerator a e
    /\ (0 <= e -> j <= J * 2 ^ e * 2 ^ p)
    /\ (e < 0 -> j * 2 ^ (- e) <= J * 2 ^ p).
Proof.
  intros Ha Hd Hj Hp H e.
  destruct (last_place_normal Ha Hd) as [Hmin Hnorm]. fold e in Hmin, Hnorm.
  pose proof (@pow2_gt0 p ltac:(lia)) as Pp.
  unfold numerator, denominator in *.
  destruct (0 <=? e) eqn:E.
  - apply Z.leb_le in E. pose proof (@pow2_gt0 e E) as Pe.
    destruct Hnorm as [Hs | Hn]; [lia | ].
    assert (p + e = 0 \/ 1 <= p + e) as [Z0 | Z1] by lia.
    + assert (p = 0) by lia. assert (e = 0) by lia.
      exists j. replace e with 0 in * by lia. subst p.
      change (2 ^ 0) with 1 in *. repeat split; intros; lia.
    + exists (2 ^ 52).
      assert (T : 2 <= 2 ^ e * 2 ^ p).
      { rewrite <- Z.pow_add_r by lia. apply pow2_ge2. lia. }
      change (2 ^ 53) with (2 * 2 ^ 52) in Hj.
      pose proof (@pow2_gt0 52 ltac:(lia)) as P52.
      repeat split; intros; try lia; nia.
  - apply Z.leb_gt in E. set (f := - e) in *.
    assert (Hf : 0 < f <= 1074) by lia.
    pose proof (@pow2_gt0 f ltac:(lia)) as Pf.
    destruct (Z.le_gt_cases p f) as [Hpf | Hpf].
    + exists (j * 2 ^ (f - p)).
      pose proof (@pow2_gt0 (f - p) ltac:(lia)) as Pq.
      rewrite (@pow2_split f p) by lia.
      repeat split; intros; try lia; nia.
    + destruct Hnorm as [Hs | Hn]; [lia | ].
      exists (2 ^ 52).
      pose proof (@pow2_ge2 (p - f) ltac:(lia)) as Pq.
      rewrite (@pow2_split p f) in * by lia.
      change (2 ^ 53) with (2 * 2 ^ 52) in Hj.
      pose proof (@pow2_gt0 52 ltac:(lia)) as P52.
      repeat split; intros; try lia; nia.
Qed.


Lemma scaled_nonneg (m e : Z) : 0 <= m -> (0 <= scaled m e)%Q.
Proof.
  intro H. unfold scaled, Qle. destruct (0 <=? e) eqn:E; simpl.
  - apply Z.leb_le in E. pose proof (@pow2_gt0 e E). nia.
  - lia.
Qed.

Lemma scaled_mono (m J e : Z) : m <= J -> (scaled m e <= scaled J e)%Q.
Proof.
  intro H. unfold scaled, Qle. destruct (0 <=? e) eqn:E; simpl.
  - apply Z.leb_le in E. pose proof (@pow2_gt0 e E). nia.
  - nia.
Qed.

Lemma round_pos_below (a d j p : Z) :
  0 < a -> 0 < d -> 0 <= j <= 2 ^ 53 -> 0 <= p <= 1074 ->
  a * 2 ^ p <= j * d ->
  exists v, round_pos a d = Fin v /\ (0 <= v)%Q /\ (v <= dyadic j p)%Q.
Proof.
  intros Ha Hd Hj Hp H.
  destruct (witness_below Ha Hd Hj Hp H) as (J & HJ & H1 & H2).
  rewrite round_pos_eq. cbv zeta.
  set (e := last_place a d) in *.
  pose proof (denominator_pos e Hd) as HD.
  set (m := nearest_even (numerator a e) (denominator d e)).
  assert (Hm : m <= J) by (now apply nearest_even_le).
  assert (Hm0 : 0 <= m).
  { apply nearest_even_ge; [exact HD | ].
    unfold numerator. destruct (0 <=? e) eqn:E; [lia | ].
    apply Z.leb_gt in E. pose proof (@pow2_gt0 (- e) ltac:(lia)). nia. }
  pose proof (@pow2_gt0 p ltac:(lia)) as Pp.
  assert (Hfin : (0 <=? e) && (2 ^ 1024 <=? m * 2 ^ e) = false).
  { destruct (0 <=? e) eqn:E; [ | reflexivity]. simpl.
    apply Z.leb_gt. apply Z.leb_le in E. specialize (H1 E).
    pose proof (@pow2_gt0 e E) as Pe.
    assert (m * 2 ^ e <= J * 2 ^ e) by nia.
    assert (J * 2 ^ e <= j) by nia.
    assert (2 ^ 53 < 2 ^ 1024) by (apply Z.pow_lt_mono_r; lia). lia. }
  rewrite Hfin. exists (scaled m e). split; [reflexivity | ].
  split; [now apply scaled_nonneg | ].
  apply Qle_trans with (scaled J e); [now apply scaled_mono | ].
  apply scaled_le_dyadic; [lia | exact H1 | exact H2].
Qed.

Lemma round_pos_above (a d j p : Z) :
  0 < a -> 0 < d -> 0 <= j <= 2 ^ 53 -> 0 <= p <= 1074 ->
  j * d <= a * 2 ^ p ->
  round_pos a d = PosInf
  \/ exists v, round_pos a d = Fin v /\ (dyadic j p <= v)%Q.
Proof.
  intros Ha Hd Hj Hp H.
  destruct (witness_above Ha Hd Hj Hp H) as (J & HJ & H1 & H2).
  rewrite round_pos_eq. cbv zeta.
  set (e := last_place a d) in *.
  pose proof (denominator_pos e Hd) as HD.
  set (m := nearest_even (numerator a e) (denominator d e)).
  assert (Hm : J <= m) by (now apply nearest_even_ge).
  destruct ((0 <=? e) && (2 ^ 1024 <=? m * 2 ^ e)); [now left | right].
  exists (scaled m e). split; [reflexivity | ].
  apply Qle_trans with (scaled J e); [ | now apply scaled_mono].
  apply dyadic_le_scaled; [lia | exact H1 | exact H2].
Qed.

Local Close Scope Z_scope.

(** Rounding keeps a number of at most 53 bits on its side. *)
Lemma round_below (x : Q) (j p : Z) :
  (0 <= j <= 2 ^ 53)%Z -> (0 <= p <= 1074)%Z ->
  (0 <= x)%Q -> (x <= dyadic j p)%Q ->
  exists v, round x = Fin v /\ (0 <= v)%Q /\ (v <= dyadic j p)%Q.
Proof.
  intros Hj Hp H0 H. destruct x as [n dd]. unfold round. simpl Qnum.
  simpl Qden. unfold Qle in H0, H. simpl in H0.
  unfold dyadic in H. simpl Qnum in H. simpl Qden in H.
  rewrite dyadic_den in H by lia.
  destruct n as [ | a | a].
  - exists 0%Q. split; [reflexivity | ]. split; [apply Qle_refl | ].
    unfold dyadic, Qle. simpl. lia.
  - apply round_pos_below; try lia.
  - lia.
Qed.

Lemma round_above (x : Q) (j p : Z) :
  (0 <= j <= 2 ^ 53)%Z -> (0 <= p <= 1074)%Z ->
  (dyadic j p <= x)%Q ->
  round x = PosInf \/ exists v, round x = Fin v /\ (dyadic j p <= v)%Q.
Proof.
  intros Hj Hp H. destruct x as [n dd]. unfold round. simpl Qnum.
  simpl Qden. unfold Qle in H.
  unfold dyadic in H. simpl Qnum in H. simpl Qden in H.
  rewrite dyadic_den in H by lia.
  pose proof (@pow2_gt0 p ltac:(lia)) as Pp.
  destruct n as [ | a | a].
  - right. exists 0%Q. split; [reflexivity | ].
    unfold dyadic, Qle. simpl. nia.
  - apply round_pos_above; try lia.
  - nia.
Qed.

(** In particular a number of at most 53 bits is its own double. *)
Lemma round_dyadic (j p : Z) :
  (0 <= j <= 2 ^ 53)%Z -> (0 <= p <= 1074)%Z ->
  exists v, round (dyadic j p) = Fin v /\ (v == dyadic j p)%Q.
Proof.
  intros Hj Hp.
  assert (H0 : (0 <= dyadic j p)%Q) by (unfold dyadic, Qle; simpl; lia).
  destruct (@round_below (dyadic j p) j p Hj Hp H0 (Qle_refl _))
    as (v & Hv & _ & Hle).
  destruct (@round_above (dyadic j p) j p Hj Hp (Qle_refl _))
    as [Hinf | (v' & Hv' & Hge)]; [congruence | ].
  exists v. split; [exact Hv | ].
  assert (v' = v) by congruence. subst v'. now apply Qle_antisym.
Qed.

End DoubleFacts.

(** ** [isAuthenticated] *)

Module AuthFacts.

Import TokenStore.

Lemma Qlt_bool_iff (x y : Q) : Double.Qlt_bool x y = true <-> (x < y)%Q.
Proof.
  unfold Double.Qlt_bool. rewrite negb_true_iff. split.
  - intro H. apply Qnot_le_lt. intro Hle.
    apply Qle_bool_iff in Hle. congruence.
  - intro H. destruct (Qle_bool y x) eqn:E; [ | reflexivity].
    apply Qle_bool_iff in E. exfalso. now apply (Qlt_not_le x y).
Qed.

Lemma gt_exceeds (x t : jsnum) : JsNumber.gt x t = true <-> exceeds x t.
Proof.
  unfold JsNumber.gt.
  destruct x as [ | q | | ], t as [ | s | | ]; simpl;
    try (split; [discriminate | tauto]); try tauto.
  apply Qlt_bool_iff.
Qed.

Lemma decodeExpiry_empty : decodeExpiry "" = Throw TypeError.
Proof. reflexivity. Qed.

Lemma isAuthenticated_run (w : World) :
  AuthService.isAuthenticated w
  = (Ok (verdict (auth_token (localStorage w)) (now w)),
     observe (LocalGet AuthService.TOKEN_KEY) w).
Proof.
  unfold AuthService.isAuthenticated, bind, AuthService.getToken, verdict.
  destruct (auth_token (localStorage w)) as [tok | ]; [ | reflexivity].
  destruct (String.eqb tok "") eqn:E.
  - apply String.eqb_eq in E. subst tok. reflexivity.
  - unfold try_catch, bind, lift, read, decodeExpiry, AuthService.not_expired.
    destruct (AuthService.parseJwt tok) as [payload | e]; simpl; [ | reflexivity].
    destruct (JsNumber.member_exp payload) as [exp | e]; simpl; [ | reflexivity].
    destruct (JsNumber.to_number exp) as [n | e]; reflexivity.
Qed.

(** The last member of a name is the one that is read. *)
Lemma lookup_last_none (k : list N) (ms : list (list N * json)) :
  Forall (fun member => fst member <> k) ms -> JsNumber.lookup_last k ms = None.
Proof.
  induction 1 as [ | [k' v] ms Hk _ IH]; simpl; [reflexivity | ].
  rewrite IH. unfold JsNumber.list_eqb.
  destruct (list_eq_dec N.eq_dec k k') as [E | E]; [ | reflexivity].
  simpl in Hk. congruence.
Qed.

Lemma lookup_last_app (k : list N) (v : json)
  (before after : list (list N * json)) :
  Forall (fun member => fst member <> k) after ->
  JsNumber.lookup_last k (before ++ (k, v) :: after) = Some v.
Proof.
  intro H. induction before as [ | [k' v'] before IH]; simpl.
  - rewrite (lookup_last_none H). unfold JsNumber.list_eqb.
    destruct (list_eq_dec N.eq_dec k k); [reflexivity | congruence].
  - now rewrite IH.
Qed.

(** A whole number of at most 53 bits is read as itself. *)
Lemma to_number_whole (q : Q) (n : Z) :
  (q == inject_Z n)%Q -> (0 <= n <= 2 ^ 53)%Z ->
  exists v, JsNumber.to_number (Some (JNum q)) = Ok (Fin v)
            /\ (v == inject_Z n)%Q.
Proof.
  intros Hq Hn. unfold JsNumber.to_number. simpl.
  assert (Hd : (Double.dyadic n 0 == q)%Q) by (now rewrite Hq).
  assert (H0 : (0 <= q)%Q).
  { rewrite Hq. unfold Qle. simpl. lia. }
  destruct (@DoubleFacts.round_below q n 0 Hn ltac:(lia) H0)
    as (v & Hv & _ & Hle); [rewrite <- Hd; apply Qle_refl | ].
  destruct (@DoubleFacts.round_above q n 0 Hn ltac:(lia))
    as [Hinf | (v' & Hv' & Hge)];
    [rewrite Hd; apply Qle_refl | congruence | ].
  exists v. split; [now rewrite Hv | ].
  assert (v' = v) by congruence. subst v'.
  rewrite <- Hq, <- Hd. now apply Qle_antisym.
Qed.

(** The clock in seconds is a finite double on the same side of every
    number of at most 53 bits as the exact quotient. *)
Lemma seconds_bounds (ms : Z) :
  (0 <= ms <= 2 ^ 53)%Z ->
  exists c,
    AuthService.seconds ms = Fin c
    /\ (0 <= c)%Q
    /\ forall j p,
         (0 <= j <= 2 ^ 53)%Z -> (0 <= p <= 1074)%Z ->
         ((ms # 1000 <= Double.dyadic j p)%Q -> (c <= Double.dyadic j p)%Q)
         /\ ((Double.dyadic j p <= ms # 1000)%Q -> (Double.dyadic j p <= c)%Q).
Proof.
  intro Hms. unfold AuthService.seconds.
  destruct (@DoubleFacts.round_dyadic ms 0 Hms ltac:(lia)) as (v & Hv & Ev).
  change (Double.dyadic ms 0) with (inject_Z ms) in Hv, Ev.
  rewrite Hv. unfold Double.div.
  assert (Ex : (v / inject_Z 1000 == ms # 1000)%Q).
  { rewrite Ev. symmetry. apply Qmake_Qdiv. }
  set (x := (v / inject_Z 1000)%Q) in *.
  assert (H0 : (0 <= x)%Q).
  { rewrite Ex. unfold Qle. simpl. lia. }
  assert (Hup : (x <= Double.dyadic ms 0)%Q).
  { rewrite Ex. unfold Double.dyadic, Qle. simpl. lia. }
  destruct (@DoubleFacts.round_below x ms 0 Hms ltac:(lia) H0 Hup)
    as (c & Hc & Hc0 & _).
  exists c. split; [exact Hc | ]. split; [exact Hc0 | ].
  intros j p Hj Hp. split; intro H.
  - destruct (@DoubleFacts.round_below x j p Hj Hp H0) as (c' & Hc' & _ & Hle);
      [now rewrite Ex | ].
    assert (c' = c) by congruence. now subst c'.
  - destruct (@DoubleFacts.round_above x j p Hj Hp) as [Hinf | (c' & Hc' & Hge)];
      [now rewrite Ex | congruence | ].
    assert (c' = c) by congruence. now subst c'.
Qed.

(** For an expiry in whole seconds the doubles decide as the exact
    numbers do. *)
Lemma whole_seconds_verdict (tok : string) (payload : json) (expiry ms : Z) :
  AuthService.parseJwt tok = Ok payload ->
  whole_seconds payload expiry ->
  (0 <= expiry < 2 ^ 43)%Z ->
  (0 <= ms < 2 ^ 53)%Z ->
  verdict (Some tok) ms = true <-> (ms < 1000 * expiry)%Z.
Proof.
  intros Hp (before & q & after & -> & Hq & Hlast) He Hms.
  assert (B43 : (2 ^ 53 = 1024 * 2 ^ 43)%Z) by reflexivity.
  destruct (@to_number_whole q expiry Hq ltac:(lia)) as (v & Hv & Ev).
  destruct (@seconds_bounds ms ltac:(lia)) as (c & Hc & Hc0 & Hb).
  unfold verdict, decodeExpiry. rewrite Hp.
  cbn [result_bind JsNumber.member_exp].
  rewrite (lookup_last_app _ _ Hlast). cbn [result_bind]. rewrite Hv, Hc.
  unfold JsNumber.gt, Double.lt. rewrite Qlt_bool_iff, Ev.
  split.
  - intro Hlt. apply Z.lt_nge. intro Hge.
    destruct (Hb expiry 0%Z ltac:(lia) ltac:(lia)) as [_ Habove].
    change (Double.dyadic expiry 0) with (inject_Z expiry) in Habove.
    assert (Hle : (inject_Z expiry <= c)%Q).
    { apply Habove. unfold Qle. simpl. lia. }
    apply (Qlt_not_le _ _ Hlt Hle).
  - intro Hlt.
    destruct (Hb (1024 * expiry - 1)%Z 10%Z ltac:(lia) ltac:(lia))
      as [Hbelow _].
    apply Qle_lt_trans with (Double.dyadic (1024 * expiry - 1) 10).
    + apply Hbelow. unfold Double.dyadic, Qle. cbn [Qnum Qden].
      change (Z.to_pos (2 ^ 10)) with 1024%positive. lia.
    + unfold Double.dyadic, Qlt, inject_Z. cbn [Qnum Qden].
      change (Z.to_pos (2 ^ 10)) with 1024%positive. lia.
Qed.

End AuthFacts.



(** C10, as the code has it. [isAuthenticated] always answers and never
    throws; when the stored token fails to decode, because it has fewer
    than two segments, or its second segment is not base64, not UTF-8 or
    not JSON, or its payload is [null], the answer is false. *)
Theorem isAuthenticated_never_throws (w : World) :
  (exists b, fst (AuthService.isAuthenticated w) = Ok b)
  /\ (forall tok e,
        auth_token (localStorage w) = Some tok ->
        TokenStore.decodeExpiry tok = Throw e ->
        fst (AuthService.isAuthenticated w) = Ok false)
  /\ (forall tok e,
        auth_token (localStorage w) = Some tok ->
        AuthService.parseJwt tok = Throw e ->
        fst (AuthService.isAuthenticated w) = Ok false)
  /\ (forall tok,
        auth_token (localStorage w) = Some tok ->
        length (TokenStore.segments tok) < 2 ->
        fst (AuthService.isAuthenticated w) = Ok false).
Proof.
  rewrite AuthFacts.isAuthenticated_run. simpl.
  split; [eexists; reflexivity | ].
  assert (Hdec : forall tok e,
             auth_token (localStorage w) = Some tok ->
             TokenStore.decodeExpiry tok = Throw e ->
             Ok (TokenStore.verdict (auth_token (localStorage w)) (now w))
             = Ok false).
  { intros tok e Htok He. unfold TokenStore.verdict. now rewrite Htok, He. }
  assert (Hparse : forall tok e,
             auth_token (localStorage w) = Some tok ->
             AuthService.parseJwt tok = Throw e ->
             Ok (TokenStore.verdict (auth_token (localStorage w)) (now w))
             = Ok false).
  { intros tok e Htok He. apply (Hdec tok e Htok).
    unfold TokenStore.decodeExpiry. now rewrite He. }
  repeat split; try assumption.
  intros tok Htok Hlen. apply (Hparse tok TypeError Htok).
  unfold AuthService.parseJwt, TokenStore.segments in *.
  destruct (nth_error (JsString.split "." tok) 1) eqn:E; [ | reflexivity].
  exfalso. assert (nth_error (JsString.split "." tok) 1 <> None) as Hn
    by congruence.
  apply nth_error_Some in Hn. lia.
Qed.

(** C10, as it is stated, fails: a token of two segments is not a
    three-segment token, and it is accepted all the same because only
    the second segment is read. *)
Lemma two_segment_token_is_accepted :
  length (TokenStore.segments TokenStore.two_segments) = 2
  /\ fst (AuthService.isAuthenticated
            (TokenStore.holding TokenStore.two_segments 1700000000000))
     = Ok true.
Proof. vm_compute. split; reflexivity. Qed.

(** ** Steps of a computation *)

Module MonadFacts.

Lemma bind_ok {A B} (m : M A) (k : A -> M B) (w w' : World) (b : B) :
  bind m k w = (Ok b, w') ->
  exists a w1, m w = (Ok a, w1) /\ k a w1 = (Ok b, w').
Proof.
  unfold bind. destruct (m w) as [[a | e] w1]; [ | discriminate].
  intro H. now exists a, w1.
Qed.

(** A handler that reports and throws again lets only the results of the
    body through. *)
Lemma try_rethrow_ok {A} (m : M A) (label : string) (w w' : World) (a : A) :
  try_catch m (fun error => bind (console_error label) (fun _ => throw error)) w
  = (Ok a, w') ->
  m w = (Ok a, w').
Proof.
  unfold try_catch. destruct (m w) as [[x | e] w1]; [tauto | discriminate].
Qed.

Lemma lift_ok {A} (r : result A) (w w' : World) (a : A) :
  lift r w = (Ok a, w') -> r = Ok a /\ w' = w.
Proof. unfold lift. intro H. injection H as -> ->. now split. Qed.

(** Reading the token, asking the backend and reading the cache leave
    both stores as they are. *)
Lemma getToken_frame (w w' : World) (token : option string) :
  AuthService.getToken w = (Ok token, w') ->
  localStorage w' = localStorage w /\ sessionStorage w' = sessionStorage w.
Proof. unfold AuthService.getToken. intro H. injection H as _ <-. now split. Qed.

Lemma await_frame (backend : Backend) (q : request) (w w' : World)
  (resp : Response) :
  await backend q w = (Ok resp, w') ->
  localStorage w' = localStorage w /\ sessionStorage w' = sessionStorage w.
Proof.
  unfold await. destruct (backend q (now w)) as [[x | e] t0]; [ | discriminate].
  intro H. injection H as _ <-. now split.
Qed.

Lemma authenticatedRequest_frame (backend : Backend) (ep meth : string)
  (b : body) (w w' : World) (resp : Response) :
  UserService.authenticatedRequest backend ep meth b w = (Ok resp, w') ->
  localStorage w' = localStorage w /\ sessionStorage w' = sessionStorage w.
Proof.
  unfold UserService.authenticatedRequest. intro H.
  apply bind_ok in H as (token & w1 & Hget & H).
  apply getToken_frame in Hget as [E1 S1].
  destruct (JsString.falsy token); [discriminate | ].
  apply await_frame in H as [E2 S2]. split; congruence.
Qed.

(** Writing the cache resolves; the value is stored when the browser
    takes it, and nothing is stored when it does not. *)
Lemma cacheAddresses_ok (quota : AddressCache.Quota)
  (addrs : option address_array) (w w' : World) (u : unit) :
  AddressCache.cacheAddresses quota addrs w = (Ok u, w') ->
  sessionStorage w' = sessionStorage w
  /\ href w' = href w
  /\ now w' = now w
  /\ (quota (localStorage w) (AddressCache.stringify addrs) = true ->
      localStorage w'
      = AddressCache.set_user_addresses (Some (AddressCache.stringify addrs))
          (localStorage w)
      /\ log w' = LocalSet AddressCache.ADDRESSES_KEY :: log w)
  /\ (quota (localStorage w) (AddressCache.stringify addrs) = false ->
      localStorage w' = localStorage w
      /\ log w'
         = ConsoleError "Failed to cache addresses:"
             :: LocalSet AddressCache.ADDRESSES_KEY :: log w).
Proof.
  unfold AddressCache.cacheAddresses.
  destruct (quota (localStorage w) (AddressCache.stringify addrs));
    intro H; injection H as _ <-; repeat split; intros; try discriminate;
    reflexivity.
Qed.

Lemma getCachedAddresses_ok (w w' : World) (cached : option address_array) :
  AddressCache.getCachedAddresses w = (Ok cached, w') ->
  UserService.or_empty cached = Cache.cached_addresses w
  /\ localStorage w' = localStorage w /\ sessionStorage w' = sessionStorage w.
Proof.
  unfold AddressCache.getCachedAddresses, Cache.cached_addresses.
  destruct (user_addresses (localStorage w)) as [[l | ] | ];
    intro H; injection H as <- <-; now repeat split.
Qed.

End MonadFacts.

(** ** Refresh and logout *)

Module SessionFacts.

Lemma falsy_some (s : string) : s <> "" -> JsString.falsy (Some s) = false.
Proof.
  intro H. simpl. destruct (String.eqb s "") eqn:E; [ | reflexivity].
  apply String.eqb_eq in E. contradiction.
Qed.

Lemma falsy_cases (v : option string) :
  JsString.falsy v = true -> v = None \/ v = Some "".
Proof.
  destruct v as [s | ]; simpl; [ | now left].
  intro H. apply String.eqb_eq in H. subst. now right.
Qed.

(** After [clearAuthData] nothing of the session is stored. *)
Lemma clearAuthData_run (w : World) :
  exists w',
    AuthService.clearAuthData w = (Ok tt, w')
    /\ Page.signed_out w'
    /\ user_addresses (localStorage w') = user_addresses (localStorage w)
    /\ pending_registration (sessionStorage w') = None
    /\ href w' = href w /\ now w' = now w
    /\ Page.fetches w' = Page.fetches w
    /\ Page.dispatched w' = Page.dispatched w.
Proof.
  eexists. split; [reflexivity | ]. simpl.
  unfold Page.signed_out. simpl. now repeat split.
Qed.

End SessionFacts.

(** C5. When a refresh token is stored and the backend rejects it, by a
    rejection or by an unsuccessful response, [refreshToken] throws, and
    on the page it leaves no access token, refresh token or user record
    is stored, the pending-registration marker is gone, the location is
    the login page, and [isAuthenticated] answers false at every later
    time. *)
Theorem refreshToken_rejected_ends_session (backend : Backend) (w : World) :
  Scenario.refresh_rejected backend w ->
  exists e w',
    AuthService.refreshToken backend w = (Throw e, w')
    /\ Page.signed_out w'
    /\ pending_registration (sessionStorage w') = None
    /\ href w' = "/login.html"
    /\ forall t, fst (AuthService.isAuthenticated (set_now t w')) = Ok false.
Proof.
  intros (stored & Hst & Hne & Hrej).
  unfold AuthService.refreshToken, try_catch, bind, AuthService.getRefreshToken.
  rewrite Hst, (SessionFacts.falsy_some Hne).
  unfold await. simpl now. unfold Scenario.refresh_request in Hrej.
  simpl AuthService.stored_string.
  destruct (backend (AuthService.post "/auth/refresh-token" None
                       (RefreshBody stored)) (now w)) as [o t0].
  simpl in Hrej.
  destruct o as [resp | e].
  - rewrite Hrej. do 2 eexists. split; [reflexivity | ].
    unfold Page.signed_out. simpl. repeat split.
  - do 2 eexists. split; [reflexivity | ].
    unfold Page.signed_out. simpl. repeat split.
Qed.

Lemma refreshToken_refused_when_signed_in :
  exists e w',
    AuthService.refreshToken Scenario.refusing (Scenario.signed_in 1700000000000)
    = (Throw e, w')
    /\ Page.signed_out w'
    /\ pending_registration (sessionStorage w') = None
    /\ href w' = "/login.html"
    /\ forall t, fst (AuthService.isAuthenticated (set_now t w')) = Ok false.
Proof.
  apply (@refreshToken_rejected_ends_session Scenario.refusing
           (Scenario.signed_in 1700000000000)).
  exists "refresh_1". split; [reflexivity | ]. split; [discriminate | ].
  reflexivity.
Defined.

(** C9, as the code has it. With no access token, refresh token or user
    record stored, [logoutUser] resolves with success, sends nothing to
    the backend, and leaves the three session keys, the location and the
    clock as they were.  It still dispatches [userLoggedOut], whose
    listener removes the cached addresses, and it clears the
    pending-registration marker: of [localStorage] only the cached
    addresses change and of [sessionStorage] only the marker, so when
    neither is stored both stores are unchanged; and a further logout
    changes no store at all. *)
Theorem logoutUser_when_signed_out (backend : Backend) (w : World) :
  Page.signed_out w ->
  exists w',
    AuthService.logoutUser backend w
    = (Ok (reply true (Some "Logged out successfully")), w')
    /\ localStorage w' = AddressCache.set_user_addresses None (localStorage w)
    /\ (user_addresses (localStorage w) = None ->
        localStorage w' = localStorage w)
    /\ sessionStorage w' = {| pending_registration := None |}
    /\ (pending_registration (sessionStorage w) = None ->
        sessionStorage w' = sessionStorage w)
    /\ href w' = href w /\ now w' = now w
    /\ Page.fetches w' = Page.fetches w
    /\ Page.dispatched w' = userLoggedOut :: Page.dispatched w
    /\ Page.signed_out w'
    /\ exists w'',
         AuthService.logoutUser backend w'
         = (Ok (reply true (Some "Logged out successfully")), w'')
         /\ localStorage w'' = localStorage w'
         /\ sessionStorage w'' = sessionStorage w'
         /\ Page.fetches w'' = Page.fetches w'.
Proof.
  intros (Htok & Href & Husr).
  unfold AuthService.logoutUser, try_catch, bind, AuthService.getToken.
  rewrite Htok. simpl.
  eexists. split; [reflexivity | ].
  destruct w as [[tok rt usr addrs] [pend] loc clock obs].
  simpl in *. subst. unfold Page.signed_out, AddressCache.set_user_addresses.
  simpl.
  repeat split.
  - intros ->. reflexivity.
  - intros ->. reflexivity.
  - eexists. split; [reflexivity | ]. simpl. now repeat split.
Qed.

Lemma logoutUser_twice_when_anonymous :
  exists w',
    AuthService.logoutUser AuthService.mockApiCall (Page.anonymous 1700000000000)
    = (Ok (reply true (Some "Logged out successfully")), w')
    /\ localStorage w'
       = AddressCache.set_user_addresses None
           (localStorage (Page.anonymous 1700000000000))
    /\ (user_addresses (localStorage (Page.anonymous 1700000000000)) = None ->
        localStorage w' = localStorage (Page.anonymous 1700000000000))
    /\ sessionStorage w' = {| pending_registration := None |}
    /\ (pending_registration (sessionStorage (Page.anonymous 1700000000000))
        = None ->
        sessionStorage w' = sessionStorage (Page.anonymous 1700000000000))
    /\ href w' = href (Page.anonymous 1700000000000)
    /\ now w' = now (Page.anonymous 1700000000000)
    /\ Page.fetches w' = Page.fetches (Page.anonymous 1700000000000)
    /\ Page.dispatched w'
       = userLoggedOut :: Page.dispatched (Page.anonymous 1700000000000)
    /\ Page.signed_out w'
    /\ exists w'',
         AuthService.logoutUser AuthService.mockApiCall w'
         = (Ok (reply true (Some "Logged out successfully")), w'')
         /\ localStorage w'' = localStorage w'
         /\ sessionStorage w'' = sessionStorage w'
         /\ Page.fetches w'' = Page.fetches w'.
Proof.
  apply (@logoutUser_when_signed_out AuthService.mockApiCall
           (Page.anonymous 1700000000000)).
  unfold Page.signed_out. simpl. repeat split.
Defined.

(** C9, as it is stated, fails.  After a registration from the
    anonymous state no token and no user is stored and the registration
    awaits its verification; a logout then resolves with success and
    clears the marker of that registration.  And on a page whose session
    has lapsed while its addresses are still cached, a logout removes
    the cached addresses. *)
Lemma logoutUser_clears_pending_registration :
  Page.signed_out (Scenario.registered 1700000000000)
  /\ pending_registration (sessionStorage (Scenario.registered 1700000000000))
     = Some {| pending_email := "user@example.com";
               pending_userId := Some "user_1700000001000" |}
  /\ fst (AuthService.logoutUser AuthService.mockApiCall
            (Scenario.registered 1700000000000))
     = Ok (reply true (Some "Logged out successfully"))
  /\ pending_registration
       (sessionStorage
          (snd (AuthService.logoutUser AuthService.mockApiCall
                  (Scenario.registered 1700000000000))))
     = None
  /\ Page.signed_out (Scenario.lapsed 1700000000000)
  /\ user_addresses (localStorage (Scenario.lapsed 1700000000000))
     = Some (Json UserService.mock_addresses)
  /\ fst (AuthService.logoutUser AuthService.mockApiCall
            (Scenario.lapsed 1700000000000))
     = Ok (reply true (Some "Logged out successfully"))
  /\ user_addresses
       (localStorage
          (snd (AuthService.logoutUser AuthService.mockApiCall
                  (Scenario.lapsed 1700000000000))))
     = None.
Proof. unfold Page.signed_out. repeat split; vm_compute; reflexivity. Qed.

(** ** The tokens of [mockApiCall] are not JWTs *)

Module MockFacts.

Import JsString.

Lemma chars_append (a b : string) : chars (a ++ b)%string = chars a ++ chars b.
Proof.
  unfold chars. induction a as [ | c a IH]; simpl; [reflexivity | now rewrite IH].
Qed.

Lemma uint_no_dot (d : Decimal.uint) :
  Forall no_dot (chars (NilEmpty.string_of_uint d)).
Proof.
  unfold chars.
  induction d; simpl; constructor; try assumption; reflexivity.
Qed.

Lemma of_int_no_dot (n : Z) : Forall no_dot (chars (of_int n)).
Proof.
  unfold of_int, NilZero.string_of_int.
  assert (H : forall d, Forall no_dot (chars (NilZero.string_of_uint d))).
  { intro d. unfold NilZero.string_of_uint.
    destruct d; try apply uint_no_dot.
    unfold chars. simpl. constructor; [reflexivity | constructor]. }
  destruct (Z.to_int n) as [d | d].
  - apply H.
  - unfold chars in *. simpl. constructor; [reflexivity | apply H].
Qed.

Lemma split_chars_no_sep (cur l : list ascii) :
  Forall no_dot l -> split_chars "." cur l = [rev cur ++ l].
Proof.
  revert cur. induction l as [ | c l IH]; intros cur H; simpl.
  - now rewrite app_nil_r.
  - inversion H as [ | ? ? Hc Hl]; subst. unfold no_dot in Hc. rewrite Hc.
    rewrite IH by assumption. simpl. now rewrite <- app_assoc.
Qed.

(** A string without a point has one segment, so [parseJwt] fails on
    reading the second. *)
Lemma parseJwt_no_dot (s : string) :
  Forall no_dot (chars s) -> AuthService.parseJwt s = Throw TypeError.
Proof.
  intro H. unfold AuthService.parseJwt, split.
  now rewrite split_chars_no_sep.
Qed.

Lemma parseJwt_mock_token (prefix : string) (n : Z) :
  Forall no_dot (chars prefix) ->
  AuthService.parseJwt (prefix ++ of_int n)%string = Throw TypeError.
Proof.
  intro H. apply parseJwt_no_dot. rewrite chars_append.
  apply Forall_app. split; [assumption | apply of_int_no_dot].
Qed.

End MockFacts.

(** C2, on the backend the repository ships. A first login from the
    anonymous state resolves with success and stores the access token the
    mock backend issues; that token has no point in it, so its payload
    cannot be read and [isAuthenticated] answers false, at the time of the
    answer and at any other time. *)
Theorem mock_login_is_not_authenticated (t : Z) :
  let run :=
    AuthService.loginUser AuthService.mockApiCall
      "user@example.com" "SecurePass123" (Page.anonymous t) in
  (exists r, fst run = Ok r /\ reply_success r = true)
  /\ auth_token (localStorage (snd run))
     = Some ("mock_jwt_token_" ++ JsString.of_int (t + 1000))%string
  /\ now (snd run) = (t + 1000)%Z
  /\ fst (AuthService.isAuthenticated (snd run)) = Ok false
  /\ forall t', fst (AuthService.isAuthenticated (set_now t' (snd run))) = Ok false.
Proof.
  intro run.
  assert (Htok : auth_token (localStorage (snd run))
                 = Some ("mock_jwt_token_" ++ JsString.of_int (t + 1000))%string)
    by reflexivity.
  assert (Hfalse : forall w,
             auth_token (localStorage w) = auth_token (localStorage (snd run)) ->
             fst (AuthService.isAuthenticated w) = Ok false).
  { intros w Hw. rewrite AuthFacts.isAuthenticated_run. simpl.
    rewrite Hw, Htok. unfold TokenStore.verdict, TokenStore.decodeExpiry.
    rewrite MockFacts.parseJwt_mock_token; [reflexivity | ].
    unfold JsString.no_dot. repeat constructor. }
  split; [eexists; split; reflexivity | ].
  split; [exact Htok | ].
  split; [reflexivity | ].
  split; [now apply Hfalse | ].
  intro t'. now apply Hfalse.
Qed.

(** ** Verification of the one-time code *)

(** C7, on the code as it is. [verifyOtp] dispatches no event, whatever
    the backend answers; and a code of six characters that are not digits
    passes its check, is sent to the backend, and is verified by the mock
    backend, which stores the tokens and the user and clears the marker. *)
Theorem verifyOtp_checks_length_and_dispatches_nothing :
  (forall (backend : Backend) (userId otp : string) (w : World),
      Page.dispatched (snd (AuthService.verifyOtp backend userId otp w))
      = Page.dispatched w)
  /\ (forall t : Z,
        let run :=
          AuthService.verifyOtp AuthService.mockApiCall "user_1" "abcdef"
            (Scenario.awaiting_verification t) in
        (exists r, fst run = Ok r /\ reply_success r = true)
        /\ Page.fetches (snd run)
           = [AuthService.post "/auth/verify-otp" None (OtpBody "user_1" "abcdef")]
        /\ pending_registration (sessionStorage (snd run)) = None)
  /\ (forall t : Z,
        let run :=
          AuthService.verifyOtp AuthService.mockApiCall "user_1" "123456"
            (Scenario.awaiting_verification t) in
        (exists r, fst run = Ok r /\ reply_success r = true)
        /\ pending_registration (sessionStorage (snd run)) = None
        /\ Page.dispatched (snd run) = [])
  /\ (forall t : Z,
        fst (AuthService.verifyOtp AuthService.mockApiCall "user_1" "12345"
               (Scenario.awaiting_verification t))
        = Throw (Error "OTP must be 6 digits")).
Proof.
  split; [ | split; [ | split]].
  - intros backend userId otp w.
    unfold AuthService.verifyOtp, try_catch, bind.
    destruct (String.eqb userId "" || String.eqb otp ""); [reflexivity | ].
    destruct (negb (String.length otp =? 6)%nat); [reflexivity | ].
    unfold await.
    destruct (backend (AuthService.post "/auth/verify-otp" None
                         (OtpBody userId otp)) (now w)) as [o t0].
    destruct o as [resp | e]; [ | reflexivity].
    destruct (success resp); simpl; [ | reflexivity].
    unfold AuthService.setTokens, bind. simpl.
    destruct (JsString.falsy (refreshToken resp)); reflexivity.
  - intros t run. split; [eexists; split; reflexivity | ].
    split; reflexivity.
  - intros t run. split; [eexists; split; reflexivity | ].
    split; reflexivity.
  - intro t. reflexivity.
Qed.

(** ** Every operation of the cache manager is guarded by the token *)

(** C8. With no access token stored (or an empty one), each of the ten
    profile and address operations fails with the not-authenticated
    error after one read of the access token: no cache is read or
    written, no request is sent, and no store changes. *)
Theorem UserService_requires_token
  (backend auth_backend : Backend) (quota : AddressCache.Quota) (w : World) :
  JsString.falsy (auth_token (localStorage w)) = true ->
  UserService.getUserProfile backend w = Guard.refused "Get profile error:" w
  /\ (forall d, UserService.updateUserProfile backend d w
                = Guard.refused "Update profile error:" w)
  /\ (forall f, UserService.updateProfilePicture backend f w
                = Guard.refused "Update profile picture error:" w)
  /\ (forall p, UserService.deleteAccount backend auth_backend p w
                = Guard.refused "Delete account error:" w)
  /\ UserService.listAddresses backend quota w = Guard.refused "List addresses error:" w
  /\ (forall i, UserService.getAddress backend i w
                = Guard.refused "Get address error:" w)
  /\ (forall d, UserService.addAddress backend quota d w
                = Guard.refused "Add address error:" w)
  /\ (forall i d, UserService.updateAddress backend quota i d w
                  = Guard.refused "Update address error:" w)
  /\ (forall i, UserService.deleteAddress backend quota i w
                = Guard.refused "Delete address error:" w)
  /\ (forall i, UserService.setDefaultAddress backend quota i w
                = Guard.refused "Set default address error:" w).
Proof.
  intro H.
  repeat split; intros;
    unfold UserService.getUserProfile, UserService.updateUserProfile,
      UserService.updateProfilePicture, UserService.deleteAccount,
      UserService.listAddresses, UserService.getAddress,
      UserService.addAddress, UserService.updateAddress,
      UserService.deleteAddress, UserService.setDefaultAddress,
      Guard.refused, try_catch, bind, AuthService.getToken;
    rewrite H; reflexivity.
Qed.

Lemma UserService_requires_token_when_anonymous :
  UserService.getUserProfile UserService.mockBackend (Page.anonymous 0)
  = Guard.refused "Get profile error:" (Page.anonymous 0)
  /\ (forall d, UserService.updateUserProfile UserService.mockBackend d
                  (Page.anonymous 0)
                = Guard.refused "Update profile error:" (Page.anonymous 0))
  /\ (forall f, UserService.updateProfilePicture UserService.mockBackend f
                  (Page.anonymous 0)
                = Guard.refused "Update profile picture error:" (Page.anonymous 0))
  /\ (forall p, UserService.deleteAccount UserService.mockBackend
                  AuthService.mockApiCall p (Page.anonymous 0)
                = Guard.refused "Delete account error:" (Page.anonymous 0))
  /\ UserService.listAddresses UserService.mockBackend Cache.roomy (Page.anonymous 0)
     = Guard.refused "List addresses error:" (Page.anonymous 0)
  /\ (forall i, UserService.getAddress UserService.mockBackend i (Page.anonymous 0)
                = Guard.refused "Get address error:" (Page.anonymous 0))
  /\ (forall d, UserService.addAddress UserService.mockBackend Cache.roomy d (Page.anonymous 0)
                = Guard.refused "Add address error:" (Page.anonymous 0))
  /\ (forall i d, UserService.updateAddress UserService.mockBackend Cache.roomy i d
                    (Page.anonymous 0)
                  = Guard.refused "Update address error:" (Page.anonymous 0))
  /\ (forall i, UserService.deleteAddress UserService.mockBackend Cache.roomy i
                  (Page.anonymous 0)
                = Guard.refused "Delete address error:" (Page.anonymous 0))
  /\ (forall i, UserService.setDefaultAddress UserService.mockBackend Cache.roomy i
                  (Page.anonymous 0)
                = Guard.refused "Set default address error:" (Page.anonymous 0)).
Proof.
  apply (@UserService_requires_token UserService.mockBackend
           AuthService.mockApiCall Cache.roomy (Page.anonymous 0)).
  reflexivity.
Defined.

(** ** The default address *)

Module CacheFacts.

Import Cache.

Lemma forEach_remarked (addressId : string) (l l' : address_array) :
  UserService.forEach
    (fun addr =>
       Address.set_isDefault (String.eqb (Address.id addr) addressId) addr) l
  = Ok l' ->
  Forall2 (remarked addressId) l l'.
Proof.
  revert l'. induction l as [ | a l IH]; intros l' H; simpl in H.
  - injection H as <-. constructor.
  - destruct a as [a | ]; [ | discriminate].
    destruct (UserService.forEach _ l) as [r | e]; [ | discriminate].
    simpl in H. injection H as <-.
    constructor; [ | now apply IH].
    exists a. now split.
Qed.

Lemma remarked_flags (addressId : string) (l l' : address_array) :
  Forall2 (remarked addressId) l l' ->
  forall a, In (Some a) l' ->
            Address.isDefault a = String.eqb (Address.id a) addressId.
Proof.
  induction 1 as [ | o n l l' (x & -> & ->) _ IH]; intros a Hin.
  - destruct Hin.
  - destruct Hin as [Heq | Hin]; [ | now apply IH].
    injection Heq as <-. reflexivity.
Qed.

Lemma remarked_ids (addressId : string) (l l' : address_array) :
  Forall2 (remarked addressId) l l' -> ids l' = ids l.
Proof.
  induction 1 as [ | o n l l' (x & -> & ->) _ IH]; simpl; [reflexivity | ].
  now rewrite IH.
Qed.

Lemma remarked_none_without_id (addressId : string) (l l' : address_array) :
  Forall2 (remarked addressId) l l' ->
  ~ In addressId (ids l') -> default_count l' = 0.
Proof.
  unfold default_count.
  induction 1 as [ | o n l l' (x & -> & ->) _ IH]; intro Hnot; simpl in *;
    [reflexivity | ].
  destruct (String.eqb (Address.id x) addressId) eqn:E.
  - apply String.eqb_eq in E. exfalso. apply Hnot. now left.
  - apply IH. intro Hin. apply Hnot. now right.
Qed.

Lemma remarked_at_most_one (addressId : string) (l l' : address_array) :
  Forall2 (remarked addressId) l l' ->
  NoDup (ids l') -> default_count l' <= 1.
Proof.
  induction 1 as [ | o n l l' (x & -> & ->) Hrest IH]; intro Hnd.
  - unfold default_count. simpl. lia.
  - simpl in Hnd. inversion Hnd as [ | ? ? Hnot Hnd']; subst.
    unfold default_count in *. simpl.
    destruct (String.eqb (Address.id x) addressId) eqn:E.
    + apply String.eqb_eq in E. rewrite E in Hnot.
      pose proof (remarked_none_without_id Hrest Hnot) as H0.
      unfold default_count in H0. simpl. rewrite H0. lia.
    + now apply IH.
Qed.

End CacheFacts.

(** C1, as the code has it. When [setDefaultAddress] resolves, the
    collection it started from with the flag of every record set to
    whether its identifier is the requested one is what it hands to the
    cache: every record of it that is marked default bears the requested
    identifier, and when no two of its records share an identifier at
    most one is marked default.  The cache holds that collection when
    the browser takes the write; when it does not, the failure is
    reported on the console, the call resolves all the same and the
    cache is as it was.  The other stored values are as before. *)
Theorem setDefaultAddress_marks_requested_only
  (backend : Backend) (quota : AddressCache.Quota) (addressId : string)
  (w w' : World) (r : Reply) :
  UserService.setDefaultAddress backend quota addressId w = (Ok r, w') ->
  exists updated,
    Forall2 (Cache.remarked addressId) (Cache.cached_addresses w) updated
    /\ (forall a, In (Some a) updated ->
                  Address.isDefault a = String.eqb (Address.id a) addressId)
    /\ (NoDup (Cache.ids updated) -> Cache.default_count updated <= 1)
    /\ (quota (localStorage w) (Json updated) = true ->
        user_addresses (localStorage w') = Some (Json updated))
    /\ (quota (localStorage w) (Json updated) = false ->
        user_addresses (localStorage w') = user_addresses (localStorage w)
        /\ hd_error (log w') = Some (ConsoleError "Failed to cache addresses:"))
    /\ auth_token (localStorage w') = auth_token (localStorage w)
    /\ refresh_token (localStorage w') = refresh_token (localStorage w)
    /\ user_data (localStorage w') = user_data (localStorage w)
    /\ sessionStorage w' = sessionStorage w.
Proof.
  intro H. unfold UserService.setDefaultAddress in H.
  apply MonadFacts.try_rethrow_ok in H.
  apply MonadFacts.bind_ok in H as (token & w1 & Hget & H).
  destruct (JsString.falsy token); [discriminate | ].
  destruct (String.eqb addressId ""); [discriminate | ].
  apply MonadFacts.bind_ok in H as (resp & w2 & Hreq & H).
  destruct (success resp); [ | discriminate].
  apply MonadFacts.bind_ok in H as (cached & w3 & Hcached & H).
  apply MonadFacts.bind_ok in H as (updated & w4 & Hfe & H).
  apply MonadFacts.bind_ok in H as (u & w5 & Hput & H).
  apply MonadFacts.lift_ok in Hfe as [Hfe ->].
  injection H as _ <-.
  apply MonadFacts.getToken_frame in Hget.
  apply MonadFacts.authenticatedRequest_frame in Hreq.
  apply MonadFacts.getCachedAddresses_ok in Hcached as [Hoe Hw3].
  apply MonadFacts.cacheAddresses_ok in Hput as (S4 & _ & _ & Hyes & Hno).
  rewrite Hoe in Hfe. apply CacheFacts.forEach_remarked in Hfe.
  assert (Hc : Cache.cached_addresses w2 = Cache.cached_addresses w).
  { unfold Cache.cached_addresses.
    destruct Hget as [E1 _], Hreq as [E2 _]. now rewrite E2, E1. }
  rewrite Hc in Hfe.
  destruct Hget as [E1 S1], Hreq as [E2 S2], Hw3 as [E3 S3].
  assert (E : localStorage w3 = localStorage w) by congruence.
  rewrite E in Hyes, Hno. simpl in Hyes, Hno.
  exists updated. rewrite S4, S3, S2, S1.
  split; [assumption | ].
  split; [now apply (CacheFacts.remarked_flags Hfe) | ].
  split; [now apply (CacheFacts.remarked_at_most_one Hfe) | ].
  split; [intro Hq; destruct (Hyes Hq) as [-> _]; reflexivity | ].
  split; [intro Hq; destruct (Hno Hq) as [-> ->]; now split | ].
  destruct (quota (localStorage w) (Json updated)).
  - destruct (Hyes eq_refl) as [-> _]. now repeat split.
  - destruct (Hno eq_refl) as [-> _]. now repeat split.
Qed.

(** Scenario D on the backend the repository ships: [addr_1] was the
    default, [addr_2] is requested, and the browser takes the write. *)
Lemma setDefaultAddress_scenario_D :
  exists updated,
    Forall2 (Cache.remarked "addr_2")
      (Cache.cached_addresses
         (Cache.caching UserService.mock_addresses 1700000000000))
      updated
    /\ (forall a, In (Some a) updated ->
                  Address.isDefault a = String.eqb (Address.id a) "addr_2")
    /\ (NoDup (Cache.ids updated) -> Cache.default_count updated <= 1)
    /\ (Cache.roomy
          (localStorage (Cache.caching UserService.mock_addresses 1700000000000))
          (Json updated) = true ->
        user_addresses (localStorage (Cache.set_default_run Cache.roomy))
        = Some (Json updated))
    /\ (Cache.roomy
          (localStorage (Cache.caching UserService.mock_addresses 1700000000000))
          (Json updated) = false ->
        user_addresses (localStorage (Cache.set_default_run Cache.roomy))
        = user_addresses
            (localStorage (Cache.caching UserService.mock_addresses 1700000000000))
        /\ hd_error (log (Cache.set_default_run Cache.roomy))
           = Some (ConsoleError "Failed to cache addresses:"))
    /\ auth_token (localStorage (Cache.set_default_run Cache.roomy))
       = auth_token
           (localStorage (Cache.caching UserService.mock_addresses 1700000000000))
    /\ refresh_token (localStorage (Cache.set_default_run Cache.roomy))
       = refresh_token
           (localStorage (Cache.caching UserService.mock_addresses 1700000000000))
    /\ user_data (localStorage (Cache.set_default_run Cache.roomy))
       = user_data
           (localStorage (Cache.caching UserService.mock_addresses 1700000000000))
    /\ sessionStorage (Cache.set_default_run Cache.roomy)
       = sessionStorage (Cache.caching UserService.mock_addresses 1700000000000).
Proof.
  apply (@setDefaultAddress_marks_requested_only UserService.mockBackend
           Cache.roomy "addr_2"
           (Cache.caching UserService.mock_addresses 1700000000000)
           (Cache.set_default_run Cache.roomy)
           (reply true (Some "Default address updated successfully"))).
  reflexivity.
Defined.

(** The flags of scenario D after the call: as the scenario has them
    when the browser takes the write, and as they were, with the call
    resolved, when it does not. *)
Lemma setDefaultAddress_scenario_D_flags :
  map Cache.is_default
    (Cache.cached_addresses (Cache.set_default_run Cache.roomy))
  = [false; true]
  /\ fst (UserService.setDefaultAddress UserService.mockBackend Cache.full
            "addr_2" (Cache.caching UserService.mock_addresses 1700000000000))
     = Ok (reply true (Some "Default address updated successfully"))
  /\ map Cache.is_default
       (Cache.cached_addresses (Cache.set_default_run Cache.full))
     = [true; false].
Proof. repeat split; reflexivity. Qed.

(** C1, as it is stated, fails: two submissions of one address that the
    backend answers with the same record leave two cached records with
    one identifier, and a call that requests that identifier resolves and
    marks both as the default. *)
Lemma setDefaultAddress_marks_both_duplicates :
  Cache.cached_addresses
    (snd (bind (UserService.addAddress Cache.echoing Cache.roomy Cache.home_data)
            (fun _ => UserService.addAddress Cache.echoing Cache.roomy Cache.home_data)
            (Cache.caching [] 1700000000000)))
  = Cache.doubled
  /\ fst (UserService.setDefaultAddress UserService.mockBackend Cache.roomy "addr_1"
            (Cache.caching Cache.doubled 1700000000000))
     = Ok (reply true (Some "Default address updated successfully"))
  /\ Cache.default_count
       (Cache.cached_addresses
          (snd (UserService.setDefaultAddress UserService.mockBackend Cache.roomy "addr_1"
                  (Cache.caching Cache.doubled 1700000000000))))
     = 2.
Proof. repeat split; vm_compute; reflexivity. Qed.

(** ** The profile and its cached copy *)

(** C4, on the code as it is. A rejection by the backend is thrown by
    [getUserProfile] whether or not a user record is cached: with an
    access token and a cached user record stored, a backend that cannot
    be reached makes the call throw, while a backend that answers
    without success makes it resolve with the cached record, marked as
    cached. *)
Theorem getUserProfile_rethrows_rejection :
  (forall (backend : Backend) (w : World) (tok : string) (e : exn) (t0 : Z),
      auth_token (localStorage w) = Some tok ->
      tok <> "" ->
      user_data (localStorage w) <> Some Garbage ->
      backend (Profile.profile_request tok) (now w) = (Rejected e, t0) ->
      fst (UserService.getUserProfile backend w) = Throw e
      /\ localStorage (snd (UserService.getUserProfile backend w))
         = localStorage w)
  /\ (forall (u : User.t) (t : Z),
        user_data (localStorage (Profile.remembering u t)) = Some (Json u)
        /\ fst (UserService.getUserProfile Scenario.unreachable
                  (Profile.remembering u t))
           = Throw (Error "Failed to fetch")
        /\ fst (UserService.getUserProfile Scenario.refusing
                  (Profile.remembering u t))
           = Ok (reply_with_user None (Some u) true)).
Proof.
  split; [ | intros u t; repeat split].
  intros backend w tok e t0 Htok Hne Hgood Hback.
  destruct w as [[tk rt ud ad] ss hr nw lg]. simpl in *. subst tk.
  pose proof (SessionFacts.falsy_some Hne) as Hf. simpl in Hf.
  unfold Profile.profile_request in Hback.
  unfold UserService.getUserProfile, try_catch, bind, AuthService.getToken,
    AuthService.getCurrentUser, UserService.authenticatedRequest, bind,
    AuthService.getToken, await.
  simpl. rewrite Hf.
  destruct ud as [[u | ] | ]; try congruence; simpl; rewrite Hf; simpl;
    rewrite Hback; simpl; split; reflexivity.
Qed.

(** X1. The part of C4 that holds: once the backend has answered, a
    successful answer replaces the cached user record and is what the
    call resolves with; an unsuccessful answer leaves the stores as they
    are, and the call resolves with the cached record marked as cached
    when there is one, and throws when there is none. *)
Theorem getUserProfile_when_backend_answers
  (backend : Backend) (w : World) (tok : string) (resp : Response) (t0 : Z) :
  auth_token (localStorage w) = Some tok ->
  tok <> "" ->
  user_data (localStorage w) <> Some Garbage ->
  backend (Profile.profile_request tok) (now w) = (Resolved resp, t0) ->
  (success resp = true ->
   fst (UserService.getUserProfile backend w)
   = Ok (reply_with_user None (user resp) false)
   /\ user_data (localStorage (snd (UserService.getUserProfile backend w)))
      = Some (Profile.stored_user (user resp)))
  /\ (success resp = false ->
      localStorage (snd (UserService.getUserProfile backend w)) = localStorage w
      /\ (forall u, user_data (localStorage w) = Some (Json u) ->
                    fst (UserService.getUserProfile backend w)
                    = Ok (reply_with_user None (Some u) true))
      /\ (user_data (localStorage w) = None ->
          fst (UserService.getUserProfile backend w)
          = Throw (Error (or_else (message resp) "Failed to fetch profile")))).
Proof.
  intros Htok Hne Hgood Hback.
  destruct w as [[tk rt ud ad] ss hr nw lg]. simpl in *. subst tk.
  pose proof (SessionFacts.falsy_some Hne) as Hf. simpl in Hf.
  unfold Profile.profile_request in Hback.
  unfold UserService.getUserProfile, try_catch, bind, AuthService.getToken,
    AuthService.getCurrentUser, UserService.authenticatedRequest, bind,
    AuthService.getToken, await.
  simpl. rewrite Hf.
  destruct ud as [[u | ] | ]; try congruence; simpl; rewrite Hf; simpl;
    rewrite Hback; simpl.
  - split; intro Hs; rewrite Hs; simpl.
    + split; reflexivity.
    + split; [reflexivity | ]. split; [ | discriminate].
      intros u' Hu'. injection Hu' as <-. reflexivity.
  - split; intro Hs; rewrite Hs; simpl.
    + split; reflexivity.
    + split; [reflexivity | ]. split; [discriminate | reflexivity].
Qed.

Lemma getUserProfile_mock_answers :
  (success (UserService.with_user UserService.mock_profile) = true ->
   fst (UserService.getUserProfile UserService.mockBackend
          (Profile.remembering Scenario.john 1700000000000))
   = Ok (reply_with_user None
           (user (UserService.with_user UserService.mock_profile)) false)
   /\ user_data
        (localStorage
           (snd (UserService.getUserProfile UserService.mockBackend
                   (Profile.remembering Scenario.john 1700000000000))))
      = Some (Profile.stored_user
                (user (UserService.with_user UserService.mock_profile))))
  /\ (success (UserService.with_user UserService.mock_profile) = false ->
      localStorage
        (snd (UserService.getUserProfile UserService.mockBackend
                (Profile.remembering Scenario.john 1700000000000)))
      = localStorage (Profile.remembering Scenario.john 1700000000000)
      /\ (forall u,
            user_data
              (localStorage (Profile.remembering Scenario.john 1700000000000))
            = Some (Json u) ->
            fst (UserService.getUserProfile UserService.mockBackend
                   (Profile.remembering Scenario.john 1700000000000))
            = Ok (reply_with_user None (Some u) true))
      /\ (user_data
            (localStorage (Profile.remembering Scenario.john 1700000000000))
          = None ->
          fst (UserService.getUserProfile UserService.mockBackend
                 (Profile.remembering Scenario.john 1700000000000))
          = Throw (Error (or_else
                            (message
                               (UserService.with_user UserService.mock_profile))
                            "Failed to fetch profile")))).
Proof.
  apply (@getUserProfile_when_backend_answers UserService.mockBackend
           (Profile.remembering Scenario.john 1700000000000)
           TokenStore.sample_jwt
           (UserService.with_user UserService.mock_profile)
           1700000000800%Z).
  - reflexivity.
  - discriminate.
  - discriminate.
  - reflexivity.
Defined.

(** ** Further properties of the session manager *)

(** X2. Scenario A against a backend that issues a JWT. When the backend
    answers a well-formed login with success and a token whose decoded
    expiry exceeds the time of the answer, [loginUser] resolves with
    success, stores that token, dispatches [userLoggedIn] once, and
    [isAuthenticated] then answers true. *)
Theorem loginUser_with_jwt_is_authenticated
  (backend : Backend) (email password : string) (w : World)
  (resp : Response) (t0 : Z) (tok : string) (e : jsnum) :
  email <> "" -> password <> "" ->
  AuthService.validateEmail email = true ->
  backend (AuthService.post "/auth/login" None (LoginBody email password)) (now w)
  = (Resolved resp, t0) ->
  success resp = true ->
  token resp = Some tok ->
  TokenStore.decodeExpiry tok = Ok e ->
  TokenStore.exceeds e (AuthService.seconds t0) ->
  fst (AuthService.loginUser backend email password w)
  = Ok (reply_with_user (Some "Login successful") (user resp) false)
  /\ auth_token (localStorage (snd (AuthService.loginUser backend email password w)))
     = Some tok
  /\ Page.dispatched (snd (AuthService.loginUser backend email password w))
     = userLoggedIn (user resp) :: Page.dispatched w
  /\ fst (AuthService.isAuthenticated
            (snd (AuthService.loginUser backend email password w)))
     = Ok true.
Proof.
  intros He Hp Hv Hb Hs Ht Hd Hx.
  apply SessionFacts.falsy_some in He, Hp. simpl in He, Hp.
  unfold AuthService.loginUser, try_catch, bind, await.
  rewrite He, Hp, Hv. cbn [orb negb]. rewrite Hb. simpl. rewrite Hs. simpl.
  unfold AuthService.setTokens, bind. simpl. rewrite Ht.
  assert (Hauth : forall w1,
             auth_token (localStorage w1) = Some tok -> now w1 = t0 ->
             fst (AuthService.isAuthenticated w1) = Ok true).
  { intros w1 H1 H2. rewrite AuthFacts.isAuthenticated_run. simpl.
    unfold TokenStore.verdict. rewrite H1, Hd, H2. f_equal.
    now apply AuthFacts.gt_exceeds. }
  destruct (JsString.falsy (refreshToken resp)); simpl;
    (repeat split; try reflexivity; now apply Hauth).
Qed.

Lemma loginUser_with_sample_jwt :
  fst (AuthService.loginUser Scenario.issuing "user@example.com" "SecurePass123"
         (Page.anonymous 1700000000000))
  = Ok (reply_with_user (Some "Login successful") (Some Scenario.john) false)
  /\ auth_token
       (localStorage
          (snd (AuthService.loginUser Scenario.issuing "user@example.com"
                  "SecurePass123" (Page.anonymous 1700000000000))))
     = Some TokenStore.sample_jwt
  /\ Page.dispatched
       (snd (AuthService.loginUser Scenario.issuing "user@example.com"
               "SecurePass123" (Page.anonymous 1700000000000)))
     = userLoggedIn (Some Scenario.john)
         :: Page.dispatched (Page.anonymous 1700000000000)
  /\ fst (AuthService.isAuthenticated
            (snd (AuthService.loginUser Scenario.issuing "user@example.com"
                    "SecurePass123" (Page.anonymous 1700000000000))))
     = Ok true.
Proof.
  eapply (@loginUser_with_jwt_is_authenticated Scenario.issuing
            "user@example.com" "SecurePass123" (Page.anonymous 1700000000000)
            Scenario.session_response
            1700000001000%Z TokenStore.sample_jwt _).
  - discriminate.
  - discriminate.
  - vm_compute. reflexivity.
  - reflexivity.
  - reflexivity.
  - reflexivity.
  - vm_compute. reflexivity.
  - vm_compute. reflexivity.
Defined.

(** X3. A code that is not six characters long, or an empty user id, is
    refused before the backend is asked: the page is left as it was but
    for the console message. *)
Theorem verifyOtp_refuses_wrong_length
  (backend : Backend) (userId otp : string) (w : World) :
  userId = "" \/ String.length otp <> 6 ->
  exists msg,
    (msg = "User ID and OTP are required" \/ msg = "OTP must be 6 digits")
    /\ AuthService.verifyOtp backend userId otp w
       = (Throw (Error msg), observe (ConsoleError "OTP verification error:") w).
Proof.
  intro H. unfold AuthService.verifyOtp, try_catch.
  destruct (String.eqb userId "" || String.eqb otp "") eqn:Hreq.
  { eexists. split; [left; reflexivity | reflexivity]. }
  destruct (String.length otp =? 6)%nat eqn:Hlen; simpl.
  2: { eexists. split; [right; reflexivity | reflexivity]. }
  exfalso. apply orb_false_iff in Hreq as [Hu _].
  apply Nat.eqb_eq in Hlen. apply String.eqb_neq in Hu.
  destruct H; contradiction.
Qed.

Lemma verifyOtp_refuses_five_digits :
  exists msg,
    (msg = "User ID and OTP are required" \/ msg = "OTP must be 6 digits")
    /\ AuthService.verifyOtp AuthService.mockApiCall "user_1" "12345"
         (Scenario.awaiting_verification 1700000000000)
       = (Throw (Error msg),
          observe (ConsoleError "OTP verification error:")
            (Scenario.awaiting_verification 1700000000000)).
Proof.
  apply (@verifyOtp_refuses_wrong_length AuthService.mockApiCall
           "user_1" "12345" (Scenario.awaiting_verification 1700000000000)).
  right. simpl. discriminate.
Defined.

(** X4. A code of six characters that the backend verifies: the marker is
    cleared, the access token and the user of the answer are stored, the
    refresh token is stored when the answer carries one, one request has
    been sent and no event has been dispatched. *)
Theorem verifyOtp_stores_the_session
  (backend : Backend) (userId otp : string) (w : World) (resp : Response)
  (t0 : Z) :
  userId <> "" -> String.length otp = 6 ->
  backend (AuthService.post "/auth/verify-otp" None (OtpBody userId otp)) (now w)
  = (Resolved resp, t0) ->
  success resp = true ->
  fst (AuthService.verifyOtp backend userId otp w)
  = Ok (reply_with_user (Some "Email verified successfully") (user resp) false)
  /\ localStorage (snd (AuthService.verifyOtp backend userId otp w))
     = {| auth_token := Some (AuthService.stored_string (token resp));
          refresh_token :=
            Scenario.kept_refresh_token (refreshToken resp)
              (refresh_token (localStorage w));
          user_data := Some (Profile.stored_user (user resp));
          user_addresses := user_addresses (localStorage w) |}
  /\ pending_registration
       (sessionStorage (snd (AuthService.verifyOtp backend userId otp w)))
     = None
  /\ Page.fetches (snd (AuthService.verifyOtp backend userId otp w))
     = AuthService.post "/auth/verify-otp" None (OtpBody userId otp)
         :: Page.fetches w
  /\ Page.dispatched (snd (AuthService.verifyOtp backend userId otp w))
     = Page.dispatched w.
Proof.
  intros Hu Hlen Hb Hs.
  assert (Ho : otp <> "") by (intros ->; discriminate).
  apply SessionFacts.falsy_some in Hu, Ho. simpl in Hu, Ho.
  unfold AuthService.verifyOtp, try_catch, bind, await.
  rewrite Hu, Ho, Hlen. cbn [orb negb Nat.eqb]. rewrite Hb. simpl. rewrite Hs.
  simpl. unfold AuthService.setTokens, bind, Scenario.kept_refresh_token. simpl.
  destruct (refreshToken resp) as [rt | ]; simpl.
  - destruct (String.eqb rt ""); simpl; repeat split.
  - repeat split.
Qed.

Lemma verifyOtp_stores_the_mock_session :
  fst (AuthService.verifyOtp Scenario.issuing "user_1" "123456"
         (Scenario.awaiting_verification 1700000000000))
  = Ok (reply_with_user (Some "Email verified successfully")
          (user Scenario.session_response) false)
  /\ localStorage
       (snd (AuthService.verifyOtp Scenario.issuing "user_1" "123456"
               (Scenario.awaiting_verification 1700000000000)))
     = {| auth_token :=
            Some (AuthService.stored_string (token Scenario.session_response));
          refresh_token :=
            Scenario.kept_refresh_token (refreshToken Scenario.session_response)
              (refresh_token
                 (localStorage (Scenario.awaiting_verification 1700000000000)));
          user_data :=
            Some (Profile.stored_user (user Scenario.session_response));
          user_addresses :=
            user_addresses
              (localStorage (Scenario.awaiting_verification 1700000000000)) |}
  /\ pending_registration
       (sessionStorage
          (snd (AuthService.verifyOtp Scenario.issuing "user_1" "123456"
                  (Scenario.awaiting_verification 1700000000000))))
     = None
  /\ Page.fetches
       (snd (AuthService.verifyOtp Scenario.issuing "user_1" "123456"
               (Scenario.awaiting_verification 1700000000000)))
     = AuthService.post "/auth/verify-otp" None (OtpBody "user_1" "123456")
         :: Page.fetches (Scenario.awaiting_verification 1700000000000)
  /\ Page.dispatched
       (snd (AuthService.verifyOtp Scenario.issuing "user_1" "123456"
               (Scenario.awaiting_verification 1700000000000)))
     = Page.dispatched (Scenario.awaiting_verification 1700000000000).
Proof.
  apply (@verifyOtp_stores_the_session Scenario.issuing "user_1" "123456"
           (Scenario.awaiting_verification 1700000000000)
           Scenario.session_response 1700000001000%Z).
  - discriminate.
  - reflexivity.
  - reflexivity.
  - reflexivity.
Defined.

(** X5. Whatever the backend does, a logout leaves no access token,
    refresh token, user record or pending-registration marker.  When no
    access token is stored, or the backend resolves the notification,
    the logout resolves and dispatches [userLoggedOut], whose listener
    removes the cached addresses.  When a token is stored and the
    backend rejects the notification, the logout throws that rejection,
    dispatches nothing, and the cached addresses stay. *)
Theorem logoutUser_always_clears (backend : Backend) (w : World) :
  Page.signed_out (snd (AuthService.logoutUser backend w))
  /\ pending_registration (sessionStorage (snd (AuthService.logoutUser backend w)))
     = None
  /\ (JsString.falsy (auth_token (localStorage w)) = true ->
      fst (AuthService.logoutUser backend w)
      = Ok (reply true (Some "Logged out successfully"))
      /\ Page.dispatched (snd (AuthService.logoutUser backend w))
         = userLoggedOut :: Page.dispatched w
      /\ Page.fetches (snd (AuthService.logoutUser backend w)) = Page.fetches w
      /\ user_addresses (localStorage (snd (AuthService.logoutUser backend w)))
         = None)
  /\ (forall (resp : Response) (t0 : Z),
        JsString.falsy (auth_token (localStorage w)) = false ->
        backend (AuthService.post "/auth/logout" (auth_token (localStorage w))
                   NoBody) (now w)
        = (Resolved resp, t0) ->
        fst (AuthService.logoutUser backend w)
        = Ok (reply true (Some "Logged out successfully"))
        /\ Page.dispatched (snd (AuthService.logoutUser backend w))
           = userLoggedOut :: Page.dispatched w
        /\ user_addresses (localStorage (snd (AuthService.logoutUser backend w)))
           = None)
  /\ (forall (e : exn) (t0 : Z),
        JsString.falsy (auth_token (localStorage w)) = false ->
        backend (AuthService.post "/auth/logout" (auth_token (localStorage w))
                   NoBody) (now w)
        = (Rejected e, t0) ->
        fst (AuthService.logoutUser backend w) = Throw e
        /\ Page.dispatched (snd (AuthService.logoutUser backend w))
           = Page.dispatched w
        /\ user_addresses (localStorage (snd (AuthService.logoutUser backend w)))
           = user_addresses (localStorage w)).
Proof.
  unfold AuthService.logoutUser, try_catch, bind, AuthService.getToken,
    Page.signed_out.
  destruct (JsString.falsy (auth_token (localStorage w))) eqn:Hf; simpl.
  - repeat match goal with |- _ /\ _ => split end; try reflexivity;
      try (intros; discriminate).
    intros _. repeat split.
  - unfold await. simpl.
    destruct (backend _ (now w)) as [[resp | e] t0] eqn:Hb; simpl;
      repeat match goal with |- _ /\ _ => split end; try reflexivity;
      try (intros; discriminate).
    + intros resp' t1 _ _. repeat split.
    + intros e' t1 _ H. injection H as <- _. repeat split.
Qed.

(** A logout of the signed-in page of the cache scenarios, against a
    backend that resolves and one that cannot be reached. *)
Lemma logoutUser_and_the_cached_addresses :
  user_addresses
    (localStorage
       (snd (AuthService.logoutUser Scenario.issuing
               (Cache.caching UserService.mock_addresses 1700000000000))))
  = None
  /\ fst (AuthService.logoutUser Scenario.unreachable
            (Cache.caching UserService.mock_addresses 1700000000000))
     = Throw (Error "Failed to fetch")
  /\ user_addresses
       (localStorage
          (snd (AuthService.logoutUser Scenario.unreachable
                  (Cache.caching UserService.mock_addresses 1700000000000))))
     = Some (Json UserService.mock_addresses)
  /\ Page.signed_out
       (snd (AuthService.logoutUser Scenario.unreachable
               (Cache.caching UserService.mock_addresses 1700000000000))).
Proof. vm_compute. repeat split. Qed.

(** ** [setDefaultAddress] resolves *)

Lemma forEach_total (f : Address.t -> Address.t) (l : address_array) :
  Cache.no_null l -> exists l', UserService.forEach f l = Ok l'.
Proof.
  induction 1 as [ | a l Ha _ [l' IH]]; simpl.
  - now exists [].
  - destruct a as [a | ]; [ | congruence].
    rewrite IH. simpl. now eexists.
Qed.

(** X6. With a non-empty access token, a non-empty identifier, a backend that
    confirms the change and a cache without [null] items, the call
    resolves with the success reply. *)
Theorem setDefaultAddress_resolves
  (backend : Backend) (quota : AddressCache.Quota) (addressId tok : string)
  (w : World) (resp : Response) (t0 : Z) :
  auth_token (localStorage w) = Some tok -> tok <> "" -> addressId <> "" ->
  backend (Cache.default_request tok addressId) (now w) = (Resolved resp, t0) ->
  success resp = true ->
  Cache.no_null (Cache.cached_addresses w) ->
  fst (UserService.setDefaultAddress backend quota addressId w)
  = Ok (reply true (Some "Default address updated successfully")).
Proof.
  intros Htok Hne Hid Hb Hs Hnn.
  destruct w as [[tk rt ud ad] ss hr nw lg]. simpl in *. subst tk.
  apply SessionFacts.falsy_some in Hne, Hid. simpl in Hne, Hid.
  unfold Cache.default_request in Hb. simpl in Hb.
  unfold UserService.setDefaultAddress, try_catch, bind, AuthService.getToken,
    UserService.authenticatedRequest, bind, AuthService.getToken, await.
  simpl. rewrite Hne, Hid. simpl. rewrite Hne. simpl. rewrite Hb. simpl.
  rewrite Hs. unfold AddressCache.getCachedAddresses, Cache.cached_addresses in *.
  simpl in *.
  unfold AddressCache.cacheAddresses.
  destruct ad as [[l | ] | ]; simpl;
    try (destruct (quota _ _); reflexivity).
  match goal with
  | |- context [UserService.forEach ?f l] =>
      destruct (@forEach_total f l) as [l' Hl'];
        [assumption | rewrite Hl'; simpl; destruct (quota _ _); reflexivity]
  end.
Qed.

Lemma setDefaultAddress_resolves_in_scenario_D :
  fst (UserService.setDefaultAddress UserService.mockBackend Cache.roomy "addr_2"
         (Cache.caching UserService.mock_addresses 1700000000000))
  = Ok (reply true (Some "Default address updated successfully")).
Proof.
  apply (@setDefaultAddress_resolves UserService.mockBackend Cache.roomy
           "addr_2" TokenStore.sample_jwt
           (Cache.caching UserService.mock_addresses 1700000000000)
           (response true (Some "Updated successfully")) 1700000000800%Z).
  - reflexivity.
  - discriminate.
  - discriminate.
  - reflexivity.
  - reflexivity.
  - repeat constructor; discriminate.
Defined.


(** ** The address pattern *)

(** X7. [validateEmail] accepts exactly the strings made of a local part,
    [@], a domain, a point and a last label, where the three parts are
    not empty and hold neither white space nor [@]. *)
Theorem validateEmail_accepts_standard_addresses (email : string) :
  AuthService.validateEmail email = true <-> Spec.well_formed_email email.
Proof. apply PatternFacts.validateEmail_spec. Qed.

(** * Further properties of the cache manager *)

Module RunFacts.

(** With a non-empty token stored, [authenticatedRequest] is the request
    to the backend after one read of the token. *)
Lemma authenticatedRequest_run (backend : Backend) (ep meth : string)
  (b : body) (w : World) (tok : string) :
  auth_token (localStorage w) = Some tok -> tok <> "" ->
  UserService.authenticatedRequest backend ep meth b w
  = await backend
      {| endpoint := ep; method := meth; bearer := Some tok; payload := b |}
      (observe (LocalGet AuthService.TOKEN_KEY) w).
Proof.
  intros Htok Hne. unfold UserService.authenticatedRequest, bind,
    AuthService.getToken.
  rewrite Htok, (SessionFacts.falsy_some Hne). reflexivity.
Qed.

End RunFacts.

(** X8. [listAddresses] once the backend has answered: after a
    successful answer the call resolves with the array of the answer,
    and that array replaces the cached collection, whatever was cached,
    when the browser takes the write; when it does not, the store is as
    it was and the failure is on the console.  An unsuccessful answer
    leaves [localStorage] as it is, and the call resolves with the
    cached collection, an empty one included, marked as cached, and
    throws when nothing that parses is cached. *)
Theorem listAddresses_when_backend_answers
  (backend : Backend) (quota : AddressCache.Quota) (w : World) (tok : string)
  (resp : Response) (t0 : Z) :
  auth_token (localStorage w) = Some tok ->
  tok <> "" ->
  backend (Book.list_request tok) (now w) = (Resolved resp, t0) ->
  (success resp = true ->
   fst (UserService.listAddresses backend quota w)
   = Ok (UserService.reply_with_addresses (addresses resp) false)
   /\ Cache.written quota (Book.stored_addresses (addresses resp)) w
        (snd (UserService.listAddresses backend quota w)))
  /\ (success resp = false ->
      localStorage (snd (UserService.listAddresses backend quota w)) = localStorage w
      /\ (forall l, user_addresses (localStorage w) = Some (Json l) ->
                    fst (UserService.listAddresses backend quota w)
                    = Ok (UserService.reply_with_addresses (Some l) true))
      /\ (user_addresses (localStorage w) = None
          \/ user_addresses (localStorage w) = Some Garbage ->
          fst (UserService.listAddresses backend quota w)
          = Throw (Error (or_else (message resp) "Failed to fetch addresses")))).
Proof.
  intros Htok Hne Hb.
  destruct w as [[tk rt ud ad] ss hr nw lg]. simpl in *. subst tk.
  pose proof (SessionFacts.falsy_some Hne) as Hf. simpl in Hf.
  unfold Book.list_request in Hb.
  unfold UserService.listAddresses, try_catch, bind, AuthService.getToken,
    AddressCache.getCachedAddresses, UserService.authenticatedRequest, bind,
    AuthService.getToken, await, AddressCache.cacheAddresses, Cache.written,
    Book.stored_addresses, AddressCache.stringify, Page.reported.
  simpl. rewrite Hf.
  destruct ad as [[l | ] | ]; simpl; rewrite Hf; simpl; rewrite Hb; simpl;
    (split; intro Hs; rewrite Hs; simpl;
     [destruct (quota _ _); simpl;
      (split; [reflexivity | split; intro; try discriminate;
                             repeat split] ) | ]);
    (split; [reflexivity | ]).
  - split; [intros l' E; injection E as <-; reflexivity | ].
    intros [E | E]; discriminate.
  - split; [intros l' E; discriminate | reflexivity].
  - split; [intros l' E; discriminate | reflexivity].
Qed.

Lemma listAddresses_mock_answers :
  (success (UserService.mockResponses (Book.list_request TokenStore.sample_jwt)
              1700000000800) = true ->
   fst (UserService.listAddresses UserService.mockBackend Cache.roomy
          (Cache.caching [] 1700000000000))
   = Ok (UserService.reply_with_addresses
           (addresses (UserService.mockResponses
                         (Book.list_request TokenStore.sample_jwt)
                         1700000000800)) false)
   /\ Cache.written Cache.roomy
        (Book.stored_addresses
           (addresses (UserService.mockResponses
                         (Book.list_request TokenStore.sample_jwt)
                         1700000000800)))
        (Cache.caching [] 1700000000000)
        (snd (UserService.listAddresses UserService.mockBackend Cache.roomy
                (Cache.caching [] 1700000000000))))
  /\ (success (UserService.mockResponses (Book.list_request TokenStore.sample_jwt)
                 1700000000800) = false ->
      localStorage (snd (UserService.listAddresses UserService.mockBackend Cache.roomy
                           (Cache.caching [] 1700000000000)))
      = localStorage (Cache.caching [] 1700000000000)
      /\ (forall l,
            user_addresses (localStorage (Cache.caching [] 1700000000000))
            = Some (Json l) ->
            fst (UserService.listAddresses UserService.mockBackend Cache.roomy
                   (Cache.caching [] 1700000000000))
            = Ok (UserService.reply_with_addresses (Some l) true))
      /\ (user_addresses (localStorage (Cache.caching [] 1700000000000)) = None
          \/ user_addresses (localStorage (Cache.caching [] 1700000000000))
             = Some Garbage ->
          fst (UserService.listAddresses UserService.mockBackend Cache.roomy
                 (Cache.caching [] 1700000000000))
          = Throw (Error (or_else
                            (message
                               (UserService.mockResponses
                                  (Book.list_request TokenStore.sample_jwt)
                                  1700000000800))
                            "Failed to fetch addresses")))).
Proof.
  apply (@listAddresses_when_backend_answers UserService.mockBackend
           Cache.roomy
           (Cache.caching [] 1700000000000) TokenStore.sample_jwt
           (UserService.mockResponses (Book.list_request TokenStore.sample_jwt)
              1700000000800)
           1700000000800%Z).
  - reflexivity.
  - discriminate.
  - reflexivity.
Defined.

(** The list of the shipped backend with room in the browser and
    without: the call resolves with the two addresses either way, and
    they are cached only in the first case. *)
Lemma listAddresses_mock_with_and_without_room :
  Cache.cached_addresses
    (snd (UserService.listAddresses UserService.mockBackend Cache.roomy
            (Cache.caching [] 1700000000000)))
  = UserService.mock_addresses
  /\ fst (UserService.listAddresses UserService.mockBackend Cache.full
            (Cache.caching [] 1700000000000))
     = Ok (UserService.reply_with_addresses (Some UserService.mock_addresses)
             false)
  /\ Cache.cached_addresses
       (snd (UserService.listAddresses UserService.mockBackend Cache.full
               (Cache.caching [] 1700000000000)))
     = []
  /\ Page.reported
       (snd (UserService.listAddresses UserService.mockBackend Cache.full
               (Cache.caching [] 1700000000000)))
     = ["Failed to cache addresses:"].
Proof. repeat split; reflexivity. Qed.

(** X9. Input that fails validation stays on the page: with an access
    token stored, [updateUserProfile], [addAddress] and [updateAddress]
    throw the validation error after one read of the token, send no
    request and change no store. *)
Theorem invalid_input_sends_nothing
  (backend : Backend) (quota : AddressCache.Quota) (w : World) :
  JsString.falsy (auth_token (localStorage w)) = false ->
  (forall d e,
      UserService.validateProfileData d = Throw e ->
      UserService.updateUserProfile backend d w
      = (Throw e,
         observe (ConsoleError "Update profile error:")
           (observe (LocalGet AuthService.TOKEN_KEY) w)))
  /\ (forall d e,
        UserService.validateAddressData d = Throw e ->
        UserService.addAddress backend quota d w
        = (Throw e,
           observe (ConsoleError "Add address error:")
             (observe (LocalGet AuthService.TOKEN_KEY) w)))
  /\ (forall i d e,
        i <> "" ->
        UserService.validateAddressData d = Throw e ->
        UserService.updateAddress backend quota i d w
        = (Throw e,
           observe (ConsoleError "Update address error:")
             (observe (LocalGet AuthService.TOKEN_KEY) w))).
Proof.
  intro Hf. repeat split.
  - intros d e Hv.
    unfold UserService.updateUserProfile, try_catch, bind, AuthService.getToken,
      lift.
    rewrite Hf, Hv. reflexivity.
  - intros d e Hv.
    unfold UserService.addAddress, try_catch, bind, AuthService.getToken, lift.
    rewrite Hf, Hv. reflexivity.
  - intros i d e Hi Hv. apply SessionFacts.falsy_some in Hi. simpl in Hi.
    unfold UserService.updateAddress, try_catch, bind, AuthService.getToken,
      lift.
    rewrite Hf, Hi, Hv. reflexivity.
Qed.

Lemma invalid_input_sends_nothing_when_signed_in :
  (forall d e,
      UserService.validateProfileData d = Throw e ->
      UserService.updateUserProfile UserService.mockBackend d
        (Scenario.signed_in 1700000000000)
      = (Throw e,
         observe (ConsoleError "Update profile error:")
           (observe (LocalGet AuthService.TOKEN_KEY)
              (Scenario.signed_in 1700000000000))))
  /\ (forall d e,
        UserService.validateAddressData d = Throw e ->
        UserService.addAddress UserService.mockBackend Cache.roomy d
          (Scenario.signed_in 1700000000000)
        = (Throw e,
           observe (ConsoleError "Add address error:")
             (observe (LocalGet AuthService.TOKEN_KEY)
                (Scenario.signed_in 1700000000000))))
  /\ (forall i d e,
        i <> "" ->
        UserService.validateAddressData d = Throw e ->
        UserService.updateAddress UserService.mockBackend Cache.roomy i d
          (Scenario.signed_in 1700000000000)
        = (Throw e,
           observe (ConsoleError "Update address error:")
             (observe (LocalGet AuthService.TOKEN_KEY)
                (Scenario.signed_in 1700000000000)))).
Proof.
  apply (@invalid_input_sends_nothing UserService.mockBackend Cache.roomy
           (Scenario.signed_in 1700000000000)).
  reflexivity.
Defined.

(** X10. [addAddress] with input that passes validation, once the
    backend has confirmed: the call resolves with the record of the
    answer and dispatches [addressAdded] once with it, whether or not
    the browser takes the write; the cached collection (the empty one
    when nothing that parses is cached) with that record appended is
    what is stored when the browser takes the write, and the store is
    as it was, the failure on the console, when it does not.  The other
    stored values are as before. *)
Theorem addAddress_appends
  (backend : Backend) (quota : AddressCache.Quota) (w : World) (tok : string)
  (d : AddressData) (v : ValidAddress) (resp : Response) (t0 : Z) :
  auth_token (localStorage w) = Some tok ->
  tok <> "" ->
  UserService.validateAddressData d = Ok v ->
  backend (Book.add_request tok v) (now w) = (Resolved resp, t0) ->
  success resp = true ->
  fst (UserService.addAddress backend quota d w)
  = Ok (UserService.reply_with_address (Some "Address added successfully")
          (address resp))
  /\ Cache.written quota (Json (Cache.cached_addresses w ++ [address resp])) w
       (snd (UserService.addAddress backend quota d w))
  /\ sessionStorage (snd (UserService.addAddress backend quota d w)) = sessionStorage w
  /\ Page.dispatched (snd (UserService.addAddress backend quota d w))
     = addressAdded (address resp) :: Page.dispatched w.
Proof.
  intros Htok Hne Hv Hb Hs.
  destruct w as [[tk rt ud ad] ss hr nw lg]. simpl in *. subst tk.
  pose proof (SessionFacts.falsy_some Hne) as Hf. simpl in Hf.
  unfold Book.add_request in Hb.
  unfold UserService.addAddress, try_catch, bind, AuthService.getToken, lift,
    AddressCache.getCachedAddresses, UserService.authenticatedRequest, bind,
    AuthService.getToken, await, Cache.cached_addresses,
    AddressCache.cacheAddresses, Cache.written, AddressCache.stringify.
  simpl. rewrite Hf, Hv. simpl. rewrite Hf. simpl. rewrite Hb. simpl.
  rewrite Hs. simpl.
  destruct ad as [[l | ] | ]; simpl; destruct (quota _ _); simpl;
    repeat split; intros; try discriminate; reflexivity.
Qed.

Lemma addAddress_appends_home :
  fst (UserService.addAddress Cache.echoing Cache.roomy Cache.home_data
         (Cache.caching UserService.mock_addresses 1700000000000))
  = Ok (UserService.reply_with_address (Some "Address added successfully")
          (Some Cache.home))
  /\ Cache.written Cache.roomy
       (Json (Cache.cached_addresses
                (Cache.caching UserService.mock_addresses 1700000000000)
              ++ [Some Cache.home]))
       (Cache.caching UserService.mock_addresses 1700000000000)
       (snd (UserService.addAddress Cache.echoing Cache.roomy Cache.home_data
               (Cache.caching UserService.mock_addresses 1700000000000)))
  /\ sessionStorage (snd (UserService.addAddress Cache.echoing Cache.roomy Cache.home_data
                            (Cache.caching UserService.mock_addresses
                               1700000000000)))
     = sessionStorage (Cache.caching UserService.mock_addresses 1700000000000)
  /\ Page.dispatched (snd (UserService.addAddress Cache.echoing Cache.roomy Cache.home_data
                             (Cache.caching UserService.mock_addresses
                                1700000000000)))
     = addressAdded (Some Cache.home)
         :: Page.dispatched
              (Cache.caching UserService.mock_addresses 1700000000000).
Proof.
  eapply (@addAddress_appends Cache.echoing Cache.roomy
            (Cache.caching UserService.mock_addresses 1700000000000)
            TokenStore.sample_jwt Cache.home_data _
            {| success := true; message := None; userId := None;
               token := None; refreshToken := None; user := None;
               avatarUrl := None; address := Some Cache.home;
               addresses := None |} 1700000000000%Z).
  - reflexivity.
  - discriminate.
  - vm_compute. reflexivity.
  - reflexivity.
  - reflexivity.
Defined.

(** The same submission with room in the browser and without: three
    records cached, or the two that were, with the call resolved and the
    event dispatched either way. *)
Lemma addAddress_home_with_and_without_room :
  length
    (Cache.cached_addresses
       (snd (UserService.addAddress Cache.echoing Cache.roomy Cache.home_data
               (Cache.caching UserService.mock_addresses 1700000000000))))
  = 3
  /\ fst (UserService.addAddress Cache.echoing Cache.full Cache.home_data
            (Cache.caching UserService.mock_addresses 1700000000000))
     = Ok (UserService.reply_with_address (Some "Address added successfully")
             (Some Cache.home))
  /\ Cache.cached_addresses
       (snd (UserService.addAddress Cache.echoing Cache.full Cache.home_data
               (Cache.caching UserService.mock_addresses 1700000000000)))
     = UserService.mock_addresses
  /\ Page.dispatched
       (snd (UserService.addAddress Cache.echoing Cache.full Cache.home_data
               (Cache.caching UserService.mock_addresses 1700000000000)))
     = [addressAdded (Some Cache.home)]
  /\ Page.reported
       (snd (UserService.addAddress Cache.echoing Cache.full Cache.home_data
               (Cache.caching UserService.mock_addresses 1700000000000)))
     = ["Failed to cache addresses:"].
Proof. repeat split; reflexivity. Qed.

(** ** The array methods on collections of known shape *)

Module ArrayFacts.

Lemma eqb_empty (s : string) : s <> "" -> String.eqb s "" = false.
Proof. intro H. apply String.eqb_neq. exact H. Qed.

Lemma filter_no_null (p : Address.t -> bool) (l : address_array) :
  Cache.no_null l ->
  UserService.filter p l
  = Ok (List.filter (fun o => match o with Some a => p a | None => false end) l).
Proof.
  induction 1 as [ | [a | ] l Ha Hl IH]; simpl.
  - reflexivity.
  - rewrite IH. simpl. destruct (p a); reflexivity.
  - contradiction.
Qed.

Lemma filter_null (p : Address.t -> bool) (l : address_array) :
  In None l -> UserService.filter p l = Throw TypeError.
Proof.
  induction l as [ | [a | ] l IH]; simpl; intro H.
  - contradiction.
  - destruct H as [H | H]; [discriminate | ]. rewrite (IH H). reflexivity.
  - reflexivity.
Qed.

Lemma forEach_null (f : Address.t -> Address.t) (l : address_array) :
  In None l -> UserService.forEach f l = Throw TypeError.
Proof.
  induction l as [ | [a | ] l IH]; simpl; intro H.
  - contradiction.
  - destruct H as [H | H]; [discriminate | ]. rewrite (IH H). reflexivity.
  - reflexivity.
Qed.

Lemma findIndex_match (addressId : string) (pre post : address_array)
  (a : Address.t) :
  Book.before_match addressId pre ->
  Address.id a = addressId ->
  UserService.findIndex (fun addr => String.eqb (Address.id addr) addressId)
    (pre ++ Some a :: post)
  = Ok (Some (length pre)).
Proof.
  intros Hpre Ha. induction Hpre as [ | o pre (b & -> & Hb) Hpre IH]; simpl.
  - rewrite Ha, String.eqb_refl. reflexivity.
  - unfold Book.other_than in Hb. apply negb_true_iff in Hb. rewrite Hb, IH.
    reflexivity.
Qed.

Lemma findIndex_absent (addressId : string) (l : address_array) :
  Book.before_match addressId l ->
  UserService.findIndex (fun addr => String.eqb (Address.id addr) addressId) l
  = Ok None.
Proof.
  induction 1 as [ | o l (b & -> & Hb) Hl IH]; simpl.
  - reflexivity.
  - unfold Book.other_than in Hb. apply negb_true_iff in Hb. rewrite Hb, IH.
    reflexivity.
Qed.

Lemma assign_at (pre post : address_array) (x y : option Address.t) :
  UserService.assign (length pre) x (pre ++ y :: post) = pre ++ x :: post.
Proof. induction pre as [ | o pre IH]; simpl; [ | rewrite IH]; reflexivity. Qed.

Lemma find_default (pre post : address_array) (a : Address.t) :
  Book.before_default pre ->
  Address.isDefault a = true ->
  UserService.find Address.isDefault (pre ++ Some a :: post) = Ok (Some a).
Proof.
  intros Hpre Ha. induction Hpre as [ | o pre (b & -> & Hb) Hpre IH]; simpl.
  - rewrite Ha. reflexivity.
  - rewrite Hb. exact IH.
Qed.

Lemma find_no_default (l : address_array) :
  Book.before_default l -> UserService.find Address.isDefault l = Ok None.
Proof.
  induction 1 as [ | o l (b & -> & Hb) Hl IH]; simpl.
  - reflexivity.
  - rewrite Hb. exact IH.
Qed.

Lemma survivors_ids (addressId : string) (l : address_array) :
  ~ In addressId (Cache.ids (List.filter (Book.survives addressId) l)).
Proof.
  induction l as [ | [a | ] l IH]; simpl; try assumption; [tauto | ].
  unfold Book.other_than. destruct (String.eqb (Address.id a) addressId) eqn:E;
    simpl; [assumption | ].
  intros [H | H]; [ | tauto]. apply String.eqb_neq in E. contradiction.
Qed.

End ArrayFacts.

(** X11. [deleteAddress] for a non-empty identifier, once the backend has
    confirmed, over a cached collection without [null] items: the call
    resolves and [addressDeleted] is dispatched once with the
    identifier, whether or not the browser takes the write; when it
    does, the cache then holds exactly the records with another
    identifier, in their order, so that no record with the identifier is
    left; when it does not, the store is as it was and the failure is on
    the console. *)
Theorem deleteAddress_removes
  (backend : Backend) (quota : AddressCache.Quota) (w : World)
  (tok addressId : string) (resp : Response) (t0 : Z) :
  auth_token (localStorage w) = Some tok ->
  tok <> "" ->
  addressId <> "" ->
  backend (Book.delete_request tok addressId) (now w) = (Resolved resp, t0) ->
  success resp = true ->
  Cache.no_null (Cache.cached_addresses w) ->
  fst (UserService.deleteAddress backend quota addressId w)
  = Ok (reply true (Some "Address deleted successfully"))
  /\ Cache.written quota
       (Json (List.filter (Book.survives addressId) (Cache.cached_addresses w)))
       w (snd (UserService.deleteAddress backend quota addressId w))
  /\ (quota (localStorage w)
        (Json (List.filter (Book.survives addressId) (Cache.cached_addresses w)))
      = true ->
      ~ In addressId
          (Cache.ids (Cache.cached_addresses
                        (snd (UserService.deleteAddress backend quota addressId w)))))
  /\ Page.dispatched (snd (UserService.deleteAddress backend quota addressId w))
     = addressDeleted addressId :: Page.dispatched w.
Proof.
  intros Htok Hne Hid Hb Hs Hnn.
  destruct w as [[tk rt ud ad] ss hr nw lg]. simpl in *. subst tk.
  pose proof (SessionFacts.falsy_some Hne) as Hf. simpl in Hf.
  pose proof (ArrayFacts.eqb_empty Hid) as Hi.
  unfold Book.delete_request in Hb. simpl in Hb.
  unfold Cache.cached_addresses in *. simpl in *.
  assert (Hrun :
    UserService.filter (fun addr => negb (String.eqb (Address.id addr) addressId))
      (match ad with Some (Json l) => l | _ => [] end)
    = Ok (List.filter (Book.survives addressId)
            (match ad with Some (Json l) => l | _ => [] end))).
  { rewrite (ArrayFacts.filter_no_null _ Hnn). reflexivity. }
  unfold UserService.deleteAddress, try_catch, bind, AuthService.getToken, lift,
    AddressCache.getCachedAddresses, UserService.authenticatedRequest, bind,
    AuthService.getToken, await, AddressCache.cacheAddresses, Cache.written,
    AddressCache.stringify.
  simpl. rewrite Hf, Hi. simpl. rewrite Hf. simpl. rewrite Hb. simpl.
  rewrite Hs. simpl.
  destruct ad as [[l | ] | ]; simpl in *; try (rewrite Hrun; simpl);
    destruct (quota _ _); simpl;
    repeat match goal with |- _ /\ _ => split end;
    intros; try discriminate; try reflexivity;
    try apply ArrayFacts.survivors_ids; tauto.
Qed.

Lemma deleteAddress_removes_second_mock_record :
  fst (UserService.deleteAddress UserService.mockBackend Cache.roomy "addr_2"
         (Cache.caching UserService.mock_addresses 1700000000000))
  = Ok (reply true (Some "Address deleted successfully"))
  /\ Cache.written Cache.roomy
       (Json (List.filter (Book.survives "addr_2")
                (Cache.cached_addresses
                   (Cache.caching UserService.mock_addresses 1700000000000))))
       (Cache.caching UserService.mock_addresses 1700000000000)
       (snd (UserService.deleteAddress UserService.mockBackend Cache.roomy
               "addr_2"
               (Cache.caching UserService.mock_addresses 1700000000000)))
  /\ (Cache.roomy
        (localStorage (Cache.caching UserService.mock_addresses 1700000000000))
        (Json (List.filter (Book.survives "addr_2")
                 (Cache.cached_addresses
                    (Cache.caching UserService.mock_addresses 1700000000000))))
      = true ->
      ~ In "addr_2"%string
          (Cache.ids (Cache.cached_addresses
                        (snd (UserService.deleteAddress UserService.mockBackend
                                Cache.roomy "addr_2"
                                (Cache.caching UserService.mock_addresses
                                   1700000000000))))))
  /\ Page.dispatched (snd (UserService.deleteAddress UserService.mockBackend Cache.roomy
                             "addr_2"
                             (Cache.caching UserService.mock_addresses
                                1700000000000)))
     = addressDeleted "addr_2"
         :: Page.dispatched
              (Cache.caching UserService.mock_addresses 1700000000000).
Proof.
  eapply (@deleteAddress_removes UserService.mockBackend Cache.roomy
            (Cache.caching UserService.mock_addresses 1700000000000)
            TokenStore.sample_jwt "addr_2"
            (response true (Some "Deleted successfully")) 1700000000800%Z).
  - reflexivity.
  - discriminate.
  - discriminate.
  - reflexivity.
  - reflexivity.
  - repeat constructor; discriminate.
Defined.

(** The same deletion with room in the browser and without: one record
    left, or the two that were, with the call resolved and the event
    dispatched either way. *)
Lemma deleteAddress_with_and_without_room :
  Cache.ids
    (Cache.cached_addresses
       (snd (UserService.deleteAddress UserService.mockBackend Cache.roomy
               "addr_2"
               (Cache.caching UserService.mock_addresses 1700000000000))))
  = ["addr_1"%string]
  /\ fst (UserService.deleteAddress UserService.mockBackend Cache.full "addr_2"
            (Cache.caching UserService.mock_addresses 1700000000000))
     = Ok (reply true (Some "Address deleted successfully"))
  /\ Cache.ids
       (Cache.cached_addresses
          (snd (UserService.deleteAddress UserService.mockBackend Cache.full
                  "addr_2"
                  (Cache.caching UserService.mock_addresses 1700000000000))))
     = ["addr_1"%string; "addr_2"%string]
  /\ Page.dispatched
       (snd (UserService.deleteAddress UserService.mockBackend Cache.full
               "addr_2"
               (Cache.caching UserService.mock_addresses 1700000000000)))
     = [addressDeleted "addr_2"].
Proof. repeat split; reflexivity. Qed.

(** X12. [updateAddress] with input that passes validation, once the
    backend has confirmed.  When the first cached record that bears the
    identifier is preceded by records with other identifiers, the
    collection with that item alone replaced by the record of the
    answer, the others in their places, is what is stored when the
    browser takes the write; when it does not, the store is as it was
    and the failure is on the console.  When every cached item is a
    record with another identifier, none of them [null], local storage
    is left as it is.  In both cases the call resolves with the record
    of the answer and [addressUpdated] is dispatched once. *)
Theorem updateAddress_replaces
  (backend : Backend) (quota : AddressCache.Quota) (w : World)
  (tok addressId : string) (d : AddressData)
  (v : ValidAddress) (resp : Response) (t0 : Z) :
  auth_token (localStorage w) = Some tok ->
  tok <> "" ->
  addressId <> "" ->
  UserService.validateAddressData d = Ok v ->
  backend (Book.update_request tok addressId v) (now w) = (Resolved resp, t0) ->
  success resp = true ->
  (forall pre a post,
      Cache.cached_addresses w = pre ++ Some a :: post ->
      Book.before_match addressId pre ->
      Address.id a = addressId ->
      Cache.written quota (Json (pre ++ address resp :: post)) w
        (snd (UserService.updateAddress backend quota addressId d w)))
  /\ (Book.before_match addressId (Cache.cached_addresses w) ->
      localStorage (snd (UserService.updateAddress backend quota addressId d w))
      = localStorage w)
  /\ ((exists pre a post,
          Cache.cached_addresses w = pre ++ Some a :: post
          /\ Book.before_match addressId pre /\ Address.id a = addressId)
      \/ Book.before_match addressId (Cache.cached_addresses w) ->
      fst (UserService.updateAddress backend quota addressId d w)
      = Ok (UserService.reply_with_address (Some "Address updated successfully")
              (address resp))
      /\ Page.dispatched (snd (UserService.updateAddress backend quota addressId d w))
         = addressUpdated (address resp) :: Page.dispatched w).
Proof.
  intros Htok Hne Hid Hv Hb Hs.
  destruct w as [[tk rt ud ad] ss hr nw lg]. simpl in *. subst tk.
  pose proof (SessionFacts.falsy_some Hne) as Hf. simpl in Hf.
  pose proof (ArrayFacts.eqb_empty Hid) as Hi.
  unfold Book.update_request in Hb. simpl in Hb.
  unfold Cache.cached_addresses. simpl.
  unfold UserService.updateAddress, try_catch, bind, AuthService.getToken, lift,
    AddressCache.getCachedAddresses, UserService.authenticatedRequest, bind,
    AuthService.getToken, await, AddressCache.cacheAddresses, Cache.written,
    AddressCache.stringify.
  simpl. rewrite Hf, Hi, Hv. simpl. rewrite Hf. simpl. rewrite Hb. simpl.
  rewrite Hs. simpl.
  assert (Hfound : forall pre a post l,
    l = pre ++ Some a :: post -> Book.before_match addressId pre ->
    Address.id a = addressId ->
    UserService.findIndex (fun addr => String.eqb (Address.id addr) addressId) l
    = Ok (Some (length pre))
    /\ UserService.assign (length pre) (address resp) l
       = pre ++ address resp :: post).
  { intros pre a post l -> Hpre Ha. split.
    - now apply ArrayFacts.findIndex_match.
    - apply ArrayFacts.assign_at. }
  split; [ | split].
  - intros pre a post El Hpre Ha.
    destruct ad as [[l | ] | ]; simpl in *;
      try (destruct pre; discriminate).
    destruct (Hfound pre a post l El Hpre Ha) as [E1 E2].
    rewrite E1. simpl. rewrite E2.
    destruct (quota _ _); simpl; split; intro; try discriminate;
      repeat split.
  - intro Hall.
    destruct ad as [[l | ] | ]; simpl in *; try reflexivity.
    rewrite (ArrayFacts.findIndex_absent Hall). reflexivity.
  - intros [(pre & a & post & El & Hpre & Ha) | Hall].
    + destruct ad as [[l | ] | ]; simpl in *;
        try (destruct pre; discriminate).
      destruct (Hfound pre a post l El Hpre Ha) as [E1 E2].
      rewrite E1. simpl. destruct (quota _ _); split; reflexivity.
    + destruct ad as [[l | ] | ]; simpl in *; try (split; reflexivity).
      rewrite (ArrayFacts.findIndex_absent Hall). split; reflexivity.
Qed.

Lemma updateAddress_replaces_first_mock_record :
  (forall pre a post,
      Cache.cached_addresses
        (Cache.caching UserService.mock_addresses 1700000000000)
      = pre ++ Some a :: post ->
      Book.before_match "addr_1" pre ->
      Address.id a = "addr_1"%string ->
      Cache.written Cache.roomy (Json (pre ++ Some Cache.home :: post))
        (Cache.caching UserService.mock_addresses 1700000000000)
        (snd (UserService.updateAddress Cache.echoing Cache.roomy "addr_1"
                Cache.home_data
                (Cache.caching UserService.mock_addresses 1700000000000))))
  /\ (Book.before_match "addr_1"
        (Cache.cached_addresses
           (Cache.caching UserService.mock_addresses 1700000000000)) ->
      localStorage (snd (UserService.updateAddress Cache.echoing Cache.roomy "addr_1"
                           Cache.home_data
                           (Cache.caching UserService.mock_addresses
                              1700000000000)))
      = localStorage (Cache.caching UserService.mock_addresses 1700000000000))
  /\ ((exists pre a post,
          Cache.cached_addresses
            (Cache.caching UserService.mock_addresses 1700000000000)
          = pre ++ Some a :: post
          /\ Book.before_match "addr_1" pre
          /\ Address.id a = "addr_1"%string)
      \/ Book.before_match "addr_1"
           (Cache.cached_addresses
              (Cache.caching UserService.mock_addresses 1700000000000)) ->
      fst (UserService.updateAddress Cache.echoing Cache.roomy "addr_1" Cache.home_data
             (Cache.caching UserService.mock_addresses 1700000000000))
      = Ok (UserService.reply_with_address
              (Some "Address updated successfully") (Some Cache.home))
      /\ Page.dispatched (snd (UserService.updateAddress Cache.echoing Cache.roomy "addr_1"
                                 Cache.home_data
                                 (Cache.caching UserService.mock_addresses
                                    1700000000000)))
         = addressUpdated (Some Cache.home)
             :: Page.dispatched
                  (Cache.caching UserService.mock_addresses 1700000000000)).
Proof.
  eapply (@updateAddress_replaces Cache.echoing Cache.roomy
            (Cache.caching UserService.mock_addresses 1700000000000)
            TokenStore.sample_jwt "addr_1" Cache.home_data _
            {| success := true; message := None; userId := None;
               token := None; refreshToken := None; user := None;
               avatarUrl := None; address := Some Cache.home;
               addresses := None |} 1700000000000%Z).
  - reflexivity.
  - discriminate.
  - discriminate.
  - vm_compute. reflexivity.
  - reflexivity.
  - reflexivity.
Defined.

(** The same update with room in the browser and without: the first
    record replaced, or the two that were, with the call resolved and
    the event dispatched either way. *)
Lemma updateAddress_with_and_without_room :
  Cache.cached_addresses
    (snd (UserService.updateAddress Cache.echoing Cache.roomy "addr_1"
            Cache.home_data
            (Cache.caching UserService.mock_addresses 1700000000000)))
  = Some Cache.home :: tl UserService.mock_addresses
  /\ fst (UserService.updateAddress Cache.echoing Cache.full "addr_1"
            Cache.home_data
            (Cache.caching UserService.mock_addresses 1700000000000))
     = Ok (UserService.reply_with_address
             (Some "Address updated successfully") (Some Cache.home))
  /\ Cache.cached_addresses
       (snd (UserService.updateAddress Cache.echoing Cache.full "addr_1"
               Cache.home_data
               (Cache.caching UserService.mock_addresses 1700000000000)))
     = UserService.mock_addresses
  /\ Page.dispatched
       (snd (UserService.updateAddress Cache.echoing Cache.full "addr_1"
               Cache.home_data
               (Cache.caching UserService.mock_addresses 1700000000000)))
     = [addressUpdated (Some Cache.home)].
Proof. repeat split; reflexivity. Qed.

(** ** Runs over a cache that holds a [null] item *)

Module NullFacts.

Lemma null_item_run
  (backend : Backend) (quota : AddressCache.Quota) (w : World)
  (tok addressId : string) (l : address_array) :
  auth_token (localStorage w) = Some tok ->
  tok <> "" ->
  addressId <> "" ->
  user_addresses (localStorage w) = Some (Json l) ->
  In None l ->
  (forall resp t0,
      backend (Book.delete_request tok addressId) (now w) = (Resolved resp, t0) ->
      success resp = true ->
      fst (UserService.deleteAddress backend quota addressId w) = Throw TypeError
      /\ localStorage (snd (UserService.deleteAddress backend quota addressId w))
         = localStorage w
      /\ Page.fetches (snd (UserService.deleteAddress backend quota addressId w))
         = Book.delete_request tok addressId :: Page.fetches w
      /\ Page.dispatched (snd (UserService.deleteAddress backend quota addressId w))
         = Page.dispatched w)
  /\ (forall resp t0,
        backend (Cache.default_request tok addressId) (now w)
        = (Resolved resp, t0) ->
        success resp = true ->
        fst (UserService.setDefaultAddress backend quota addressId w) = Throw TypeError
        /\ localStorage (snd (UserService.setDefaultAddress backend quota addressId w))
           = localStorage w
        /\ Page.fetches (snd (UserService.setDefaultAddress backend quota addressId w))
           = Cache.default_request tok addressId :: Page.fetches w).
Proof.
  intros Htok Hne Hid Hl Hnull.
  destruct w as [[tk rt ud ad] ss hr nw lg]. simpl in *. subst tk ad.
  pose proof (SessionFacts.falsy_some Hne) as Hf. simpl in Hf.
  pose proof (ArrayFacts.eqb_empty Hid) as Hi.
  split; intros resp t0 Hb Hs.
  - unfold Book.delete_request in *. simpl in Hb.
    unfold UserService.deleteAddress, try_catch, bind, AuthService.getToken,
      lift, AddressCache.getCachedAddresses, UserService.authenticatedRequest,
      bind, AuthService.getToken, await, Page.fetches, Page.dispatched.
    simpl. rewrite Hf, Hi. simpl. rewrite Hf. simpl. rewrite Hb. simpl.
    rewrite Hs. simpl. rewrite (ArrayFacts.filter_null _ _ Hnull). simpl.
    repeat split.
  - unfold Cache.default_request in *. simpl in Hb.
    unfold UserService.setDefaultAddress, try_catch, bind,
      AuthService.getToken, lift, AddressCache.getCachedAddresses,
      UserService.authenticatedRequest, bind, AuthService.getToken, await,
      Page.fetches.
    simpl. rewrite Hf, Hi. simpl. rewrite Hf. simpl. rewrite Hb. simpl.
    rewrite Hs. simpl. rewrite (ArrayFacts.forEach_null _ _ Hnull). simpl.
    repeat split.
Qed.

End NullFacts.

(** X13. A [null] item in the cached collection, as [updateAddress]
    leaves one when the answer carries no record: [deleteAddress] and
    [setDefaultAddress] for a non-empty identifier then send their
    request, and once the backend has confirmed they throw a [TypeError]
    and leave local storage as it is, so the cache no longer follows the
    backend. *)
Theorem null_item_breaks_cache_updates
  (backend : Backend) (quota : AddressCache.Quota) (w : World)
  (tok addressId : string) (l : address_array) :
  auth_token (localStorage w) = Some tok ->
  tok <> "" ->
  addressId <> "" ->
  user_addresses (localStorage w) = Some (Json l) ->
  In None l ->
  (forall resp t0,
      backend (Book.delete_request tok addressId) (now w) = (Resolved resp, t0) ->
      success resp = true ->
      fst (UserService.deleteAddress backend quota addressId w) = Throw TypeError
      /\ localStorage (snd (UserService.deleteAddress backend quota addressId w))
         = localStorage w
      /\ Page.fetches (snd (UserService.deleteAddress backend quota addressId w))
         = Book.delete_request tok addressId :: Page.fetches w
      /\ Page.dispatched (snd (UserService.deleteAddress backend quota addressId w))
         = Page.dispatched w)
  /\ (forall resp t0,
        backend (Cache.default_request tok addressId) (now w)
        = (Resolved resp, t0) ->
        success resp = true ->
        fst (UserService.setDefaultAddress backend quota addressId w) = Throw TypeError
        /\ localStorage (snd (UserService.setDefaultAddress backend quota addressId w))
           = localStorage w
        /\ Page.fetches (snd (UserService.setDefaultAddress backend quota addressId w))
           = Cache.default_request tok addressId :: Page.fetches w).
Proof. apply NullFacts.null_item_run. Qed.

Lemma null_item_breaks_cache_updates_after_null :
  (forall resp t0,
      UserService.mockBackend (Book.delete_request TokenStore.sample_jwt "addr_1")
        (now (Cache.caching [None; Some Cache.home] 1700000000000))
      = (Resolved resp, t0) ->
      success resp = true ->
      fst (UserService.deleteAddress UserService.mockBackend Cache.roomy "addr_1"
             (Cache.caching [None; Some Cache.home] 1700000000000))
      = Throw TypeError
      /\ localStorage (snd (UserService.deleteAddress UserService.mockBackend Cache.roomy
                              "addr_1"
                              (Cache.caching [None; Some Cache.home]
                                 1700000000000)))
         = localStorage (Cache.caching [None; Some Cache.home] 1700000000000)
      /\ Page.fetches (snd (UserService.deleteAddress UserService.mockBackend Cache.roomy
                              "addr_1"
                              (Cache.caching [None; Some Cache.home]
                                 1700000000000)))
         = Book.delete_request TokenStore.sample_jwt "addr_1"
             :: Page.fetches (Cache.caching [None; Some Cache.home] 1700000000000)
      /\ Page.dispatched (snd (UserService.deleteAddress UserService.mockBackend Cache.roomy
                                 "addr_1"
                                 (Cache.caching [None; Some Cache.home]
                                    1700000000000)))
         = Page.dispatched (Cache.caching [None; Some Cache.home] 1700000000000))
  /\ (forall resp t0,
        UserService.mockBackend
          (Cache.default_request TokenStore.sample_jwt "addr_1")
          (now (Cache.caching [None; Some Cache.home] 1700000000000))
        = (Resolved resp, t0) ->
        success resp = true ->
        fst (UserService.setDefaultAddress UserService.mockBackend Cache.roomy "addr_1"
               (Cache.caching [None; Some Cache.home] 1700000000000))
        = Throw TypeError
        /\ localStorage (snd (UserService.setDefaultAddress
                                UserService.mockBackend Cache.roomy "addr_1"
                                (Cache.caching [None; Some Cache.home]
                                   1700000000000)))
           = localStorage (Cache.caching [None; Some Cache.home] 1700000000000)
        /\ Page.fetches (snd (UserService.setDefaultAddress
                                UserService.mockBackend Cache.roomy "addr_1"
                                (Cache.caching [None; Some Cache.home]
                                   1700000000000)))
           = Cache.default_request TokenStore.sample_jwt "addr_1"
               :: Page.fetches
                    (Cache.caching [None; Some Cache.home] 1700000000000)).
Proof.
  apply (@null_item_breaks_cache_updates UserService.mockBackend Cache.roomy
           (Cache.caching [None; Some Cache.home] 1700000000000)
           TokenStore.sample_jwt "addr_1" [None; Some Cache.home]).
  - reflexivity.
  - discriminate.
  - discriminate.
  - reflexivity.
  - simpl. left. reflexivity.
Defined.

(** X14. The answers the repository ships, behind [updateAddress] and the
    operations that follow it: the answer to the update carries no
    record, so an update of a cached record resolves without a record;
    when the browser takes the write it puts [null] in the place of the
    record, and from then on [setDefaultAddress] and [deleteAddress]
    throw a [TypeError] for every non-empty identifier, whatever the
    browser would do with their write; when the browser does not take
    the write, local storage is as it was. *)
Theorem shipped_update_then_cache_breaks
  (quota : AddressCache.Quota) (w : World) (tok addressId : string)
  (d : AddressData) (v : ValidAddress)
  (pre post : address_array) (a : Address.t) :
  auth_token (localStorage w) = Some tok ->
  tok <> "" ->
  addressId <> "" ->
  UserService.validateAddressData d = Ok v ->
  Cache.cached_addresses w = pre ++ Some a :: post ->
  Book.before_match addressId pre ->
  Address.id a = addressId ->
  fst (UserService.updateAddress UserService.mockBackend quota addressId d w)
  = Ok (UserService.reply_with_address (Some "Address updated successfully")
          None)
  /\ (quota (localStorage w) (Json (pre ++ None :: post)) = false ->
      localStorage
        (snd (UserService.updateAddress UserService.mockBackend quota addressId d w))
      = localStorage w)
  /\ (quota (localStorage w) (Json (pre ++ None :: post)) = true ->
      user_addresses
        (localStorage
           (snd (UserService.updateAddress UserService.mockBackend quota
                   addressId d w)))
      = Some (Json (pre ++ None :: post))
      /\ forall (later : AddressCache.Quota) (other : string),
           other <> "" ->
           fst (UserService.setDefaultAddress UserService.mockBackend later other
                  (snd (UserService.updateAddress UserService.mockBackend quota
                          addressId d w)))
           = Throw TypeError
           /\ fst (UserService.deleteAddress UserService.mockBackend later other
                     (snd (UserService.updateAddress UserService.mockBackend
                             quota addressId d w)))
              = Throw TypeError).
Proof.
  intros Htok Hne Hid Hv Hl Hpre Ha.
  destruct w as [[tk rt ud ad] ss hr nw lg]. simpl in Htok. subst tk.
  pose proof (SessionFacts.falsy_some Hne) as Hf. simpl in Hf.
  pose proof (ArrayFacts.eqb_empty Hid) as Hi.
  unfold Cache.cached_addresses in Hl. simpl in Hl.
  destruct ad as [[l | ] | ]; try (destruct pre; discriminate). subst l.
  simpl localStorage.
  match goal with
  | |- context [UserService.updateAddress _ _ _ _ ?w0] => set (page := w0)
  end.
  match goal with
  | |- context [quota ?s ?t = true] => set (store := s); set (text := t)
  end.
  assert (Hrun :
    UserService.updateAddress UserService.mockBackend quota addressId d page
    = (Ok (UserService.reply_with_address
             (Some "Address updated successfully") None),
       if quota store text
       then
         {| localStorage :=
              {| auth_token := Some tok; refresh_token := rt; user_data := ud;
                 user_addresses := Some (Json (pre ++ None :: post)) |};
            sessionStorage := ss; href := hr; now := (nw + 800)%Z;
            log :=
              Dispatch (addressUpdated None)
                :: LocalSet AddressCache.ADDRESSES_KEY
                :: LocalGet AddressCache.ADDRESSES_KEY
                :: Fetch (Book.update_request tok addressId v)
                :: LocalGet AuthService.TOKEN_KEY
                :: LocalGet AuthService.TOKEN_KEY :: lg |}
       else
         {| localStorage := store;
            sessionStorage := ss; href := hr; now := (nw + 800)%Z;
            log :=
              Dispatch (addressUpdated None)
                :: ConsoleError "Failed to cache addresses:"
                :: LocalSet AddressCache.ADDRESSES_KEY
                :: LocalGet AddressCache.ADDRESSES_KEY
                :: Fetch (Book.update_request tok addressId v)
                :: LocalGet AuthService.TOKEN_KEY
                :: LocalGet AuthService.TOKEN_KEY :: lg |})).
  { unfold page, UserService.updateAddress, try_catch, bind,
      AuthService.getToken, lift, AddressCache.getCachedAddresses,
      UserService.authenticatedRequest, bind, AuthService.getToken, await,
      UserService.mockBackend, UserService.mockResponses,
      AddressCache.cacheAddresses, AddressCache.stringify.
    simpl. rewrite Hf, Hi, Hv. simpl. rewrite Hf. simpl.
    rewrite (@ArrayFacts.findIndex_match addressId pre post a Hpre Ha). simpl.
    rewrite ArrayFacts.assign_at. subst store text.
    destruct (quota _ _); reflexivity. }
  rewrite Hrun. simpl.
  split; [reflexivity | ].
  split; intro Q; rewrite Q; simpl; [reflexivity | ].
  split; [reflexivity | ].
  intros later other Hother. split.
  - refine (proj1 (proj2 (@NullFacts.null_item_run UserService.mockBackend later
                            _ tok other (pre ++ None :: post) _ Hne Hother _ _)
                     _ _ _ _)).
    + reflexivity.
    + reflexivity.
    + apply in_or_app. right. left. reflexivity.
    + reflexivity.
    + reflexivity.
  - refine (proj1 (proj1 (@NullFacts.null_item_run UserService.mockBackend later
                            _ tok other (pre ++ None :: post) _ Hne Hother _ _)
                     _ _ _ _)).
    + reflexivity.
    + reflexivity.
    + apply in_or_app. right. left. reflexivity.
    + reflexivity.
    + reflexivity.
Qed.

Lemma shipped_update_then_cache_breaks_for_mock_addresses :
  fst (UserService.updateAddress UserService.mockBackend Cache.roomy "addr_2" Cache.home_data
         (Cache.caching UserService.mock_addresses 1700000000000))
  = Ok (UserService.reply_with_address (Some "Address updated successfully")
          None)
  /\ (Cache.roomy
        (localStorage (Cache.caching UserService.mock_addresses 1700000000000))
        (Json (firstn 1 UserService.mock_addresses ++ None :: [])) = false ->
      localStorage
        (snd (UserService.updateAddress UserService.mockBackend Cache.roomy
                "addr_2" Cache.home_data
                (Cache.caching UserService.mock_addresses 1700000000000)))
      = localStorage (Cache.caching UserService.mock_addresses 1700000000000))
  /\ (Cache.roomy
        (localStorage (Cache.caching UserService.mock_addresses 1700000000000))
        (Json (firstn 1 UserService.mock_addresses ++ None :: [])) = true ->
      user_addresses
        (localStorage
           (snd (UserService.updateAddress UserService.mockBackend Cache.roomy
                   "addr_2" Cache.home_data
                   (Cache.caching UserService.mock_addresses 1700000000000))))
      = Some (Json (firstn 1 UserService.mock_addresses ++ None :: []))
      /\ forall (later : AddressCache.Quota) (other : string),
           other <> ""%string ->
           fst (UserService.setDefaultAddress UserService.mockBackend later other
                  (snd (UserService.updateAddress UserService.mockBackend
                          Cache.roomy "addr_2" Cache.home_data
                          (Cache.caching UserService.mock_addresses
                             1700000000000))))
           = Throw TypeError
           /\ fst (UserService.deleteAddress UserService.mockBackend later other
                     (snd (UserService.updateAddress UserService.mockBackend
                             Cache.roomy "addr_2" Cache.home_data
                             (Cache.caching UserService.mock_addresses
                                1700000000000))))
              = Throw TypeError).
Proof.
  eapply (@shipped_update_then_cache_breaks Cache.roomy
            (Cache.caching UserService.mock_addresses 1700000000000)
            TokenStore.sample_jwt "addr_2" Cache.home_data _
            (firstn 1 UserService.mock_addresses) []).
  - reflexivity.
  - discriminate.
  - discriminate.
  - vm_compute. reflexivity.
  - reflexivity.
  - repeat constructor. eexists. split; reflexivity.
  - reflexivity.
Defined.

(** The shipped update of the second record, then a change of the
    default, with room in the browser and without. *)
Lemma shipped_update_with_and_without_room :
  map Cache.is_default
    (Cache.cached_addresses
       (snd (UserService.updateAddress UserService.mockBackend Cache.full
               "addr_2" Cache.home_data
               (Cache.caching UserService.mock_addresses 1700000000000))))
  = [true; false]
  /\ fst (UserService.setDefaultAddress UserService.mockBackend Cache.full
            "addr_2"
            (snd (UserService.updateAddress UserService.mockBackend Cache.full
                    "addr_2" Cache.home_data
                    (Cache.caching UserService.mock_addresses 1700000000000))))
     = Ok (reply true (Some "Default address updated successfully"))
  /\ fst (UserService.setDefaultAddress UserService.mockBackend Cache.full
            "addr_2"
            (snd (UserService.updateAddress UserService.mockBackend Cache.roomy
                    "addr_2" Cache.home_data
                    (Cache.caching UserService.mock_addresses 1700000000000))))
     = Throw TypeError.
Proof. repeat split; reflexivity. Qed.

(** X15. [getDefaultAddress] once the backend has answered the listing
    with an array: the array replaces the cache when the browser takes
    the write, and local storage is as it was, the failure on the
    console, when it does not; either way, when the first default
    record of the array is preceded by records that are not the default,
    the call resolves with that record; when no record is the default it
    resolves, without throwing, with an unsuccessful reply; and a [null]
    item at the head of the array makes it throw a [TypeError]. *)
Theorem getDefaultAddress_finds_first_default
  (backend : Backend) (quota : AddressCache.Quota) (w : World) (tok : string)
  (resp : Response) (l : address_array) (t0 : Z) :
  auth_token (localStorage w) = Some tok ->
  tok <> "" ->
  backend (Book.list_request tok) (now w) = (Resolved resp, t0) ->
  success resp = true ->
  addresses resp = Some l ->
  (quota (localStorage w) (Json l) = true ->
   localStorage (snd (UserService.getDefaultAddress backend quota w))
   = AddressCache.set_user_addresses (Some (Json l)) (localStorage w))
  /\ (quota (localStorage w) (Json l) = false ->
      localStorage (snd (UserService.getDefaultAddress backend quota w))
      = localStorage w
      /\ In "Failed to cache addresses:"%string
           (Page.reported (snd (UserService.getDefaultAddress backend quota w))))
  /\ (forall pre a post,
        l = pre ++ Some a :: post ->
        Book.before_default pre ->
        Address.isDefault a = true ->
        fst (UserService.getDefaultAddress backend quota w)
        = Ok (UserService.reply_with_address None (Some a)))
  /\ (Book.before_default l ->
      fst (UserService.getDefaultAddress backend quota w)
      = Ok (reply false (Some "No default address found")))
  /\ (forall r,
        l = None :: r ->
        fst (UserService.getDefaultAddress backend quota w) = Throw TypeError).
Proof.
  intros Htok Hne Hb Hs Hl.
  destruct w as [[tk rt ud ad] ss hr nw lg]. simpl in *. subst tk.
  pose proof (SessionFacts.falsy_some Hne) as Hf. simpl in Hf.
  unfold Book.list_request in Hb.
  unfold UserService.getDefaultAddress, UserService.listAddresses, try_catch,
    bind, AuthService.getToken, lift, AddressCache.getCachedAddresses,
    UserService.authenticatedRequest, bind, AuthService.getToken, await,
    AddressCache.cacheAddresses, AddressCache.stringify, Page.reported.
  simpl. rewrite Hf.
  destruct ad as [[c | ] | ]; simpl; rewrite Hf; simpl; rewrite Hb; simpl;
    rewrite Hs; simpl; rewrite Hl; simpl;
    destruct (quota _ _); simpl.
  all: repeat match goal with |- _ /\ _ => split end.
  all: try (intros pre a post -> Hpre Ha;
            rewrite (@ArrayFacts.find_default pre post a Hpre Ha);
            reflexivity).
  all: try (intro Hall; rewrite (ArrayFacts.find_no_default Hall);
            reflexivity).
  all: try (intros r ->; reflexivity).
  all: try (intro; discriminate).
  all: intros _.
  all: destruct (UserService.find Address.isDefault l) as [[a | ] | e];
    simpl; repeat split; tauto.
Qed.

Lemma getDefaultAddress_finds_first_mock_record :
  (Cache.roomy (localStorage (Cache.caching [] 1700000000000))
     (Json UserService.mock_addresses) = true ->
   localStorage (snd (UserService.getDefaultAddress UserService.mockBackend Cache.roomy
                        (Cache.caching [] 1700000000000)))
   = AddressCache.set_user_addresses (Some (Json UserService.mock_addresses))
       (localStorage (Cache.caching [] 1700000000000)))
  /\ (Cache.roomy (localStorage (Cache.caching [] 1700000000000))
        (Json UserService.mock_addresses) = false ->
      localStorage (snd (UserService.getDefaultAddress UserService.mockBackend
                           Cache.roomy (Cache.caching [] 1700000000000)))
      = localStorage (Cache.caching [] 1700000000000)
      /\ In "Failed to cache addresses:"%string
           (Page.reported
              (snd (UserService.getDefaultAddress UserService.mockBackend
                      Cache.roomy (Cache.caching [] 1700000000000)))))
  /\ (forall pre a post,
        UserService.mock_addresses = pre ++ Some a :: post ->
        Book.before_default pre ->
        Address.isDefault a = true ->
        fst (UserService.getDefaultAddress UserService.mockBackend Cache.roomy
               (Cache.caching [] 1700000000000))
        = Ok (UserService.reply_with_address None (Some a)))
  /\ (Book.before_default UserService.mock_addresses ->
      fst (UserService.getDefaultAddress UserService.mockBackend Cache.roomy
             (Cache.caching [] 1700000000000))
      = Ok (reply false (Some "No default address found")))
  /\ (forall r,
        UserService.mock_addresses = None :: r ->
        fst (UserService.getDefaultAddress UserService.mockBackend Cache.roomy
               (Cache.caching [] 1700000000000))
        = Throw TypeError).
Proof.
  apply (@getDefaultAddress_finds_first_default UserService.mockBackend
           Cache.roomy
           (Cache.caching [] 1700000000000) TokenStore.sample_jwt
           (UserService.mockResponses (Book.list_request TokenStore.sample_jwt)
              1700000000800)
           UserService.mock_addresses 1700000000800%Z).
  - reflexivity.
  - discriminate.
  - reflexivity.
  - reflexivity.
  - reflexivity.
Defined.

(** The default address of the shipped backend with room in the
    browser and without: found either way, cached only in the first
    case. *)
Lemma getDefaultAddress_with_and_without_room :
  fst (UserService.getDefaultAddress UserService.mockBackend Cache.full
         (Cache.caching [] 1700000000000))
  = fst (UserService.getDefaultAddress UserService.mockBackend Cache.roomy
           (Cache.caching [] 1700000000000))
  /\ Cache.cached_addresses
       (snd (UserService.getDefaultAddress UserService.mockBackend Cache.roomy
               (Cache.caching [] 1700000000000)))
     = UserService.mock_addresses
  /\ Cache.cached_addresses
       (snd (UserService.getDefaultAddress UserService.mockBackend Cache.full
               (Cache.caching [] 1700000000000)))
     = [].
Proof. repeat split; reflexivity. Qed.

(** * Further properties of the account operations *)

(** X16. [updateUserProfile] with input that passes validation, once the
    backend has answered: on success the user of the answer replaces the
    cached user record, [profileUpdated] is dispatched once with it and
    the call resolves with it; on an unsuccessful answer the call throws
    the message of the answer, or the default message, stores nothing
    and dispatches nothing. *)
Theorem updateUserProfile_writes_through
  (backend : Backend) (w : World) (tok : string) (d v : ProfileData)
  (resp : Response) (t0 : Z) :
  auth_token (localStorage w) = Some tok ->
  tok <> "" ->
  UserService.validateProfileData d = Ok v ->
  backend (Account.update_request tok v) (now w) = (Resolved resp, t0) ->
  (success resp = true ->
   fst (UserService.updateUserProfile backend d w)
   = Ok (reply_with_user (Some "Profile updated successfully") (user resp) false)
   /\ localStorage (snd (UserService.updateUserProfile backend d w))
      = AuthService.set_user_data (Profile.stored_user (user resp))
          (localStorage w)
   /\ Page.dispatched (snd (UserService.updateUserProfile backend d w))
      = profileUpdated (user resp) :: Page.dispatched w)
  /\ (success resp = false ->
      fst (UserService.updateUserProfile backend d w)
      = Throw (Error (or_else (message resp) "Failed to update profile"))
      /\ localStorage (snd (UserService.updateUserProfile backend d w))
         = localStorage w
      /\ Page.dispatched (snd (UserService.updateUserProfile backend d w))
         = Page.dispatched w).
Proof.
  intros Htok Hne Hv Hb.
  destruct w as [[tk rt ud ad] ss hr nw lg]. simpl in *. subst tk.
  pose proof (SessionFacts.falsy_some Hne) as Hf. simpl in Hf.
  unfold Account.update_request in Hb.
  unfold UserService.updateUserProfile, try_catch, bind, AuthService.getToken,
    lift, UserService.authenticatedRequest, bind, AuthService.getToken, await,
    Profile.stored_user.
  simpl. rewrite Hf, Hv. simpl. rewrite Hf. simpl. rewrite Hb. simpl.
  split; intro Hs; rewrite Hs; simpl; repeat split.
Qed.

Lemma updateUserProfile_writes_through_mock :
  (success (UserService.mockResponses
              (Account.update_request TokenStore.sample_jwt
                 Account.renamed)
              1700000000800) = true ->
   fst (UserService.updateUserProfile UserService.mockBackend
          Account.renaming
          (Profile.remembering UserService.mock_profile 1700000000000))
   = Ok (reply_with_user (Some "Profile updated successfully")
           (user (UserService.mockResponses
                    (Account.update_request TokenStore.sample_jwt
                       Account.renamed)
                    1700000000800)) false)
   /\ localStorage (snd (UserService.updateUserProfile UserService.mockBackend
                           Account.renaming
                           (Profile.remembering UserService.mock_profile
                              1700000000000)))
      = AuthService.set_user_data
          (Profile.stored_user
             (user (UserService.mockResponses
                      (Account.update_request TokenStore.sample_jwt
                         Account.renamed)
                      1700000000800)))
          (localStorage (Profile.remembering UserService.mock_profile
                           1700000000000))
   /\ Page.dispatched (snd (UserService.updateUserProfile
                              UserService.mockBackend
                              Account.renaming
                              (Profile.remembering UserService.mock_profile
                                 1700000000000)))
      = profileUpdated
          (user (UserService.mockResponses
                   (Account.update_request TokenStore.sample_jwt
                      Account.renamed)
                   1700000000800))
          :: Page.dispatched (Profile.remembering UserService.mock_profile
                                1700000000000))
  /\ (success (UserService.mockResponses
                 (Account.update_request TokenStore.sample_jwt
                    Account.renamed)
                 1700000000800) = false ->
      fst (UserService.updateUserProfile UserService.mockBackend
             Account.renaming
             (Profile.remembering UserService.mock_profile 1700000000000))
      = Throw (Error (or_else
                        (message (UserService.mockResponses
                                    (Account.update_request TokenStore.sample_jwt
                                       Account.renamed)
                                    1700000000800))
                        "Failed to update profile"))
      /\ localStorage (snd (UserService.updateUserProfile
                              UserService.mockBackend
                              Account.renaming
                              (Profile.remembering UserService.mock_profile
                                 1700000000000)))
         = localStorage (Profile.remembering UserService.mock_profile
                           1700000000000)
      /\ Page.dispatched (snd (UserService.updateUserProfile
                                 UserService.mockBackend
                                 Account.renaming
                                 (Profile.remembering UserService.mock_profile
                                    1700000000000)))
         = Page.dispatched (Profile.remembering UserService.mock_profile
                              1700000000000)).
Proof.
  apply (@updateUserProfile_writes_through UserService.mockBackend
           (Profile.remembering UserService.mock_profile 1700000000000)
           TokenStore.sample_jwt
           Account.renaming
           Account.renamed
           (UserService.mockResponses
              (Account.update_request TokenStore.sample_jwt
                 Account.renamed)
              1700000000800)
           1700000000800%Z).
  - reflexivity.
  - discriminate.
  - vm_compute. reflexivity.
  - reflexivity.
Defined.

(** X17. [updateProfilePicture] refuses before any request what is not
    an image of at most five megabytes: no file and a file whose type
    does not start with [image/] give the first message, an image above
    the limit the second; a picture of exactly the limit is accepted.
    In each refusal nothing is sent and no store changes. *)
Theorem updateProfilePicture_checks_the_file
  (backend : Backend) (w : World) :
  JsString.falsy (auth_token (localStorage w)) = false ->
  UserService.updateProfilePicture backend None w
  = (Throw (Error "Please select a valid image file"),
     Account.refused_input "Update profile picture error:" w)
  /\ (forall file,
        JsString.startsWith "image/" (file_type file) = false ->
        UserService.updateProfilePicture backend (Some file) w
        = (Throw (Error "Please select a valid image file"),
           Account.refused_input "Update profile picture error:" w))
  /\ (forall file,
        JsString.startsWith "image/" (file_type file) = true ->
        (Account.max_size < file_size file)%Z ->
        UserService.updateProfilePicture backend (Some file) w
        = (Throw (Error "Image size must be less than 5MB"),
           Account.refused_input "Update profile picture error:" w))
  /\ (forall file,
        JsString.startsWith "image/" (file_type file) = true ->
        (file_size file <= Account.max_size)%Z ->
        exists token,
          auth_token (localStorage w) = Some token
          /\ Page.fetches (snd (UserService.updateProfilePicture backend
                                  (Some file) w))
             = Account.avatar_request token file :: Page.fetches w).
Proof.
  intro Hf. unfold Account.refused_input, Account.max_size.
  repeat split.
  - unfold UserService.updateProfilePicture, try_catch, bind,
      AuthService.getToken.
    rewrite Hf. reflexivity.
  - intros file Ht.
    unfold UserService.updateProfilePicture, try_catch, bind,
      AuthService.getToken.
    rewrite Hf, Ht. reflexivity.
  - intros file Ht Hsz. apply Z.ltb_lt in Hsz. simpl in Hsz.
    unfold UserService.updateProfilePicture, try_catch, bind,
      AuthService.getToken.
    rewrite Hf, Ht. simpl. rewrite Hsz. reflexivity.
  - intros file Ht Hsz. apply Z.ltb_ge in Hsz. simpl in Hsz.
    destruct w as [[tk rt ud ad] ss hr nw lg]. simpl in Hf.
    destruct tk as [token | ]; [ | discriminate]. simpl in Hf.
    exists token.
    split; [reflexivity | ].
    unfold UserService.updateProfilePicture, try_catch, bind,
      AuthService.getToken, UserService.authenticatedRequest, bind,
      AuthService.getToken, await, AuthService.getCurrentUser,
      Account.avatar_request, Page.fetches.
    simpl. rewrite Hf, Ht. simpl. rewrite Hsz. simpl. rewrite Hf. simpl.
    destruct (backend _ nw) as [[resp | e] t0]; simpl; [ | reflexivity].
    destruct (success resp); simpl; [ | reflexivity].
    destruct ud as [[u | ] | ]; reflexivity.
Qed.

Lemma updateProfilePicture_checks_the_file_when_signed_in :
  UserService.updateProfilePicture UserService.mockBackend None
    (Scenario.signed_in 1700000000000)
  = (Throw (Error "Please select a valid image file"),
     Account.refused_input "Update profile picture error:"
       (Scenario.signed_in 1700000000000))
  /\ (forall file,
        JsString.startsWith "image/" (file_type file) = false ->
        UserService.updateProfilePicture UserService.mockBackend (Some file)
          (Scenario.signed_in 1700000000000)
        = (Throw (Error "Please select a valid image file"),
           Account.refused_input "Update profile picture error:"
             (Scenario.signed_in 1700000000000)))
  /\ (forall file,
        JsString.startsWith "image/" (file_type file) = true ->
        (Account.max_size < file_size file)%Z ->
        UserService.updateProfilePicture UserService.mockBackend (Some file)
          (Scenario.signed_in 1700000000000)
        = (Throw (Error "Image size must be less than 5MB"),
           Account.refused_input "Update profile picture error:"
             (Scenario.signed_in 1700000000000)))
  /\ (forall file,
        JsString.startsWith "image/" (file_type file) = true ->
        (file_size file <= Account.max_size)%Z ->
        exists token,
          auth_token (localStorage (Scenario.signed_in 1700000000000))
          = Some token
          /\ Page.fetches (snd (UserService.updateProfilePicture
                                  UserService.mockBackend (Some file)
                                  (Scenario.signed_in 1700000000000)))
             = Account.avatar_request token file
                 :: Page.fetches (Scenario.signed_in 1700000000000)).
Proof.
  apply (@updateProfilePicture_checks_the_file UserService.mockBackend
           (Scenario.signed_in 1700000000000)).
  reflexivity.
Defined.

(** X18. [updateProfilePicture] for an accepted picture, once the
    backend has confirmed: when a user record is cached, only its avatar
    changes, to the address of the answer, and the call resolves with
    that address; when none is cached the call throws a [TypeError], and
    when the cached text does not parse a [SyntaxError], in both cases
    after the upload and with local storage as it was. *)
Theorem updateProfilePicture_changes_only_the_avatar
  (backend : Backend) (w : World) (tok : string) (file : ImageFile)
  (resp : Response) (t0 : Z) :
  auth_token (localStorage w) = Some tok ->
  tok <> "" ->
  JsString.startsWith "image/" (file_type file) = true ->
  (file_size file <= Account.max_size)%Z ->
  backend (Account.avatar_request tok file) (now w) = (Resolved resp, t0) ->
  success resp = true ->
  (forall u,
      user_data (localStorage w) = Some (Json u) ->
      fst (UserService.updateProfilePicture backend (Some file) w)
      = Ok (Account.reply_with_avatar (avatarUrl resp))
      /\ localStorage (snd (UserService.updateProfilePicture backend
                              (Some file) w))
         = AuthService.set_user_data
             (Json (User.set_avatar (avatarUrl resp) u)) (localStorage w))
  /\ (user_data (localStorage w) = None ->
      fst (UserService.updateProfilePicture backend (Some file) w)
      = Throw TypeError
      /\ localStorage (snd (UserService.updateProfilePicture backend
                              (Some file) w))
         = localStorage w)
  /\ (user_data (localStorage w) = Some Garbage ->
      fst (UserService.updateProfilePicture backend (Some file) w)
      = Throw SyntaxError
      /\ localStorage (snd (UserService.updateProfilePicture backend
                              (Some file) w))
         = localStorage w).
Proof.
  intros Htok Hne Ht Hsz Hb Hs. apply Z.ltb_ge in Hsz.
  unfold Account.max_size in Hsz. simpl in Hsz.
  destruct w as [[tk rt ud ad] ss hr nw lg]. simpl in *. subst tk.
  pose proof (SessionFacts.falsy_some Hne) as Hf. simpl in Hf.
  unfold Account.avatar_request in Hb.
  unfold UserService.updateProfilePicture, try_catch, bind,
    AuthService.getToken, UserService.authenticatedRequest, bind,
    AuthService.getToken, await, AuthService.getCurrentUser.
  simpl. rewrite Hf, Ht. simpl. rewrite Hsz. simpl. rewrite Hf. simpl.
  rewrite Hb. simpl. rewrite Hs. simpl.
  repeat split; try (intros u ->; reflexivity); subst ud; reflexivity.
Qed.

Lemma updateProfilePicture_changes_the_avatar_of_john :
  (forall u,
      user_data (localStorage (Scenario.signed_in 1700000000000))
      = Some (Json u) ->
      fst (UserService.updateProfilePicture Account.hosting
             (Some Account.portrait) (Scenario.signed_in 1700000000000))
      = Ok (Account.reply_with_avatar (Some "https://cdn.example.com/a.png"))
      /\ localStorage (snd (UserService.updateProfilePicture Account.hosting
                              (Some Account.portrait)
                              (Scenario.signed_in 1700000000000)))
         = AuthService.set_user_data
             (Json (User.set_avatar (Some "https://cdn.example.com/a.png") u))
             (localStorage (Scenario.signed_in 1700000000000)))
  /\ (user_data (localStorage (Scenario.signed_in 1700000000000)) = None ->
      fst (UserService.updateProfilePicture Account.hosting
             (Some Account.portrait) (Scenario.signed_in 1700000000000))
      = Throw TypeError
      /\ localStorage (snd (UserService.updateProfilePicture Account.hosting
                              (Some Account.portrait)
                              (Scenario.signed_in 1700000000000)))
         = localStorage (Scenario.signed_in 1700000000000))
  /\ (user_data (localStorage (Scenario.signed_in 1700000000000))
      = Some Garbage ->
      fst (UserService.updateProfilePicture Account.hosting
             (Some Account.portrait) (Scenario.signed_in 1700000000000))
      = Throw SyntaxError
      /\ localStorage (snd (UserService.updateProfilePicture Account.hosting
                              (Some Account.portrait)
                              (Scenario.signed_in 1700000000000)))
         = localStorage (Scenario.signed_in 1700000000000)).
Proof.
  eapply (@updateProfilePicture_changes_only_the_avatar Account.hosting
            (Scenario.signed_in 1700000000000) TokenStore.sample_jwt
            Account.portrait
            {| success := true; message := None; userId := None;
               token := None; refreshToken := None; user := None;
               avatarUrl := Some "https://cdn.example.com/a.png";
               address := None; addresses := None |} 1700000000000%Z).
  - reflexivity.
  - discriminate.
  - reflexivity.
  - discriminate.
  - reflexivity.
  - reflexivity.
Defined.

(** X19. [deleteAccount] with an access token stored.  An empty password
    is refused before any request.  Otherwise, once the backend has
    answered: an unsuccessful answer is thrown and both stores stay as
    they are; a successful one is followed by a logout request that
    carries the token, after which no token and no user record are
    stored.  When the logout request is answered the call resolves,
    [userLoggedOut] is dispatched and its listener removes the cached
    addresses; when it is rejected the call throws the rejection
    although the account is deleted, nothing is dispatched and the
    cached addresses stay in local storage. *)
Theorem deleteAccount_ends_the_session
  (backend auth_backend : Backend) (w : World) (tok : string) :
  auth_token (localStorage w) = Some tok ->
  tok <> "" ->
  UserService.deleteAccount backend auth_backend "" w
  = (Throw (Error "Password is required to delete account"),
     Account.refused_input "Delete account error:" w)
  /\ forall password resp t0,
       password <> "" ->
       backend (Account.delete_request tok password) (now w)
       = (Resolved resp, t0) ->
       (success resp = false ->
        fst (UserService.deleteAccount backend auth_backend password w)
        = Throw (Error (or_else (message resp) "Failed to delete account"))
        /\ localStorage
             (snd (UserService.deleteAccount backend auth_backend password w))
           = localStorage w
        /\ sessionStorage
             (snd (UserService.deleteAccount backend auth_backend password w))
           = sessionStorage w)
       /\ (success resp = true ->
           Page.signed_out
             (snd (UserService.deleteAccount backend auth_backend password w))
           /\ Page.fetches
                (snd (UserService.deleteAccount backend auth_backend password w))
              = Account.logout_request tok
                  :: Account.delete_request tok password :: Page.fetches w
           /\ (forall r t1,
                 auth_backend (Account.logout_request tok) t0
                 = (Resolved r, t1) ->
                 fst (UserService.deleteAccount backend auth_backend password w)
                 = Ok (reply true (Some "Account deleted successfully"))
                 /\ Page.dispatched
                      (snd (UserService.deleteAccount backend auth_backend
                              password w))
                    = userLoggedOut :: Page.dispatched w
                 /\ user_addresses
                      (localStorage
                         (snd (UserService.deleteAccount backend auth_backend
                                 password w)))
                    = None)
           /\ (forall e t1,
                 auth_backend (Account.logout_request tok) t0
                 = (Rejected e, t1) ->
                 fst (UserService.deleteAccount backend auth_backend password w)
                 = Throw e
                 /\ Page.dispatched
                      (snd (UserService.deleteAccount backend auth_backend
                              password w))
                    = Page.dispatched w
                 /\ user_addresses
                      (localStorage
                         (snd (UserService.deleteAccount backend auth_backend
                                 password w)))
                    = user_addresses (localStorage w))).
Proof.
  intros Htok Hne.
  destruct w as [[tk rt ud ad] ss hr nw lg]. simpl in *. subst tk.
  pose proof (SessionFacts.falsy_some Hne) as Hf. simpl in Hf.
  split.
  - unfold UserService.deleteAccount, try_catch, bind, AuthService.getToken.
    simpl. rewrite Hf. reflexivity.
  - intros password resp t0 Hp Hb.
    pose proof (ArrayFacts.eqb_empty Hp) as Hi.
    unfold Account.delete_request in *. unfold Account.logout_request in *.
    unfold AuthService.post in *.
    unfold UserService.deleteAccount, AuthService.logoutUser, try_catch, bind,
      AuthService.getToken, UserService.authenticatedRequest, bind,
      AuthService.getToken, await, AuthService.clearAuthData, bind,
      Page.signed_out, Page.fetches, Page.dispatched.
    simpl. rewrite Hf, Hi. simpl. rewrite Hf. simpl. rewrite Hb. simpl.
    split; intro Hs; rewrite Hs; simpl; [repeat split | ].
    rewrite Hf. unfold AuthService.post. simpl.
    destruct (auth_backend _ t0) as [[r | e] t1] eqn:Ho; simpl;
      repeat match goal with |- _ /\ _ => split end;
      try reflexivity; intros x t2 Hx; try discriminate;
      try (injection Hx as -> _); repeat split.
Qed.

Lemma deleteAccount_ends_the_mock_session :
  UserService.deleteAccount UserService.mockBackend AuthService.mockApiCall ""
    (Scenario.signed_in 1700000000000)
  = (Throw (Error "Password is required to delete account"),
     Account.refused_input "Delete account error:"
       (Scenario.signed_in 1700000000000))
  /\ forall password resp t0,
       password <> ""%string ->
       UserService.mockBackend
         (Account.delete_request TokenStore.sample_jwt password)
         (now (Scenario.signed_in 1700000000000))
       = (Resolved resp, t0) ->
       (success resp = false ->
        fst (UserService.deleteAccount UserService.mockBackend
               AuthService.mockApiCall password
               (Scenario.signed_in 1700000000000))
        = Throw (Error (or_else (message resp) "Failed to delete account"))
        /\ localStorage
             (snd (UserService.deleteAccount UserService.mockBackend
                     AuthService.mockApiCall password
                     (Scenario.signed_in 1700000000000)))
           = localStorage (Scenario.signed_in 1700000000000)
        /\ sessionStorage
             (snd (UserService.deleteAccount UserService.mockBackend
                     AuthService.mockApiCall password
                     (Scenario.signed_in 1700000000000)))
           = sessionStorage (Scenario.signed_in 1700000000000))
       /\ (success resp = true ->
           Page.signed_out
             (snd (UserService.deleteAccount UserService.mockBackend
                     AuthService.mockApiCall password
                     (Scenario.signed_in 1700000000000)))
           /\ Page.fetches
                (snd (UserService.deleteAccount UserService.mockBackend
                        AuthService.mockApiCall password
                        (Scenario.signed_in 1700000000000)))
              = Account.logout_request TokenStore.sample_jwt
                  :: Account.delete_request TokenStore.sample_jwt password
                  :: Page.fetches (Scenario.signed_in 1700000000000)
           /\ (forall r t1,
                 AuthService.mockApiCall
                   (Account.logout_request TokenStore.sample_jwt) t0
                 = (Resolved r, t1) ->
                 fst (UserService.deleteAccount UserService.mockBackend
                        AuthService.mockApiCall password
                        (Scenario.signed_in 1700000000000))
                 = Ok (reply true (Some "Account deleted successfully"))
                 /\ Page.dispatched
                      (snd (UserService.deleteAccount UserService.mockBackend
                              AuthService.mockApiCall password
                              (Scenario.signed_in 1700000000000)))
                    = userLoggedOut
                        :: Page.dispatched (Scenario.signed_in 1700000000000)
                 /\ user_addresses
                      (localStorage
                         (snd (UserService.deleteAccount UserService.mockBackend
                                 AuthService.mockApiCall password
                                 (Scenario.signed_in 1700000000000))))
                    = None)
           /\ (forall e t1,
                 AuthService.mockApiCall
                   (Account.logout_request TokenStore.sample_jwt) t0
                 = (Rejected e, t1) ->
                 fst (UserService.deleteAccount UserService.mockBackend
                        AuthService.mockApiCall password
                        (Scenario.signed_in 1700000000000))
                 = Throw e
                 /\ Page.dispatched
                      (snd (UserService.deleteAccount UserService.mockBackend
                              AuthService.mockApiCall password
                              (Scenario.signed_in 1700000000000)))
                    = Page.dispatched (Scenario.signed_in 1700000000000)
                 /\ user_addresses
                      (localStorage
                         (snd (UserService.deleteAccount UserService.mockBackend
                                 AuthService.mockApiCall password
                                 (Scenario.signed_in 1700000000000))))
                    = user_addresses
                        (localStorage (Scenario.signed_in 1700000000000)))).
Proof.
  apply (@deleteAccount_ends_the_session UserService.mockBackend
           AuthService.mockApiCall (Scenario.signed_in 1700000000000)
           TokenStore.sample_jwt).
  - reflexivity.
  - discriminate.
Defined.

(** The account of a page with cached addresses deleted on the
    shipped backend, the logout answered and not: the addresses are
    removed in the first case and kept in the second. *)
Lemma deleteAccount_and_the_cached_addresses :
  fst (UserService.deleteAccount UserService.mockBackend Scenario.issuing
         "SecurePass123"
         (Cache.caching UserService.mock_addresses 1700000000000))
  = Ok (reply true (Some "Account deleted successfully"))
  /\ user_addresses
       (localStorage
          (snd (UserService.deleteAccount UserService.mockBackend
                  Scenario.issuing "SecurePass123"
                  (Cache.caching UserService.mock_addresses 1700000000000))))
     = None
  /\ fst (UserService.deleteAccount UserService.mockBackend
            Scenario.unreachable "SecurePass123"
            (Cache.caching UserService.mock_addresses 1700000000000))
     = Throw (Error "Failed to fetch")
  /\ user_addresses
       (localStorage
          (snd (UserService.deleteAccount UserService.mockBackend
                  Scenario.unreachable "SecurePass123"
                  (Cache.caching UserService.mock_addresses 1700000000000))))
     = Some (Json UserService.mock_addresses).
Proof. repeat split; reflexivity. Qed.

(** * Further properties of the session manager *)

(** X20. [refreshToken] once the backend has accepted the stored refresh
    token: the access token of the answer is stored, as the text
    [undefined] when the answer carries none; the refresh token is
    replaced only when the answer carries a non-empty one; the user
    record, the cached addresses, session storage and the location stay
    as they are; and the call resolves with the token of the answer. *)
Theorem refreshToken_renews
  (backend : Backend) (w : World) (stored : string) (resp : Response) (t0 : Z) :
  refresh_token (localStorage w) = Some stored ->
  stored <> "" ->
  backend (Scenario.refresh_request stored) (now w) = (Resolved resp, t0) ->
  success resp = true ->
  fst (AuthService.refreshToken backend w)
  = Ok (Session.reply_with_token (token resp))
  /\ localStorage (snd (AuthService.refreshToken backend w))
     = {| auth_token := Some (AuthService.stored_string (token resp));
          refresh_token :=
            Scenario.kept_refresh_token (refreshToken resp) (Some stored);
          user_data := user_data (localStorage w);
          user_addresses := user_addresses (localStorage w) |}
  /\ sessionStorage (snd (AuthService.refreshToken backend w)) = sessionStorage w
  /\ href (snd (AuthService.refreshToken backend w)) = href w
  /\ Page.fetches (snd (AuthService.refreshToken backend w))
     = Scenario.refresh_request stored :: Page.fetches w.
Proof.
  intros Hst Hne Hb Hs.
  destruct w as [[tk rt ud ad] ss hr nw lg]. simpl in *. subst rt.
  pose proof (SessionFacts.falsy_some Hne) as Hf. simpl in Hf.
  unfold Scenario.refresh_request, AuthService.post in *.
  unfold AuthService.refreshToken, try_catch, bind,
    AuthService.getRefreshToken, await, AuthService.setTokens, bind,
    Scenario.kept_refresh_token, Page.fetches, AuthService.post.
  simpl. rewrite Hf. simpl. rewrite Hb. simpl. rewrite Hs. simpl.
  destruct (JsString.falsy (refreshToken resp)) eqn:Hr; simpl.
  - repeat split.
  - repeat split. destruct (refreshToken resp) as [s | ]; [ | discriminate].
    reflexivity.
Qed.

Lemma refreshToken_renews_on_the_mock :
  fst (AuthService.refreshToken AuthService.mockApiCall
         (Scenario.signed_in 1700000000000))
  = Ok (Session.reply_with_token (Some "new_mock_jwt_token_1700000001000"))
  /\ localStorage (snd (AuthService.refreshToken AuthService.mockApiCall
                          (Scenario.signed_in 1700000000000)))
     = {| auth_token :=
            Some (AuthService.stored_string
                    (Some "new_mock_jwt_token_1700000001000"));
          refresh_token :=
            Scenario.kept_refresh_token
              (Some "new_mock_refresh_token_1700000001000")
              (Some "refresh_1");
          user_data := user_data (localStorage (Scenario.signed_in 1700000000000));
          user_addresses :=
            user_addresses (localStorage (Scenario.signed_in 1700000000000)) |}
  /\ sessionStorage (snd (AuthService.refreshToken AuthService.mockApiCall
                            (Scenario.signed_in 1700000000000)))
     = sessionStorage (Scenario.signed_in 1700000000000)
  /\ href (snd (AuthService.refreshToken AuthService.mockApiCall
                  (Scenario.signed_in 1700000000000)))
     = href (Scenario.signed_in 1700000000000)
  /\ Page.fetches (snd (AuthService.refreshToken AuthService.mockApiCall
                          (Scenario.signed_in 1700000000000)))
     = Scenario.refresh_request "refresh_1"
         :: Page.fetches (Scenario.signed_in 1700000000000).
Proof.
  eapply (@refreshToken_renews AuthService.mockApiCall
            (Scenario.signed_in 1700000000000) "refresh_1"
            {| success := true; message := None; userId := None;
               token := Some "new_mock_jwt_token_1700000001000";
               refreshToken := Some "new_mock_refresh_token_1700000001000";
               user := None; avatarUrl := None; address := None;
               addresses := None |}
            1700000001000%Z).
  - reflexivity.
  - discriminate.
  - vm_compute. reflexivity.
  - reflexivity.
Defined.

(** X21. [refreshToken] with no refresh token stored, or an empty one:
    nothing is sent, the call throws, and the session is ended all the
    same: the access token and the user record are removed and the
    location becomes the login page. *)
Theorem refreshToken_without_refresh_token
  (backend : Backend) (w : World) :
  JsString.falsy (refresh_token (localStorage w)) = true ->
  fst (AuthService.refreshToken backend w)
  = Throw (Error "No refresh token available")
  /\ Page.signed_out (snd (AuthService.refreshToken backend w))
  /\ user_addresses (localStorage (snd (AuthService.refreshToken backend w)))
     = user_addresses (localStorage w)
  /\ href (snd (AuthService.refreshToken backend w)) = "/login.html"
  /\ Page.fetches (snd (AuthService.refreshToken backend w)) = Page.fetches w
  /\ Page.dispatched (snd (AuthService.refreshToken backend w))
     = Page.dispatched w.
Proof.
  intro Hf.
  unfold AuthService.refreshToken, try_catch, bind, AuthService.getRefreshToken.
  rewrite Hf. unfold Page.signed_out. simpl. repeat split.
Qed.

Lemma refreshToken_without_refresh_token_signs_out :
  fst (AuthService.refreshToken AuthService.mockApiCall
         (Session.without_refresh_token 1700000000000))
  = Throw (Error "No refresh token available")
  /\ Page.signed_out (snd (AuthService.refreshToken AuthService.mockApiCall
                             (Session.without_refresh_token 1700000000000)))
  /\ user_addresses
       (localStorage (snd (AuthService.refreshToken AuthService.mockApiCall
                             (Session.without_refresh_token 1700000000000))))
     = user_addresses (localStorage (Session.without_refresh_token 1700000000000))
  /\ href (snd (AuthService.refreshToken AuthService.mockApiCall
                  (Session.without_refresh_token 1700000000000)))
     = "/login.html"%string
  /\ Page.fetches (snd (AuthService.refreshToken AuthService.mockApiCall
                          (Session.without_refresh_token 1700000000000)))
     = Page.fetches (Session.without_refresh_token 1700000000000)
  /\ Page.dispatched (snd (AuthService.refreshToken AuthService.mockApiCall
                             (Session.without_refresh_token 1700000000000)))
     = Page.dispatched (Session.without_refresh_token 1700000000000).
Proof.
  apply (@refreshToken_without_refresh_token AuthService.mockApiCall
           (Session.without_refresh_token 1700000000000)).
  reflexivity.
Defined.

(** * Further properties of the validators *)

Module ShapeFacts.

Import JsString Regex RegexFacts.

Lemma lang_times_cls (A : Type) (n : nat) (p : A -> bool) (l : list A) :
  lang (times n (Cls p)) l <-> length l = n /\ Forall (fun c => p c = true) l.
Proof.
  revert l. induction n as [ | n IH]; intro l; simpl; split.
  - intro H. inv H. now split.
  - intros [Hl _]. apply length_zero_iff_nil in Hl. subst. constructor.
  - intro H. apply seq_inv in H as (u & v & -> & Hu & Hv). inv Hu.
    apply IH in Hv as [Hv1 Hv2]. simpl. split; [now rewrite Hv1 | ].
    now constructor.
  - intros [Hl Hall]. destruct Hall as [ | c l Hc Hall]; [discriminate | ].
    simpl in Hl. injection Hl as Hl.
    change (c :: l) with ([c] ++ l).
    constructor; [now constructor | apply IH; now split].
Qed.

Lemma lang_opt (A : Type) (r : t A) (l : list A) :
  lang (opt r) l <-> l = [] \/ lang r l.
Proof.
  unfold opt. split.
  - intro H. inv H; [ | now right].
    match goal with E : lang Eps _ |- _ => inv E end. now left.
  - intros [-> | H]; [apply L_alt_l; constructor | now apply L_alt_r].
Qed.

Lemma lang_upto_cls (A : Type) (m : nat) (p : A -> bool) (l : list A) :
  lang (upto m (Cls p)) l <-> length l <= m /\ Forall (fun c => p c = true) l.
Proof.
  revert l. induction m as [ | m IH]; intro l; simpl upto; split.
  - intro H. inv H. split; [simpl; lia | constructor].
  - intros [Hl _]. destruct l; [constructor | simpl in Hl; lia].
  - intro H. apply lang_opt in H as [-> | H].
    + split; [simpl; lia | constructor].
    + apply seq_inv in H as (u & v & -> & Hu & Hv). inv Hu.
      apply IH in Hv as [Hv1 Hv2]. simpl. split; [lia | now constructor].
  - intros [Hl Hall]. apply lang_opt.
    destruct Hall as [ | c l Hc Hall]; [now left | right].
    simpl in Hl. change (c :: l) with ([c] ++ l).
    constructor; [now constructor | apply IH; split; [lia | assumption]].
Qed.

Lemma lang_between_cls (A : Type) (n m : nat) (p : A -> bool) (l : list A) :
  n <= m ->
  lang (between n m (Cls p)) l
  <-> (n <= length l <= m) /\ Forall (fun c => p c = true) l.
Proof.
  intro Hnm. unfold between. split.
  - intro H. apply seq_inv in H as (u & v & -> & Hu & Hv).
    apply lang_times_cls in Hu as [Hu1 Hu2].
    apply lang_upto_cls in Hv as [Hv1 Hv2].
    rewrite length_app, Forall_app. repeat split; try assumption; lia.
  - intros [[H1 H2] Hall].
    rewrite <- (firstn_skipn n l) in Hall |- *.
    apply Forall_app in Hall as [Ha Hb].
    constructor.
    + apply lang_times_cls. split; [ | assumption].
      rewrite length_firstn. lia.
    + apply lang_upto_cls. split; [ | assumption].
      rewrite length_skipn. lia.
Qed.

Lemma lang_anything (A : Type) (l : list A) : lang anything l.
Proof.
  unfold anything. apply PatternFacts.lang_star_cls.
  induction l; now constructor.
Qed.

Lemma lang_lookahead_intro (A : Type) (p q : A -> bool) (l : list A) (c : A) :
  Forall (fun x => p x = true) l ->
  In c l -> q c = true ->
  lang (lookahead (Seq (Star (Cls p)) (Cls q))) l.
Proof.
  intros Hall Hin Hq. apply in_split in Hin as (u & v & ->).
  apply Forall_app in Hall as [Hu _].
  unfold lookahead.
  change (u ++ c :: v) with (u ++ [c] ++ v). rewrite app_assoc.
  constructor; [ | apply lang_anything].
  constructor; [now apply PatternFacts.lang_star_cls | now constructor].
Qed.

Lemma lang_at_least_cls (A : Type) (n : nat) (p : A -> bool) (l : list A) :
  lang (at_least n (Cls p)) l
  <-> n <= length l /\ Forall (fun c => p c = true) l.
Proof.
  unfold at_least. split.
  - intro H. apply seq_inv in H as (u & v & -> & Hu & Hv).
    apply lang_times_cls in Hu as [Hu1 Hu2].
    apply PatternFacts.lang_star_cls in Hv.
    rewrite length_app, Forall_app. repeat split; try assumption; lia.
  - intros [Hl Hall].
    rewrite <- (firstn_skipn n l) in Hall |- *.
    apply Forall_app in Hall as [Ha Hb].
    constructor.
    + apply lang_times_cls. split; [ | assumption].
      rewrite length_firstn. lia.
    + now apply PatternFacts.lang_star_cls.
Qed.

Lemma zipRegex_lang (l : list ascii) :
  lang UserService.zipRegex l <-> Shape.zip_code l.
Proof.
  unfold UserService.zipRegex, Shape.zip_code, Shape.digits. split.
  - intro H. apply seq_inv in H as (ds & ext & -> & Hd & He).
    apply lang_between_cls in Hd as [Hlen Hall]; [ | lia].
    exists ds, ext. repeat split; try assumption; [lia | ].
    apply lang_opt in He as [-> | He]; [now left | right].
    apply seq_inv in He as (h & e & -> & Hh & He).
    apply PatternFacts.lang_chr in Hh. subst h.
    apply lang_times_cls in He as [He1 He2].
    exists e. now repeat split.
  - intros (ds & ext & -> & Hall & Hlen & Hext).
    constructor.
    + apply lang_between_cls; [lia | ]. split; [lia | assumption].
    + apply lang_opt. destruct Hext as [-> | (e & -> & He1 & He2)];
        [now left | right].
      change ("-"%char :: e) with (["-"%char] ++ e).
      constructor; [now apply PatternFacts.lang_chr | ].
      apply lang_times_cls. now split.
Qed.

Lemma passwordRegex_lang (l : list ascii) :
  lang AuthService.passwordRegex l
  <-> (8 <= length l
       /\ (exists c, In c l /\ is_upper c = true)
       /\ (exists c, In c l /\ is_lower c = true)
       /\ (exists c, In c l /\ is_digit c = true))
      /\ Shape.single_line l.
Proof.
  unfold AuthService.passwordRegex, Shape.single_line. split.
  - intro H. inv H. match goal with A : lang (And _ _) _ |- _ => inv A end.
    match goal with A : lang (And _ _) _ |- _ => inv A end.
    repeat match goal with
           | A : lang (lookahead _) _ |- _ =>
               apply PatternFacts.lang_lookahead_class in A
           | A : lang (at_least _ _) _ |- _ =>
               apply lang_at_least_cls in A as [? ?]
           end.
    now repeat split.
  - intros [(Hlen & (u & Hu1 & Hu2) & (lo & Hl1 & Hl2) & (d & Hd1 & Hd2)) Hall].
    constructor; [now apply lang_lookahead_intro with lo | ].
    constructor; [now apply lang_lookahead_intro with u | ].
    constructor; [now apply lang_lookahead_intro with d | ].
    apply lang_at_least_cls. now split.
Qed.

(** The pattern on all code units. *)
Lemma passwordRegex_units_lang (l : list N) :
  lang CodeUnit.passwordRegex l
  <-> (8 <= length l
       /\ (exists c, In c l /\ CodeUnit.is_upper c = true)
       /\ (exists c, In c l /\ CodeUnit.is_lower c = true)
       /\ (exists c, In c l /\ CodeUnit.is_digit c = true))
      /\ Forall (fun c => CodeUnit.is_dot c = true) l.
Proof.
  unfold CodeUnit.passwordRegex. split.
  - intro H. inv H. match goal with A : lang (And _ _) _ |- _ => inv A end.
    match goal with A : lang (And _ _) _ |- _ => inv A end.
    repeat match goal with
           | A : lang (lookahead _) _ |- _ =>
               apply PatternFacts.lang_lookahead_class in A
           | A : lang (at_least _ _) _ |- _ =>
               apply lang_at_least_cls in A as [? ?]
           end.
    now repeat split.
  - intros [(Hlen & (u & Hu1 & Hu2) & (lo & Hl1 & Hl2) & (d & Hd1 & Hd2)) Hall].
    constructor; [now apply lang_lookahead_intro with lo | ].
    constructor; [now apply lang_lookahead_intro with u | ].
    constructor; [now apply lang_lookahead_intro with d | ].
    apply lang_at_least_cls. now split.
Qed.

Lemma in_range_units (lo hi c : N) :
  CodeUnit.in_range lo hi c = true <-> (lo <= c <= hi)%N.
Proof.
  unfold CodeUnit.in_range. rewrite andb_true_iff, !N.leb_le. reflexivity.
Qed.

Lemma is_dot_units (c : N) :
  CodeUnit.is_dot c = true
  <-> c <> 10%N /\ c <> 13%N /\ c <> 8232%N /\ c <> 8233%N.
Proof.
  unfold CodeUnit.is_dot, CodeUnit.is_line_terminator.
  rewrite negb_true_iff, !orb_false_iff, !N.eqb_neq. tauto.
Qed.

Lemma validatePassword_units (units : list N) :
  CodeUnit.validatePassword units = true <-> Shape.strong_single_line units.
Proof.
  unfold CodeUnit.validatePassword, Shape.strong_single_line.
  rewrite RegexFacts.matches_lang, passwordRegex_units_lang.
  unfold CodeUnit.is_upper, CodeUnit.is_lower, CodeUnit.is_digit.
  split.
  - intros [(Hlen & (u & Hu1 & Hu2) & (lo & Hl1 & Hl2) & (d & Hd1 & Hd2)) Hall].
    apply in_range_units in Hu2, Hl2, Hd2.
    split; [exact Hlen | ].
    split; [now exists u | ]. split; [now exists lo | ].
    split; [now exists d | ].
    apply Forall_impl with (2 := Hall). intro c. apply is_dot_units.
  - intros (Hlen & (u & Hu1 & Hu2) & (lo & Hl1 & Hl2) & (d & Hd1 & Hd2) & Hall).
    apply in_range_units in Hu2, Hl2, Hd2.
    split.
    + split; [exact Hlen | ].
      split; [now exists u | ]. split; [now exists lo | now exists d].
    + apply Forall_impl with (2 := Hall). intro c. apply is_dot_units.
Qed.

(** Below 256 the classes on code units are the classes on characters. *)
Lemma is_dot_code (c : ascii) : CodeUnit.is_dot (code c) = is_dot c.
Proof.
  unfold CodeUnit.is_dot, CodeUnit.is_line_terminator, is_dot,
    is_line_terminator, code.
  pose proof (N_ascii_bounded c) as Hc.
  assert (E1 : (N_of_ascii c =? 8232)%N = false) by (apply N.eqb_neq; lia).
  assert (E2 : (N_of_ascii c =? 8233)%N = false) by (apply N.eqb_neq; lia).
  rewrite E1, E2, !orb_false_r. reflexivity.
Qed.

Lemma exists_code (p : N -> bool) (l : list ascii) :
  (exists n, In n (map code l) /\ p n = true)
  <-> exists c, In c l /\ p (code c) = true.
Proof.
  split.
  - intros (n & Hin & Hp). apply in_map_iff in Hin as (c & <- & Hc).
    now exists c.
  - intros (c & Hc & Hp). exists (code c). split; [now apply in_map | exact Hp].
Qed.

Lemma validatePassword_of_string (password : string) :
  AuthService.validatePassword password
  = CodeUnit.validatePassword (CodeUnit.of_string password).
Proof.
  apply Bool.eq_true_iff_eq.
  unfold AuthService.validatePassword, Regex.test, CodeUnit.validatePassword,
    CodeUnit.of_string.
  rewrite !RegexFacts.matches_lang, passwordRegex_lang,
    passwordRegex_units_lang.
  rewrite length_map, !exists_code, Forall_map. unfold Shape.single_line.
  split; intros [H Hall]; (split; [exact H | ]);
    apply Forall_impl with (2 := Hall); intros c Hc;
    [rewrite is_dot_code | rewrite <- is_dot_code]; exact Hc.
Qed.

End ShapeFacts.

(** X22. [validatePassword] on all code units accepts exactly the
    passwords of at least 8 code units with a letter of A-Z, a letter of
    a-z and a digit in which no code unit ends a line: a password that
    holds a line feed, a carriage return, U+2028 or U+2029 is refused
    whatever else it holds.  On a password whose code units are below
    256 it is the test that [registerUser] makes, which accepts exactly
    the strong passwords without a line feed or a carriage return. *)
Theorem validatePassword_accepts_single_line_strong_passwords :
  (forall units : list N,
      CodeUnit.validatePassword units = true <-> Shape.strong_single_line units)
  /\ (forall password : string,
        AuthService.validatePassword password
        = CodeUnit.validatePassword (CodeUnit.of_string password))
  /\ (forall password : string,
        AuthService.validatePassword password = true
        <-> Spec.strong_password password
            /\ Shape.single_line (JsString.chars password))
  /\ CodeUnit.validatePassword Shape.with_line_separator = false
  /\ CodeUnit.validatePassword (removelast Shape.with_line_separator) = true.
Proof.
  split; [ | split; [ | split; [ | split; reflexivity]]].
  - intro units. apply ShapeFacts.validatePassword_units.
  - intro password. apply ShapeFacts.validatePassword_of_string.
  - intro password.
    unfold AuthService.validatePassword, Regex.test, Spec.strong_password.
    rewrite RegexFacts.matches_lang, ShapeFacts.passwordRegex_lang.
    rewrite PatternFacts.length_chars. reflexivity.
Qed.

(** X23. The zip codes that [validateAddressData] lets through are
    exactly the texts of five or six digits, alone or followed by a
    hyphen and four digits. *)
Theorem zipRegex_accepts_five_or_six_digits (zipCode : string) :
  Regex.test UserService.zipRegex zipCode = true
  <-> Shape.zip_code (JsString.chars zipCode).
Proof.
  unfold Regex.test. rewrite RegexFacts.matches_lang.
  apply ShapeFacts.zipRegex_lang.
Qed.

Module TrimFacts.

Import JsString Regex RegexFacts.

Lemma of_chars_chars (s : string) : of_chars (chars s) = s.
Proof. apply string_of_list_ascii_of_string. Qed.

Lemma chars_of_chars (l : list ascii) : chars (of_chars l) = l.
Proof. apply list_ascii_of_string_of_list_ascii. Qed.

Lemma digit_not_space (c : ascii) : is_digit c = true -> is_space c = false.
Proof.
  destruct c as [[] [] [] [] [] [] [] []]; intro H;
    solve [reflexivity | discriminate H].
Qed.

(** Text that neither starts nor ends with white space is its own
    trimmed form. *)
Lemma trim_untouched (s : string) (c d : ascii) (r r' : list ascii) :
  chars s = c :: r -> is_space c = false ->
  chars s = r' ++ [d] -> is_space d = false ->
  trim s = s.
Proof.
  intros Hc Hsc Hd Hsd. unfold trim.
  rewrite Hc. simpl. rewrite Hsc. rewrite <- Hc, Hd.
  rewrite rev_app_distr. simpl. rewrite Hsd.
  change (d :: rev r') with (rev [d] ++ rev r').
  rewrite <- rev_app_distr, rev_involutive, <- Hd. apply of_chars_chars.
Qed.

Lemma trim_not_blank (v : option string) :
  UserService.blank v = false ->
  exists s, v = Some s /\ s <> "" /\ trim s <> "".
Proof.
  unfold UserService.blank. intro H. apply orb_false_iff in H as [H1 H2].
  destruct v as [s | ]; [ | discriminate]. simpl in *.
  exists s. repeat split.
  - now apply String.eqb_neq.
  - now apply String.eqb_neq.
Qed.

Lemma zip_code_ends (l : list ascii) :
  Shape.zip_code l ->
  exists c r r' d,
    l = c :: r /\ is_space c = false /\ l = r' ++ [d] /\ is_space d = false.
Proof.
  intros (ds & ext & -> & Hall & Hlen & Hext).
  assert (Hne : ds <> []) by (intros ->; simpl in Hlen; lia).
  destruct ds as [ | c ds]; [congruence | ].
  exists c, (ds ++ ext).
  assert (Hc : is_space c = false).
  { apply digit_not_space. now inv Hall. }
  destruct Hext as [-> | (e & -> & He1 & He2)].
  - destruct (exists_last Hne) as (r' & d & E). exists r', d.
    split; [reflexivity | ]. split; [assumption | ].
    split; [rewrite app_nil_r; exact E | ].
    apply digit_not_space. unfold Shape.digits in Hall. rewrite E in Hall.
    apply Forall_app in Hall as [_ Hd]. now inv Hd.
  - assert (He : e <> []) by (intros ->; discriminate).
    destruct (exists_last He) as (r' & d & E).
    exists ((c :: ds) ++ "-"%char :: r'), d.
    split; [reflexivity | ]. split; [assumption | ]. split.
    + rewrite E, <- app_assoc. reflexivity.
    + apply digit_not_space. unfold Shape.digits in He2. rewrite E in He2.
      apply Forall_app in He2 as [_ Hd]. now inv Hd.
Qed.

Lemma phone_ends (l : list ascii) :
  lang UserService.phoneRegex l ->
  exists c r r' d,
    l = c :: r /\ is_space c = false /\ l = r' ++ [d] /\ is_space d = false.
Proof.
  unfold UserService.phoneRegex. intro H.
  apply seq_inv in H as (o1 & l1 & -> & Ho1 & H).
  apply seq_inv in H as (o2 & l2 & -> & Ho2 & H).
  apply seq_inv in H as (d1 & l3 & -> & Hd1 & H).
  apply seq_inv in H as (o3 & l4 & -> & Ho3 & H).
  apply seq_inv in H as (o4 & l5 & -> & Ho4 & H).
  apply seq_inv in H as (o5 & l6 & -> & Ho5 & H).
  apply seq_inv in H as (d2 & l7 & -> & Hd2 & H).
  apply seq_inv in H as (o6 & l8 & -> & Ho6 & H).
  apply seq_inv in H as (o7 & d3 & -> & Ho7 & Hd3).
  apply ShapeFacts.lang_between_cls in Hd1 as [Hl1 Ha1]; [ | lia].
  apply ShapeFacts.lang_between_cls in Hd3 as [Hl3 Ha3]; [ | lia].
  assert (Hlast : exists r' d,
             o1 ++ o2 ++ d1 ++ o3 ++ o4 ++ o5 ++ d2 ++ o6 ++ o7 ++ d3
             = r' ++ [d] /\ is_space d = false).
  { assert (Hne : d3 <> []) by (intros ->; simpl in Hl3; lia).
    destruct (exists_last Hne) as (r' & d & E).
    exists (o1 ++ o2 ++ d1 ++ o3 ++ o4 ++ o5 ++ d2 ++ o6 ++ o7 ++ r'), d.
    split.
    - rewrite E. repeat rewrite <- app_assoc. reflexivity.
    - apply digit_not_space. rewrite E in Ha3.
      apply Forall_app in Ha3 as [_ Hd]. now inv Hd. }
  destruct Hlast as (r' & d & Elast & Hsd).
  assert (Hfirst : exists c r,
             o1 ++ o2 ++ d1 ++ o3 ++ o4 ++ o5 ++ d2 ++ o6 ++ o7 ++ d3 = c :: r
             /\ is_space c = false).
  { apply ShapeFacts.lang_opt in Ho1 as [-> | Ho1].
    - apply ShapeFacts.lang_opt in Ho2 as [-> | Ho2].
      + destruct d1 as [ | c d1]; [simpl in Hl1; lia | ].
        exists c. eexists. split; [reflexivity | ].
        apply digit_not_space. now inv Ha1.
      + apply PatternFacts.lang_chr in Ho2. subst o2.
        eexists. eexists. split; reflexivity.
    - apply PatternFacts.lang_chr in Ho1. subst o1.
      eexists. eexists. split; reflexivity. }
  destruct Hfirst as (c & r & Efirst & Hsc).
  exists c, r, r', d. now repeat split.
Qed.

End TrimFacts.

(** X24. What [validateAddressData] guarantees of an address it lets
    through: the name, the first address line, the city, the state and
    the country are not empty after trimming; the zip code is the text
    that was entered, unchanged, and has the shape of a zip code, so
    that a zip code with blanks around it is refused rather than
    trimmed; the phone number is the text that was entered and passes
    [validatePhone]; and the address type is not empty. *)
Theorem validateAddressData_guarantees (d : AddressData) (v : ValidAddress) :
  UserService.validateAddressData d = Ok v ->
  va_fullName v <> "" /\ va_addressLine1 v <> "" /\ va_city v <> ""
  /\ va_state v <> "" /\ va_country v <> ""
  /\ ad_zipCode d = Some (va_zipCode v)
  /\ Shape.zip_code (JsString.chars (va_zipCode v))
  /\ ad_phone d = Some (va_phone v)
  /\ UserService.validatePhone (va_phone v) = true
  /\ va_addressType v <> "".
Proof.
  unfold UserService.validateAddressData. simpl.
  destruct (UserService.blank (ad_fullName d)) eqn:B1; [discriminate | ].
  destruct (UserService.blank (ad_addressLine1 d)) eqn:B2; [discriminate | ].
  destruct (UserService.blank (ad_city d)) eqn:B3; [discriminate | ].
  destruct (UserService.blank (ad_state d)) eqn:B4; [discriminate | ].
  destruct (UserService.blank (ad_zipCode d)) eqn:B5; [discriminate | ].
  destruct (UserService.blank (ad_country d)) eqn:B6; [discriminate | ].
  destruct (UserService.blank (ad_phone d)) eqn:B7; [discriminate | ].
  apply TrimFacts.trim_not_blank in B1 as (s1 & E1 & _ & T1),
    B2 as (s2 & E2 & _ & T2), B3 as (s3 & E3 & _ & T3),
    B4 as (s4 & E4 & _ & T4), B5 as (s5 & E5 & _ & T5),
    B6 as (s6 & E6 & _ & T6), B7 as (s7 & E7 & _ & T7).
  rewrite E1, E2, E3, E4, E5, E6, E7. simpl.
  destruct (Regex.test UserService.zipRegex s5) eqn:Hz; [ | discriminate].
  destruct (UserService.validatePhone s7) eqn:Hp; [ | discriminate].
  simpl. intro H. injection H as <-. simpl.
  assert (Hzip : Shape.zip_code (JsString.chars s5)).
  { unfold Regex.test in Hz. apply RegexFacts.matches_lang in Hz.
    now apply ShapeFacts.zipRegex_lang. }
  assert (Tz : JsString.trim s5 = s5).
  { destruct (TrimFacts.zip_code_ends Hzip) as (c & r & r' & x & A & B & C & D).
    now apply TrimFacts.trim_untouched with c x r r'. }
  assert (Tp : JsString.trim s7 = s7).
  { unfold UserService.validatePhone, Regex.test in Hp.
    apply RegexFacts.matches_lang in Hp.
    destruct (TrimFacts.phone_ends Hp) as (c & r & r' & x & A & B & C & D).
    now apply TrimFacts.trim_untouched with c x r r'. }
  rewrite Tz, Tp. repeat split; try assumption.
  unfold or_else. destruct (ad_addressType d) as [a | ]; [ | discriminate].
  destruct (String.eqb a "") eqn:Ea; [discriminate | ].
  now apply String.eqb_neq.
Qed.

Lemma validateAddressData_guarantees_home :
  va_fullName Shape.home_sent <> ""%string
  /\ va_addressLine1 Shape.home_sent <> ""%string
  /\ va_city Shape.home_sent <> ""%string
  /\ va_state Shape.home_sent <> ""%string
  /\ va_country Shape.home_sent <> ""%string
  /\ ad_zipCode Cache.home_data = Some (va_zipCode Shape.home_sent)
  /\ Shape.zip_code (JsString.chars (va_zipCode Shape.home_sent))
  /\ ad_phone Cache.home_data = Some (va_phone Shape.home_sent)
  /\ UserService.validatePhone (va_phone Shape.home_sent) = true
  /\ va_addressType Shape.home_sent <> ""%string.
Proof.
  apply (@validateAddressData_guarantees Cache.home_data).
  vm_compute. reflexivity.
Defined.

(** * Properties of the state manager *)

Module ManagerFacts.

Import TokenStore.

Lemma soon_iff (e t : jsnum) :
  Double.lt (Double.sub e t) (Fin 600) = true
  <-> exceeds (Fin 600) (Double.sub e t).
Proof. apply (AuthFacts.gt_exceeds (Fin 600) (Double.sub e t)). Qed.

Lemma decoded (tok : string) (n : jsnum) :
  decodeExpiry tok = Ok n ->
  tok <> ""
  /\ exists payload exp,
       AuthService.parseJwt tok = Ok payload
       /\ JsNumber.member_exp payload = Ok exp
       /\ JsNumber.to_number exp = Ok n.
Proof.
  intro H. split.
  - intros ->. discriminate H.
  - unfold decodeExpiry in H.
    destruct (AuthService.parseJwt tok) as [payload | ] eqn:E1;
      [ | discriminate].
    cbn [result_bind] in H.
    destruct (JsNumber.member_exp payload) as [exp | ] eqn:E2;
      [ | discriminate].
    cbn [result_bind] in H. exists payload, exp. now repeat split.
Qed.

(** Outside the last ten minutes the manager reads the token, at most
    twice, and does nothing else. *)
Lemma outside_window_run (backend : Backend) (w : World) (tok : string)
  (e : jsnum) :
  auth_token (localStorage w) = Some tok ->
  decodeExpiry tok = Ok e ->
  ~ exceeds e (AuthService.seconds (now w))
  \/ ~ exceeds (Fin 600) (Double.sub e (AuthService.seconds (now w))) ->
  AuthStateManager.refreshTokenIfNeeded backend w
  = (Ok tt,
     if JsNumber.gt e (AuthService.seconds (now w))
     then observe (LocalGet AuthService.TOKEN_KEY)
            (observe (LocalGet AuthService.TOKEN_KEY) w)
     else observe (LocalGet AuthService.TOKEN_KEY) w).
Proof.
  intros Htok Hdec Hout.
  destruct (@decoded tok e Hdec) as (Hne & payload & exp & Hp & Hm & Hn).
  pose proof (SessionFacts.falsy_some Hne) as Hf. simpl in Hf.
  unfold AuthStateManager.refreshTokenIfNeeded. unfold bind at 1.
  rewrite AuthFacts.isAuthenticated_run.
  unfold verdict. rewrite Htok, Hdec.
  destruct (JsNumber.gt e (AuthService.seconds (now w))) eqn:Hgt;
    [ | reflexivity].
  cbn [negb].
  destruct Hout as [Hno | Hno];
    [exfalso; apply Hno; now apply AuthFacts.gt_exceeds | ].
  assert (Hs : Double.lt (Double.sub e (AuthService.seconds (now w))) (Fin 600)
               = false).
  { destruct (Double.lt _ _) eqn:E; [ | reflexivity].
    apply soon_iff in E. contradiction. }
  unfold try_catch, bind, AuthService.getToken, lift, read,
    AuthStateManager.timeUntilExpiry, ret.
  cbn [localStorage observe with_local]. rewrite Htok.
  cbn [JsString.falsy AuthService.stored_string]. rewrite Hf, Hp, Hm.
  cbn [result_bind]. rewrite Hn.
  cbn [result_bind now observe with_local]. rewrite Hs. reflexivity.
Qed.

(** With less than ten minutes left the manager reads the token twice
    and then runs [refreshToken]; a failure there is reported and
    followed by [logoutUser]. *)
Lemma in_window_run (backend : Backend) (w : World) (tok : string)
  (e : jsnum) :
  auth_token (localStorage w) = Some tok ->
  decodeExpiry tok = Ok e ->
  exceeds e (AuthService.seconds (now w)) ->
  exceeds (Fin 600) (Double.sub e (AuthService.seconds (now w))) ->
  AuthStateManager.refreshTokenIfNeeded backend w
  = match AuthService.refreshToken backend
            (observe (LocalGet AuthService.TOKEN_KEY)
               (observe (LocalGet AuthService.TOKEN_KEY) w)) with
    | (Ok _, w2) => (Ok tt, w2)
    | (Throw _, w2) =>
        match AuthService.logoutUser backend
                (observe (ConsoleError "Token refresh error:") w2) with
        | (Ok _, w3) => (Ok tt, w3)
        | (Throw x, w3) => (Throw x, w3)
        end
    end.
Proof.
  intros Htok Hdec Hlt Hsoon.
  destruct (@decoded tok e Hdec) as (Hne & payload & exp & Hp & Hm & Hn).
  pose proof (SessionFacts.falsy_some Hne) as Hf. simpl in Hf.
  apply AuthFacts.gt_exceeds in Hlt. apply soon_iff in Hsoon.
  unfold AuthStateManager.refreshTokenIfNeeded. unfold bind at 1.
  rewrite AuthFacts.isAuthenticated_run.
  unfold verdict. rewrite Htok, Hdec, Hlt. cbn [negb].
  set (R := AuthService.refreshToken backend).
  set (L := AuthService.logoutUser backend).
  unfold try_catch, bind, AuthService.getToken, lift, read,
    AuthStateManager.timeUntilExpiry, AuthStateManager.console_log, ret.
  cbn [localStorage observe with_local]. rewrite Htok.
  cbn [JsString.falsy AuthService.stored_string]. rewrite Hf, Hp, Hm.
  cbn [result_bind]. rewrite Hn.
  cbn [result_bind now observe with_local]. rewrite Hsoon.
  destruct (R _) as [[r | err] w2]; [reflexivity | ].
  unfold console_error, update.
  destruct (L _) as [[r | x] w3]; reflexivity.
Qed.

Lemma dyadic_window (expiry : Z) :
  (Double.dyadic (1024 * (expiry - 600) + 1) 10
   == inject_Z expiry - 600 + (1 # 1024))%Q.
Proof.
  unfold Double.dyadic. change (Z.to_pos (2 ^ 10)) with 1024%positive.
  unfold Qeq.
  cbn [Qnum Qden Qplus Qminus Qopp inject_Z Pos.mul Pos.add Z.opp]. lia.
Qed.

Lemma dyadic_whole (n : Z) : (Double.dyadic n 0 == inject_Z n)%Q.
Proof. reflexivity. Qed.

(** For an expiry in whole seconds the doubles place the clock in the
    last ten minutes exactly when the whole numbers do. *)
Lemma window_whole_seconds (tok : string) (payload : json) (expiry ms : Z)
  (e : jsnum) :
  AuthService.parseJwt tok = Ok payload ->
  whole_seconds payload expiry ->
  (0 <= expiry < 2 ^ 43)%Z ->
  (0 <= ms < 2 ^ 53)%Z ->
  decodeExpiry tok = Ok e ->
  exceeds e (AuthService.seconds ms)
  /\ exceeds (Fin 600) (Double.sub e (AuthService.seconds ms))
  <-> (1000 * expiry - 600000 < ms < 1000 * expiry)%Z.
Proof.
  intros Hp Hw He Hms Hdec.
  pose proof (@AuthFacts.whole_seconds_verdict tok payload expiry ms Hp Hw He
                Hms) as Hverdict.
  unfold verdict in Hverdict. rewrite Hdec in Hverdict.
  rewrite AuthFacts.gt_exceeds in Hverdict.
  destruct Hw as (before & q & after & -> & Hq & Hlast).
  assert (B43 : (2 ^ 53 = 1024 * 2 ^ 43)%Z) by reflexivity.
  destruct (@AuthFacts.to_number_whole q expiry Hq ltac:(lia))
    as (v & Hv & Ev).
  assert (He' : e = Fin v).
  { unfold decodeExpiry in Hdec. rewrite Hp in Hdec.
    cbn [result_bind JsNumber.member_exp] in Hdec.
    rewrite (AuthFacts.lookup_last_app _ _ Hlast) in Hdec.
    cbn [result_bind] in Hdec. congruence. }
  subst e.
  destruct (@AuthFacts.seconds_bounds ms ltac:(lia)) as (c & Hc & Hc0 & Hb).
  rewrite Hc in *. cbn [exceeds Double.sub] in *.
  split.
  - intros [Hlive Hsoon]. apply Hverdict in Hlive. split; [ | exact Hlive].
    apply Z.lt_nge. intro Hfar.
    destruct (Hb (expiry - 600)%Z 0%Z ltac:(lia) ltac:(lia)) as [Hbelow _].
    rewrite dyadic_whole in Hbelow.
    assert (Hle : (c <= inject_Z (expiry - 600))%Q).
    { apply Hbelow. unfold Qle, inject_Z. cbn [Qnum Qden]. lia. }
    assert (Ei : (inject_Z (expiry - 600) == inject_Z expiry - 600)%Q).
    { unfold Qeq.
      cbn [Qnum Qden Qplus Qminus Qopp inject_Z Pos.mul Pos.add Z.opp]. lia. }
    destruct (@DoubleFacts.round_above (v - c)%Q 600 0 ltac:(lia) ltac:(lia))
      as [Hinf | (r & Hr & Hge)].
    + change (Double.dyadic 600 0) with 600%Q. lra.
    + rewrite Hinf in Hsoon. exact Hsoon.
    + rewrite Hr in Hsoon. cbn [exceeds] in Hsoon.
      change (Double.dyadic 600 0) with 600%Q in Hge. lra.
  - intros [Hnear Hlive]. pose proof (proj2 Hverdict Hlive) as Hcv.
    split; [exact Hcv | ].
    destruct (Z_lt_le_dec expiry 600) as [Hsmall | Hbig].
    + destruct (@DoubleFacts.round_below (v - c)%Q expiry 0 ltac:(lia)
                  ltac:(lia)) as (r & Hr & _ & Hle).
      * lra.
      * rewrite dyadic_whole. lra.
      * rewrite Hr. cbn [exceeds]. rewrite dyadic_whole in Hle.
        assert (inject_Z expiry < 600)%Q.
        { unfold Qlt, inject_Z. cbn [Qnum Qden]. lia. }
        lra.
    + destruct (Hb (1024 * (expiry - 600) + 1)%Z 10%Z ltac:(lia) ltac:(lia))
        as [_ Habove].
      assert (Hlow : (inject_Z expiry - 600 + (1 # 1024) <= c)%Q).
      { rewrite <- dyadic_window. apply Habove.
        unfold Double.dyadic, Qle. cbn [Qnum Qden].
        change (Z.to_pos (2 ^ 10)) with 1024%positive. lia. }
      destruct (@DoubleFacts.round_below (v - c)%Q 614399 10 ltac:(lia)
                  ltac:(lia)) as (r & Hr & _ & Hle).
      * lra.
      * change (Double.dyadic 614399 10) with (614399 # 1024)%Q. lra.
      * rewrite Hr. cbn [exceeds].
        change (Double.dyadic 614399 10) with (614399 # 1024)%Q in Hle. lra.
Qed.

End ManagerFacts.

(** X25. [refreshTokenIfNeeded] for a stored token whose expiry decodes
    to a number [e].  When [e] does not exceed the clock in seconds, or
    [e] minus the clock is not below 600, both as doubles, nothing is
    sent and nothing changes.  When [e] exceeds the clock and the
    difference is below 600, the refresh is attempted: an accepted
    refresh stores the token of the answer and keeps the user record
    and the cached addresses; a rejected refresh, and a missing refresh
    token, end the session, set the location to the login page and
    dispatch [userLoggedOut], whose listener removes the cached
    addresses, without a logout request; the call resolves in every
    case.  For a token whose expiry is a whole number [expiry] of
    seconds the refresh is attempted exactly when the clock, in
    milliseconds, lies strictly between [1000 * expiry - 600000] and
    [1000 * expiry]. *)
Theorem refreshTokenIfNeeded_acts_in_the_last_ten_minutes
  (backend : Backend) (w : World) (tok : string) (e : jsnum) :
  auth_token (localStorage w) = Some tok ->
  TokenStore.decodeExpiry tok = Ok e ->
  (~ TokenStore.exceeds e (AuthService.seconds (now w))
   \/ ~ TokenStore.exceeds (Fin 600)
          (Double.sub e (AuthService.seconds (now w))) ->
   fst (AuthStateManager.refreshTokenIfNeeded backend w) = Ok tt
   /\ localStorage (snd (AuthStateManager.refreshTokenIfNeeded backend w))
      = localStorage w
   /\ sessionStorage (snd (AuthStateManager.refreshTokenIfNeeded backend w))
      = sessionStorage w
   /\ href (snd (AuthStateManager.refreshTokenIfNeeded backend w)) = href w
   /\ Page.fetches (snd (AuthStateManager.refreshTokenIfNeeded backend w))
      = Page.fetches w
   /\ Page.dispatched (snd (AuthStateManager.refreshTokenIfNeeded backend w))
      = Page.dispatched w)
  /\ (TokenStore.exceeds e (AuthService.seconds (now w)) ->
      TokenStore.exceeds (Fin 600)
        (Double.sub e (AuthService.seconds (now w))) ->
      (forall stored resp t0,
          refresh_token (localStorage w) = Some stored ->
          stored <> "" ->
          backend (Scenario.refresh_request stored) (now w)
          = (Resolved resp, t0) ->
          success resp = true ->
          fst (AuthStateManager.refreshTokenIfNeeded backend w) = Ok tt
          /\ auth_token
               (localStorage
                  (snd (AuthStateManager.refreshTokenIfNeeded backend w)))
             = Some (AuthService.stored_string (token resp))
          /\ user_data
               (localStorage
                  (snd (AuthStateManager.refreshTokenIfNeeded backend w)))
             = user_data (localStorage w)
          /\ user_addresses
               (localStorage
                  (snd (AuthStateManager.refreshTokenIfNeeded backend w)))
             = user_addresses (localStorage w)
          /\ href (snd (AuthStateManager.refreshTokenIfNeeded backend w))
             = href w
          /\ Page.fetches
               (snd (AuthStateManager.refreshTokenIfNeeded backend w))
             = Scenario.refresh_request stored :: Page.fetches w
          /\ Page.dispatched
               (snd (AuthStateManager.refreshTokenIfNeeded backend w))
             = Page.dispatched w)
      /\ (forall stored,
            refresh_token (localStorage w) = Some stored ->
            stored <> "" ->
            Scenario.rejects
              (fst (backend (Scenario.refresh_request stored) (now w))) ->
            fst (AuthStateManager.refreshTokenIfNeeded backend w) = Ok tt
            /\ Page.signed_out
                 (snd (AuthStateManager.refreshTokenIfNeeded backend w))
            /\ user_addresses
                 (localStorage
                    (snd (AuthStateManager.refreshTokenIfNeeded backend w)))
               = None
            /\ href (snd (AuthStateManager.refreshTokenIfNeeded backend w))
               = "/login.html"
            /\ Page.fetches
                 (snd (AuthStateManager.refreshTokenIfNeeded backend w))
               = Scenario.refresh_request stored :: Page.fetches w
            /\ Page.dispatched
                 (snd (AuthStateManager.refreshTokenIfNeeded backend w))
               = userLoggedOut :: Page.dispatched w)
      /\ (JsString.falsy (refresh_token (localStorage w)) = true ->
          fst (AuthStateManager.refreshTokenIfNeeded backend w) = Ok tt
          /\ Page.signed_out
               (snd (AuthStateManager.refreshTokenIfNeeded backend w))
          /\ user_addresses
               (localStorage
                  (snd (AuthStateManager.refreshTokenIfNeeded backend w)))
             = None
          /\ href (snd (AuthStateManager.refreshTokenIfNeeded backend w))
             = "/login.html"
          /\ Page.fetches
               (snd (AuthStateManager.refreshTokenIfNeeded backend w))
             = Page.fetches w
          /\ Page.dispatched
               (snd (AuthStateManager.refreshTokenIfNeeded backend w))
             = userLoggedOut :: Page.dispatched w))
  /\ (forall payload expiry,
        AuthService.parseJwt tok = Ok payload ->
        TokenStore.whole_seconds payload expiry ->
        (0 <= expiry < 2 ^ 43)%Z ->
        (0 <= now w < 2 ^ 53)%Z ->
        TokenStore.exceeds e (AuthService.seconds (now w))
        /\ TokenStore.exceeds (Fin 600)
             (Double.sub e (AuthService.seconds (now w)))
        <-> (1000 * expiry - 600000 < now w < 1000 * expiry)%Z).
Proof.
  intros Htok Hdec. split; [ | split].
  - intro Hout.
    rewrite (@ManagerFacts.outside_window_run backend w tok e Htok Hdec Hout).
    unfold Page.fetches, Page.dispatched.
    destruct (JsNumber.gt e (AuthService.seconds (now w)));
      repeat split.
  - intros Hlt Hsoon.
    rewrite (@ManagerFacts.in_window_run backend w tok e Htok Hdec Hlt Hsoon).
    clear Hdec Hlt Hsoon.
    destruct w as [[tk rt ud ad] ss hr nw lg]. simpl in Htok. subst tk.
    split; [ | split].
    + intros stored resp t0 Hst Hs Hb Hok. simpl in Hst. subst rt.
      pose proof (SessionFacts.falsy_some Hs) as Hfs. simpl in Hfs.
      unfold Scenario.refresh_request, AuthService.post in *. simpl in Hb.
      unfold AuthService.refreshToken, try_catch, bind,
        AuthService.getRefreshToken, await, AuthService.setTokens, bind,
        AuthService.post, Page.fetches, Page.dispatched.
      simpl. rewrite Hfs. simpl. rewrite Hb. simpl. rewrite Hok. simpl.
      destruct (JsString.falsy (refreshToken resp)); simpl; repeat split.
    + intros stored Hst Hs Hrej. simpl in Hst. subst rt.
      pose proof (SessionFacts.falsy_some Hs) as Hfs. simpl in Hfs.
      unfold Scenario.refresh_request, AuthService.post in *. simpl in Hrej.
      unfold AuthService.refreshToken, AuthService.logoutUser, try_catch, bind,
        AuthService.getRefreshToken, AuthService.getToken, await,
        AuthService.clearAuthData, bind, AuthService.post, Page.fetches,
        Page.dispatched, Page.signed_out.
      simpl. rewrite Hfs. simpl.
      destruct (backend _ nw) as [[resp | x] t0]; simpl in *.
      * rewrite Hrej. simpl. repeat split.
      * repeat split.
    + intro Hnone. simpl in Hnone.
      unfold AuthService.refreshToken, AuthService.logoutUser, try_catch, bind,
        AuthService.getRefreshToken, AuthService.getToken,
        AuthService.clearAuthData, bind, Page.fetches,
        Page.dispatched, Page.signed_out.
      simpl. rewrite Hnone. simpl. repeat split.
  - intros payload expiry Hp Hw He Hms.
    now apply (@ManagerFacts.window_whole_seconds tok payload expiry (now w) e).
Qed.

Lemma refreshTokenIfNeeded_ends_a_refused_session :
  fst (AuthStateManager.refreshTokenIfNeeded Scenario.refusing
         (Scenario.signed_in 99999999939000)) = Ok tt
  /\ Page.signed_out
       (snd (AuthStateManager.refreshTokenIfNeeded Scenario.refusing
               (Scenario.signed_in 99999999939000)))
  /\ user_addresses
       (localStorage
          (snd (AuthStateManager.refreshTokenIfNeeded Scenario.refusing
                  (Scenario.signed_in 99999999939000))))
     = None
  /\ href (snd (AuthStateManager.refreshTokenIfNeeded Scenario.refusing
                  (Scenario.signed_in 99999999939000)))
     = "/login.html"%string
  /\ Page.fetches
       (snd (AuthStateManager.refreshTokenIfNeeded Scenario.refusing
               (Scenario.signed_in 99999999939000)))
     = Scenario.refresh_request "refresh_1"
         :: Page.fetches (Scenario.signed_in 99999999939000)
  /\ Page.dispatched
       (snd (AuthStateManager.refreshTokenIfNeeded Scenario.refusing
               (Scenario.signed_in 99999999939000)))
     = userLoggedOut :: Page.dispatched (Scenario.signed_in 99999999939000).
Proof.
  destruct (@refreshTokenIfNeeded_acts_in_the_last_ten_minutes
              Scenario.refusing (Scenario.signed_in 99999999939000)
              TokenStore.sample_jwt (Double.round 99999999999) eq_refl)
    as (_ & Hin & _).
  - vm_compute. reflexivity.
  - destruct Hin as (_ & Hrej & _).
    + vm_compute. reflexivity.
    + vm_compute. reflexivity.
    + apply (Hrej "refresh_1").
      * reflexivity.
      * discriminate.
      * reflexivity.
Defined.

(** The manager at both ends of the last ten minutes of the sample
    token, whose expiry is 99999999999: a refresh is asked for from
    one millisecond after 99999999399000 until one before
    99999999999000, and not at either bound. *)
Lemma refreshTokenIfNeeded_at_the_bounds :
  Page.fetches
    (snd (AuthStateManager.refreshTokenIfNeeded Scenario.issuing
            (Scenario.signed_in 99999999399000)))
  = []
  /\ Page.fetches
       (snd (AuthStateManager.refreshTokenIfNeeded Scenario.issuing
               (Scenario.signed_in 99999999399001)))
     = [Scenario.refresh_request "refresh_1"]
  /\ Page.fetches
       (snd (AuthStateManager.refreshTokenIfNeeded Scenario.issuing
               (Scenario.signed_in 99999999998999)))
     = [Scenario.refresh_request "refresh_1"]
  /\ Page.fetches
       (snd (AuthStateManager.refreshTokenIfNeeded Scenario.issuing
               (Scenario.signed_in 99999999999000)))
     = [].
Proof. repeat split; vm_compute; reflexivity. Qed.

Module ListenerFacts.

Import AuthStateManager.

(** One callback inside its [try]: the page it leaves, with the console
    error when it threw. *)
Lemma guarded_ok (cb : Listener) (state : AuthState) (w : World) :
  fst (try_catch (call cb state)
         (fun _ => console_error "Listener error:") w) = Ok tt.
Proof.
  unfold try_catch. destruct (call cb state w) as [[[] | e] w']; reflexivity.
Qed.

Lemma notify_ok (ls : list Listener) (state : AuthState) :
  forall w, fst (notifyListeners ls state w) = Ok tt.
Proof.
  induction ls as [ | cb ls IH]; intro w; simpl; [reflexivity | ].
  unfold bind.
  pose proof (guarded_ok cb state w) as H.
  destruct (try_catch _ _ w) as [[[] | e] w']; simpl in H; [apply IH | ].
  discriminate.
Qed.

Lemma notify_app (l1 l2 : list Listener) (state : AuthState) :
  forall w,
    notifyListeners (l1 ++ l2) state w
    = notifyListeners l2 state (snd (notifyListeners l1 state w)).
Proof.
  induction l1 as [ | cb l1 IH]; intro w; simpl; [reflexivity | ].
  unfold bind.
  pose proof (guarded_ok cb state w) as H.
  destruct (try_catch _ _ w) as [[[] | e] w']; simpl in H; [apply IH | ].
  discriminate.
Qed.

Lemma remove_absent (cb : Listener) (ls : list Listener) :
  ~ In (mark cb) (map mark ls) -> removeListener cb ls = ls.
Proof.
  unfold removeListener. induction ls as [ | x ls IH]; simpl; intro H;
    [reflexivity | ].
  destruct (Nat.eqb (mark x) (mark cb)) eqn:E; simpl.
  - apply Nat.eqb_eq in E. tauto.
  - rewrite IH; [reflexivity | tauto].
Qed.

End ListenerFacts.

(** X26. The listeners of the state manager.  [notifyListeners] never
    throws, whatever the callbacks do; a callback added last is called
    after all the others, on the page they leave, and its own failure is
    turned into a console error; [removeListener] leaves no registration
    of the callback, also when it was added more than once, and undoes
    [addListener] for a callback that was not registered before. *)
Theorem notifyListeners_isolates_failures
  (listeners : list AuthStateManager.Listener)
  (callback : AuthStateManager.Listener)
  (state : AuthStateManager.AuthState) (w : World) :
  fst (AuthStateManager.notifyListeners listeners state w) = Ok tt
  /\ AuthStateManager.notifyListeners
       (AuthStateManager.addListener callback listeners) state w
     = (Ok tt,
        snd (try_catch (AuthStateManager.call callback state)
               (fun _ => console_error "Listener error:")
               (snd (AuthStateManager.notifyListeners listeners state w))))
  /\ ~ In (AuthStateManager.mark callback)
         (map AuthStateManager.mark
            (AuthStateManager.removeListener callback
               (AuthStateManager.addListener callback
                  (AuthStateManager.addListener callback listeners))))
  /\ (~ In (AuthStateManager.mark callback)
        (map AuthStateManager.mark listeners) ->
      AuthStateManager.removeListener callback
        (AuthStateManager.addListener callback listeners)
      = listeners).
Proof.
  split; [apply ListenerFacts.notify_ok | ]. split; [ | split].
  - unfold AuthStateManager.addListener. rewrite ListenerFacts.notify_app.
    simpl. unfold bind.
    pose proof (ListenerFacts.guarded_ok callback state
                  (snd (AuthStateManager.notifyListeners listeners state w)))
      as H.
    destruct (try_catch _ _ _) as [[[] | e] w']; simpl in H;
      [reflexivity | discriminate].
  - unfold AuthStateManager.removeListener, AuthStateManager.addListener.
    rewrite in_map_iff. intros (x & Hm & Hin).
    apply filter_In in Hin as [_ Hx]. apply negb_true_iff in Hx.
    apply Nat.eqb_neq in Hx. contradiction.
  - intro Hnew.
    unfold AuthStateManager.removeListener, AuthStateManager.addListener.
    rewrite filter_app. simpl. rewrite Nat.eqb_refl. simpl.
    rewrite app_nil_r. now apply ListenerFacts.remove_absent.
Qed.

(** X27. A login whose answer carries no user leaves the text
    [undefined] under the user key; from then on [getUserProfile] throws
    a [SyntaxError] when it reads the cache, before any request, although
    the access token is there. *)
Theorem login_without_user_breaks_getUserProfile
  (auth_backend backend : Backend) (w : World) (email password : string)
  (resp : Response) (t0 : Z) :
  email <> "" ->
  password <> "" ->
  AuthService.validateEmail email = true ->
  auth_backend (AuthService.post "/auth/login" None (LoginBody email password))
    (now w)
  = (Resolved resp, t0) ->
  success resp = true ->
  JsString.falsy (token resp) = false ->
  user resp = None ->
  user_data (localStorage (snd (AuthService.loginUser auth_backend email
                                  password w)))
  = Some Garbage
  /\ fst (UserService.getUserProfile backend
            (snd (AuthService.loginUser auth_backend email password w)))
     = Throw SyntaxError
  /\ Page.fetches
       (snd (UserService.getUserProfile backend
               (snd (AuthService.loginUser auth_backend email password w))))
     = Page.fetches (snd (AuthService.loginUser auth_backend email password w)).
Proof.
  intros He Hp Hv Hb Hs Ht Hu.
  pose proof (ArrayFacts.eqb_empty He) as He'.
  pose proof (ArrayFacts.eqb_empty Hp) as Hp'.
  destruct w as [[tk rt ud ad] ss hr nw lg]. simpl in Hb.
  unfold AuthService.post in Hb.
  destruct (token resp) as [tok | ] eqn:Etok; [ | discriminate].
  simpl in Ht.
  unfold AuthService.loginUser, try_catch, bind, await, AuthService.setTokens,
    AuthService.setUserData, bind, AuthService.post.
  simpl. rewrite He', Hp', Hv. simpl. rewrite Hb. simpl. rewrite Hs. simpl.
  rewrite Etok, Hu. simpl.
  destruct (JsString.falsy (refreshToken resp)); simpl;
    unfold UserService.getUserProfile, try_catch, bind, AuthService.getToken,
      AuthService.getCurrentUser, Page.fetches; simpl; rewrite Ht; simpl;
    repeat split.
Qed.

Lemma login_without_user_breaks_the_mock_profile :
  user_data
    (localStorage
       (snd (AuthService.loginUser Session.terse "user@example.com"
               "SecurePass123" (Page.anonymous 1700000000000))))
  = Some Garbage
  /\ fst (UserService.getUserProfile UserService.mockBackend
            (snd (AuthService.loginUser Session.terse "user@example.com"
                    "SecurePass123" (Page.anonymous 1700000000000))))
     = Throw SyntaxError
  /\ Page.fetches
       (snd (UserService.getUserProfile UserService.mockBackend
               (snd (AuthService.loginUser Session.terse "user@example.com"
                       "SecurePass123" (Page.anonymous 1700000000000)))))
     = Page.fetches
         (snd (AuthService.loginUser Session.terse "user@example.com"
                 "SecurePass123" (Page.anonymous 1700000000000))).
Proof.
  apply (@login_without_user_breaks_getUserProfile Session.terse
           UserService.mockBackend (Page.anonymous 1700000000000)
           "user@example.com" "SecurePass123" Session.token_only
           1700000000000%Z).
  - discriminate.
  - discriminate.
  - vm_compute. reflexivity.
  - reflexivity.
  - reflexivity.
  - reflexivity.
  - reflexivity.
Defined.

(** * Properties of the code and password operations *)

(** X28. The password operations check their input before the gateway
    is called: for every gateway, [forgotPassword] refuses an empty
    address and an address that is not a standard one, [resetPassword]
    an empty token or password and a password that is not a single-line
    strong one, and [changePassword] a missing access token, an empty
    password and such a new password.  Each refusal throws its message
    and leaves the page as it was but for the console error and, in
    [changePassword], the read of the token. *)
Theorem password_operations_refuse_before_the_gateway
  (gateway : Credentials.Gateway) (w : World) :
  Credentials.forgotPassword gateway "" w
  = (Throw (Error "Email is required"),
     observe (ConsoleError "Forgot password error:") w)
  /\ (forall email,
        email <> "" ->
        ~ Spec.well_formed_email email ->
        Credentials.forgotPassword gateway email w
        = (Throw (Error "Invalid email format"),
           observe (ConsoleError "Forgot password error:") w))
  /\ (forall token newPassword,
        token = "" \/ newPassword = "" ->
        Credentials.resetPassword gateway token newPassword w
        = (Throw (Error "Token and new password are required"),
           observe (ConsoleError "Reset password error:") w))
  /\ (forall token newPassword,
        token <> "" -> newPassword <> "" ->
        ~ (Spec.strong_password newPassword
           /\ Shape.single_line (JsString.chars newPassword)) ->
        Credentials.resetPassword gateway token newPassword w
        = (Throw (Error "Password must be at least 8 characters with uppercase, lowercase, and number"),
           observe (ConsoleError "Reset password error:") w))
  /\ (forall currentPassword newPassword,
        JsString.falsy (auth_token (localStorage w)) = true ->
        Credentials.changePassword gateway currentPassword newPassword w
        = (Throw (Error "User not authenticated"),
           Account.refused_input "Change password error:" w))
  /\ (forall currentPassword newPassword,
        JsString.falsy (auth_token (localStorage w)) = false ->
        currentPassword = "" \/ newPassword = "" ->
        Credentials.changePassword gateway currentPassword newPassword w
        = (Throw (Error "Current and new password are required"),
           Account.refused_input "Change password error:" w))
  /\ (forall currentPassword newPassword,
        JsString.falsy (auth_token (localStorage w)) = false ->
        currentPassword <> "" -> newPassword <> "" ->
        ~ (Spec.strong_password newPassword
           /\ Shape.single_line (JsString.chars newPassword)) ->
        Credentials.changePassword gateway currentPassword newPassword w
        = (Throw (Error "Password must be at least 8 characters with uppercase, lowercase, and number"),
           Account.refused_input "Change password error:" w)).
Proof.
  assert (Hweak : forall p,
             ~ (Spec.strong_password p /\ Shape.single_line (JsString.chars p)) ->
             AuthService.validatePassword p = false).
  { intros p Hp. destruct (AuthService.validatePassword p) eqn:E;
      [ | reflexivity].
    exfalso. apply Hp.
    unfold AuthService.validatePassword, Regex.test in E.
    apply RegexFacts.matches_lang, ShapeFacts.passwordRegex_lang in E.
    unfold Spec.strong_password. now rewrite <- PatternFacts.length_chars. }
  assert (Hor : forall a b : string,
             a = "" \/ b = "" -> String.eqb a "" || String.eqb b "" = true).
  { intros a b [-> | ->]; [reflexivity | apply orb_true_r]. }
  unfold Account.refused_input.
  split; [reflexivity | ]. split; [ | split; [ | split; [ | split; [ | split]]]].
  - intros email He Hbad.
    unfold Credentials.forgotPassword, try_catch.
    rewrite (ArrayFacts.eqb_empty He).
    destruct (AuthService.validateEmail email) eqn:E; [ | reflexivity].
    exfalso. apply Hbad. now apply PatternFacts.validateEmail_spec.
  - intros token newPassword H.
    unfold Credentials.resetPassword, try_catch. now rewrite (Hor _ _ H).
  - intros token newPassword Ht Hp Hbad.
    unfold Credentials.resetPassword, try_catch.
    rewrite (ArrayFacts.eqb_empty Ht), (ArrayFacts.eqb_empty Hp), (Hweak _ Hbad).
    reflexivity.
  - intros currentPassword newPassword Hf.
    unfold Credentials.changePassword, try_catch, bind, AuthService.getToken.
    now rewrite Hf.
  - intros currentPassword newPassword Hf H.
    unfold Credentials.changePassword, try_catch, bind, AuthService.getToken.
    now rewrite Hf, (Hor _ _ H).
  - intros currentPassword newPassword Hf Hc Hp Hbad.
    unfold Credentials.changePassword, try_catch, bind, AuthService.getToken.
    rewrite Hf, (ArrayFacts.eqb_empty Hc), (ArrayFacts.eqb_empty Hp),
      (Hweak _ Hbad).
    reflexivity.
Qed.

(** X29. The code and password operations with input that passes the
    checks.  Whatever the gateway answers becomes the reply: a response
    that is not a success makes the operation resolve with
    [success: false], it does not throw; the message of the response is
    passed on, or the operation's own when the response has none; and
    the page is the one the gateway leaves, the operation stores
    nothing.  A rejection of the gateway is reported and thrown on.
    [resendOtp] checks nothing, so that an empty user is sent as well. *)
Theorem password_operations_answer_with_the_response
  (gateway : Credentials.Gateway) (w : World)
  (userId email token currentPassword newPassword stored : string) :
  AuthService.validateEmail email = true ->
  token <> "" ->
  currentPassword <> "" ->
  AuthService.validatePassword newPassword = true ->
  auth_token (localStorage w) = Some stored ->
  stored <> "" ->
  (forall o w',
      gateway "/auth/resend-otp"
        {| Credentials.authorization := None;
           Credentials.members := [("userId", userId)] |} w = (o, w') ->
      Credentials.resendOtp gateway userId w
      = match o with
        | Ok resp => (Ok (Credentials.answer resp "OTP sent successfully"), w')
        | Throw e => (Throw e, observe (ConsoleError "Resend OTP error:") w')
        end)
  /\ (forall o w',
        gateway "/auth/forgot-password"
          {| Credentials.authorization := None;
             Credentials.members := [("email", email)] |} w = (o, w') ->
        Credentials.forgotPassword gateway email w
        = match o with
          | Ok resp =>
              (Ok (Credentials.answer resp
                     "Password reset link sent to your email"), w')
          | Throw e =>
              (Throw e, observe (ConsoleError "Forgot password error:") w')
          end)
  /\ (forall o w',
        gateway "/auth/reset-password"
          {| Credentials.authorization := None;
             Credentials.members :=
               [("token", token); ("newPassword", newPassword)] |} w
        = (o, w') ->
        Credentials.resetPassword gateway token newPassword w
        = match o with
          | Ok resp =>
              (Ok (Credentials.answer resp "Password reset successful"), w')
          | Throw e =>
              (Throw e, observe (ConsoleError "Reset password error:") w')
          end)
  /\ (forall o w',
        gateway "/auth/change-password"
          {| Credentials.authorization := Some ("Bearer " ++ stored)%string;
             Credentials.members :=
               [("currentPassword", currentPassword);
                ("newPassword", newPassword)] |}
          (observe (LocalGet AuthService.TOKEN_KEY) w)
        = (o, w') ->
        Credentials.changePassword gateway currentPassword newPassword w
        = match o with
          | Ok resp =>
              (Ok (Credentials.answer resp "Password changed successfully"),
               w')
          | Throw e =>
              (Throw e, observe (ConsoleError "Change password error:") w')
          end).
Proof.
  intros Hem Htk Hcur Hpw Hst Hne.
  assert (Hnew : newPassword <> "").
  { intros ->. discriminate Hpw. }
  pose proof (SessionFacts.falsy_some Hne) as Hf.
  split; [ | split; [ | split]]; intros o w' Hg.
  - unfold Credentials.resendOtp, try_catch, bind. rewrite Hg.
    destruct o; reflexivity.
  - assert (He : email <> "") by (intros ->; discriminate Hem).
    unfold Credentials.forgotPassword, try_catch, bind.
    rewrite (ArrayFacts.eqb_empty He), Hem. simpl. rewrite Hg.
    destruct o; reflexivity.
  - unfold Credentials.resetPassword, try_catch, bind.
    rewrite (ArrayFacts.eqb_empty Htk), (ArrayFacts.eqb_empty Hnew), Hpw.
    simpl. rewrite Hg. destruct o; reflexivity.
  - unfold Credentials.changePassword, try_catch, bind, AuthService.getToken.
    rewrite Hst, Hf, (ArrayFacts.eqb_empty Hcur), (ArrayFacts.eqb_empty Hnew),
      Hpw.
    simpl. simpl in Hg. rewrite Hg. destruct o; reflexivity.
Qed.

Lemma password_operations_on_the_shipped_gateway :
  fst (Credentials.resendOtp Credentials.shipped ""
         (Scenario.signed_in 1700000000000))
  = Ok (reply true (Some "OTP sent successfully"))
  /\ fst (Credentials.forgotPassword Credentials.shipped "user@example.com"
            (Scenario.signed_in 1700000000000))
     = Ok (reply true (Some "Password reset link sent"))
  /\ fst (Credentials.resetPassword Credentials.shipped "reset_1"
            "SecurePass123" (Scenario.signed_in 1700000000000))
     = Ok (reply true (Some "Password reset successful"))
  /\ fst (Credentials.changePassword Credentials.shipped "OldPass123"
            "SecurePass123" (Scenario.signed_in 1700000000000))
     = Ok (reply true (Some "Password changed successfully")).
Proof.
  destruct (@password_operations_answer_with_the_response
              Credentials.shipped (Scenario.signed_in 1700000000000)
              "" "user@example.com" "reset_1" "OldPass123" "SecurePass123"
              TokenStore.sample_jwt)
    as (A & B & C & D).
  - vm_compute. reflexivity.
  - discriminate.
  - discriminate.
  - vm_compute. reflexivity.
  - reflexivity.
  - discriminate.
  - rewrite (A _ _ eq_refl), (B _ _ eq_refl), (C _ _ eq_refl),
      (D _ _ eq_refl).
    repeat split.
Defined.

(** * Registration that passes the checks *)

(** X30. [registerUser] with the four required fields, a standard
    address and a strong password, once the backend has answered: on
    success the pending-registration marker holds the address and the
    user identifier of the answer, the call resolves asking for the
    code, and local storage is untouched, so that registering does not
    sign in; on an unsuccessful answer the call throws the message of
    the answer, or the default message, and no marker is stored. *)
Theorem registerUser_stores_the_pending_registration
  (backend : Backend) (w : World) (userData : RegistrationData)
  (email password firstName lastName : string) (resp : Response) (t0 : Z) :
  reg_email userData = Some email ->
  reg_password userData = Some password ->
  reg_firstName userData = Some firstName ->
  reg_lastName userData = Some lastName ->
  firstName <> "" ->
  lastName <> "" ->
  AuthService.validateEmail email = true ->
  AuthService.validatePassword password = true ->
  backend (Registration.register_request email password firstName lastName
             (reg_phone userData)) (now w)
  = (Resolved resp, t0) ->
  (success resp = true ->
   fst (AuthService.registerUser backend userData w)
   = Ok (Registration.reply_awaiting_otp (userId resp))
   /\ sessionStorage (snd (AuthService.registerUser backend userData w))
      = {| pending_registration :=
             Some {| pending_email := email;
                     pending_userId := userId resp |} |}
   /\ localStorage (snd (AuthService.registerUser backend userData w))
      = localStorage w
   /\ Page.dispatched (snd (AuthService.registerUser backend userData w))
      = Page.dispatched w)
  /\ (success resp = false ->
      fst (AuthService.registerUser backend userData w)
      = Throw (Error (or_else (message resp) "Registration failed"))
      /\ sessionStorage (snd (AuthService.registerUser backend userData w))
         = sessionStorage w
      /\ localStorage (snd (AuthService.registerUser backend userData w))
         = localStorage w).
Proof.
  intros He Hp Hfn Hln Hf Hl Hve Hvp Hb.
  assert (Hem : email <> "") by (intros ->; discriminate Hve).
  assert (Hpw : password <> "") by (intros ->; discriminate Hvp).
  unfold Registration.register_request, AuthService.post in Hb.
  unfold AuthService.registerUser, try_catch, bind, await, AuthService.post.
  rewrite He, Hp, Hfn, Hln. simpl.
  rewrite (ArrayFacts.eqb_empty Hem), (ArrayFacts.eqb_empty Hpw),
    (ArrayFacts.eqb_empty Hf), (ArrayFacts.eqb_empty Hl), Hve, Hvp.
  simpl. rewrite Hb.
  split; intro Hs; rewrite Hs; simpl; repeat split.
Qed.

Lemma registerUser_stores_the_pending_newcomer :
  (success (AuthService.mockResponses "/auth/register" 1700000001000) = true ->
   fst (AuthService.registerUser AuthService.mockApiCall Scenario.newcomer
          (Page.anonymous 1700000000000))
   = Ok (Registration.reply_awaiting_otp
           (userId (AuthService.mockResponses "/auth/register" 1700000001000)))
   /\ sessionStorage (snd (AuthService.registerUser AuthService.mockApiCall
                             Scenario.newcomer (Page.anonymous 1700000000000)))
      = {| pending_registration :=
             Some {| pending_email := "user@example.com";
                     pending_userId :=
                       userId (AuthService.mockResponses "/auth/register"
                                 1700000001000) |} |}
   /\ localStorage (snd (AuthService.registerUser AuthService.mockApiCall
                           Scenario.newcomer (Page.anonymous 1700000000000)))
      = localStorage (Page.anonymous 1700000000000)
   /\ Page.dispatched (snd (AuthService.registerUser AuthService.mockApiCall
                              Scenario.newcomer (Page.anonymous 1700000000000)))
      = Page.dispatched (Page.anonymous 1700000000000))
  /\ (success (AuthService.mockResponses "/auth/register" 1700000001000)
      = false ->
      fst (AuthService.registerUser AuthService.mockApiCall Scenario.newcomer
             (Page.anonymous 1700000000000))
      = Throw (Error (or_else
                        (message (AuthService.mockResponses "/auth/register"
                                    1700000001000))
                        "Registration failed"))
      /\ sessionStorage (snd (AuthService.registerUser AuthService.mockApiCall
                                Scenario.newcomer
                                (Page.anonymous 1700000000000)))
         = sessionStorage (Page.anonymous 1700000000000)
      /\ localStorage (snd (AuthService.registerUser AuthService.mockApiCall
                              Scenario.newcomer
                              (Page.anonymous 1700000000000)))
         = localStorage (Page.anonymous 1700000000000)).
Proof.
  apply (@registerUser_stores_the_pending_registration AuthService.mockApiCall
           (Page.anonymous 1700000000000) Scenario.newcomer
           "user@example.com" "SecurePass123" "John" "Doe"
           (AuthService.mockResponses "/auth/register" 1700000001000)
           1700000001000%Z).
  - reflexivity.
  - reflexivity.
  - reflexivity.
  - reflexivity.
  - discriminate.
  - discriminate.
  - vm_compute. reflexivity.
  - vm_compute. reflexivity.
  - reflexivity.
Defined.
